(** * Easy Equities Advisor Bot: intake dialogue and allocation engine

    A shallow embedding of the decision logic of the repository:

    - [DataService]  : [app/data-service.ts]  ([getETFData], [getMarketConditions]);
    - [Engine]       : the advanced portfolio generator ([generateAdvancedPortfolio]);
    - [Page]         : the chat page ([validateAmount], [validateTimeHorizon],
                       [validateRiskTolerance], [generateBotResponse],
                       [generatePortfolio], [generateAdvice]).

    Numbers.  A JavaScript [number] is modelled as an exact rational [Q]:
    every arithmetic step of the source ([+], [-], [*], [/], [Math.min],
    [Math.max], [Math.pow] at a whole exponent) is carried out without
    rounding, and equality of numbers is [Qeq].  A number that the source may
    leave [undefined] is an [option Q].  Module [Binary64] repeats the
    arithmetic of the generator on binary64 numbers, to run it as the host
    does on the requests the page can send.

    Objects.  A JavaScript object used as a dictionary is an association list
    in insertion order, which is the order [Object.keys], [Object.values] and
    [Object.entries] enumerate string keys in.

    Failure.  A rejected promise or a thrown exception is [None]. *)

From Stdlib Require Import QArith Qabs Qround Lqa Lia ZArith Bool.
From Stdlib Require Import String Ascii List DecimalString.
From Stdlib Require PrimFloat.
From Stdlib Require Qpower.
Import ListNotations.

Open Scope string_scope.
Open Scope Q_scope.

(* ================================================================== *)
(** * Host language helpers *)
(* ================================================================== *)

Module JS.

(** [Math.min] and [Math.max] on two numbers. *)
Definition Math_min (a b : Q) : Q := if Qle_bool a b then a else b.
Definition Math_max (a b : Q) : Q := if Qle_bool a b then b else a.

(** The relational operator [a > b]. *)
Definition gt (a b : Q) : bool := negb (Qle_bool a b).
(** The relational operator [a < b]. *)
Definition lt (a b : Q) : bool := negb (Qle_bool b a).

(** Truthiness of a number: every number except zero. *)
Definition truthy_num (x : Q) : bool := negb (Qeq_bool x 0).

(** Truthiness of an optional number: [undefined] is falsy. *)
Definition truthy_onum (x : option Q) : bool :=
  match x with
  | Some v => truthy_num v
  | None => false
  end.

(** Truthiness of a string: every string except the empty one. *)
Definition truthy_str (s : string) : bool :=
  match s with
  | EmptyString => false
  | String _ _ => true
  end.

Definition truthy_ostr (s : option string) : bool :=
  match s with
  | Some v => truthy_str v
  | None => false
  end.

(** The line feed of a template literal. *)
Definition nl : string := String (ascii_of_nat 10) EmptyString.

(** ** Objects as insertion-ordered association lists *)

Definition obj (A : Type) : Type := list (string * A).

(** [o[k]] *)
Fixpoint obj_get {A : Type} (k : string) (o : obj A) : option A :=
  match o with
  | [] => None
  | (k', v) :: o' => if String.eqb k k' then Some v else obj_get k o'
  end.

(** [o[k] = v]: an existing key keeps its place, a new key goes last. *)
Fixpoint obj_set {A : Type} (k : string) (v : A) (o : obj A) : obj A :=
  match o with
  | [] => [(k, v)]
  | (k', v') :: o' =>
      if String.eqb k k' then (k, v) :: o' else (k', v') :: obj_set k v o'
  end.

Definition obj_keys {A : Type} (o : obj A) : list string := map fst o.
Definition obj_values {A : Type} (o : obj A) : list A := map snd o.

(** ** ASCII character classes and [String.prototype.toLowerCase]

    Strings are byte strings.  The answers the page compares against are
    plain ASCII words without the letter k, and no character outside ASCII
    lower-cases to one of their letters, so lower-casing the ASCII capitals
    and leaving every other byte alone decides the same comparisons. *)

Definition is_digit (c : ascii) : bool :=
  let n := nat_of_ascii c in (48 <=? n)%nat && (n <=? 57)%nat.

Definition is_dot (c : ascii) : bool := Ascii.eqb c "."%char.

Definition lower_ascii (c : ascii) : ascii :=
  let n := nat_of_ascii c in
  if (65 <=? n)%nat && (n <=? 90)%nat then ascii_of_nat (n + 32) else c.

Fixpoint toLowerCase (s : string) : string :=
  match s with
  | EmptyString => EmptyString
  | String c s' => String (lower_ascii c) (toLowerCase s')
  end.

(** [s.replace(/[^...]/g, "")]: keep the characters of the class. *)
Fixpoint keep (p : ascii -> bool) (s : string) : string :=
  match s with
  | EmptyString => EmptyString
  | String c s' => if p c then String c (keep p s') else keep p s'
  end.

(** ** [parseInt] and [parseFloat] on the sanitised strings

    The page only ever parses strings it has stripped down to digits
    (and dots), so signs, exponents, white space and radix prefixes do
    not occur. *)

Definition digit_val (c : ascii) : Z := Z.of_nat (nat_of_ascii c - 48).

(** Longest prefix of digits, read in base ten, with the number of digits
    read and the rest of the string. *)
Fixpoint read_digits (acc : Z) (len : nat) (s : string) : Z * nat * string :=
  match s with
  | String c s' =>
      if is_digit c then read_digits (acc * 10 + digit_val c) (S len) s'
      else (acc, len, s)
  | EmptyString => (acc, len, s)
  end.

(** [parseInt(s)]: [None] is [NaN]. *)
Definition parseInt (s : string) : option Z :=
  let '(v, len, _) := read_digits 0 0 s in
  match len with
  | O => None
  | S _ => Some v
  end.

(** [Number.parseFloat(s)]: the longest prefix of the shape
    digits, digits[.]digits or [.]digits; [None] is [NaN].  The value is
    the exact decimal; the host rounds it to binary64, which turns a
    positive number into zero or an infinity only for texts of more than
    three hundred digits. *)
Definition parseFloat (s : string) : option Q :=
  let '(ip, ilen, rest) := read_digits 0 0 s in
  match rest with
  | String c rest' =>
      if is_dot c then
        let '(fp, flen, _) := read_digits 0 0 rest' in
        match ilen, flen with
        | O, O => None
        | _, _ => Some (inject_Z ip + inject_Z fp / inject_Z (10 ^ Z.of_nat flen))
        end
      else
        match ilen with
        | O => None
        | S _ => Some (inject_Z ip)
        end
  | EmptyString =>
      match ilen with
      | O => None
      | S _ => Some (inject_Z ip)
      end
  end.

(** ** Rendering numbers as text

    [Number.prototype.toFixed], [toLocaleString] (whose digit grouping is
    the host locale's) and the plain conversion of a number inside a
    template literal belong to the host; the model takes them as a record
    of functions.  The first argument of [toFixed] is the number of
    fraction digits, that of [toLocaleString] is [maximumFractionDigits]. *)

Record Host : Type := {
  toFixed : nat -> Q -> string;
  toLocaleString : nat -> Q -> string;
  numToString : Q -> string
}.

End JS.

(* ================================================================== *)
(** * app/data-service.ts *)
(* ================================================================== *)

Module DataService.
Import JS.

(** An entry of [ETFData].  [yearToDateReturn] is declared by the type and
    never written.  A price-derived field is [None] when the source leaves
    it [undefined] or computes no finite number for it. *)
Record EtfInfo : Type := {
  description : string;
  price : option Q;
  change : option Q;
  volume : option Q;
  yearToDateReturn : option Q;
  threeMonthReturn : option Q
}.

Definition ETFData : Type := obj EtfInfo.

Inductive Outlook : Type := positive | negative.

Record Factor : Type := { factor : string; impact : string }.

Record MarketAnalysis : Type := {
  ma_description : string;
  factors : list Factor
}.

Record MarketConditions : Type := {
  globalOutlook : Outlook;
  spReturn : Q;
  volatilityIndex : option Q;
  marketAnalysis : MarketAnalysis
}.

(** ** The market-data provider (yahoo-finance2)

    [quote] and [historical] answer [None] when the call rejects. *)

Record Quote : Type := {
  regularMarketPrice : option Q;
  regularMarketChangePercent : option Q;
  regularMarketVolume : option Q
}.

Record HistoricalRow : Type := { close : Q }.

Record Provider : Type := {
  quote : string -> option Quote;
  historical : string -> option (list HistoricalRow)
}.

(** Map of Easy Equities ETF names to Yahoo Finance symbols. *)
Definition ETF_SYMBOLS : obj string :=
  [ ("Satrix Top 40 ETF", "STX40.JO");
    ("CoreShares Total World Stock ETF", "GLOBAL.JO");
    ("Satrix SA Bond ETF", "STXGOV.JO");
    ("NewGold ETF", "GLD.JO");
    ("Satrix MSCI World ETF", "STXWDM.JO");
    ("Sygnia Itrix 4th Industrial Revolution Global Equity ETF", "SYG4IR.JO");
    ("CoreShares S&P South Africa Dividend Aristocrats ETF", "DIVTRX.JO");
    ("Ashburton MidCap ETF", "ASHMID.JO");
    ("Satrix Property ETF", "STXPRO.JO");
    ("Sygnia FAANG Plus Equity ETF", "FAANG.JO");
    ("CoreShares S&P Global Dividend Aristocrats ETF", "GLODIV.JO");
    ("Satrix MSCI Emerging Markets ETF", "STXEMG.JO");
    ("Satrix Fini ETF", "STXFIN.JO") ].

(** [{ description: name }] *)
Definition bare (name : string) : EtfInfo :=
  {| description := name; price := None; change := None; volume := None;
     yearToDateReturn := None; threeMonthReturn := None |}.

(** The three-month return of a quote against the first historical row. *)
Definition threeMonthReturnOf (q : Quote) (h : list HistoricalRow) : option Q :=
  match h with
  | [] => None
  | row :: _ =>
      match regularMarketPrice q with
      | Some p =>
          if Qeq_bool (close row) 0 then None
          else Some (((p - close row) / close row) * 100)
      | None => None
      end
  end.

(** The body of the per-symbol [async] callback of [getETFData], with its
    own [try]/[catch]. *)
Definition fetchETF (prov : Provider) (entry : string * string) : string * EtfInfo :=
  let '(name, symbol) := entry in
  match quote prov symbol with
  | Some q =>
      match historical prov symbol with
      | Some h =>
          (name,
           {| description := name;
              price := regularMarketPrice q;
              change := regularMarketChangePercent q;
              volume := regularMarketVolume q;
              yearToDateReturn := None;
              threeMonthReturn := threeMonthReturnOf q h |})
      | None => (name, bare name)
      end
  | None => (name, bare name)
  end.

(** [results.forEach(({ name, data }) => { etfData[name] = data })] *)
Definition populate {A : Type} (results : list (string * A)) (etfData : obj A)
  : obj A :=
  fold_left (fun etfData r => obj_set (fst r) (snd r) etfData) results etfData.

(** [getETFData].  No callback rejects, so [Promise.all] resolves and the
    outer [catch], which would answer the bare entries, is never entered. *)
Definition getETFData (prov : Provider) : ETFData :=
  populate (map (fetchETF prov) ETF_SYMBOLS) [].

(** An [etfData] object that has an entry for every name of [ETF_SYMBOLS]. *)
Definition covers (etfData : ETFData) : Prop :=
  forall name, In name (obj_keys ETF_SYMBOLS) ->
  exists d, obj_get name etfData = Some d.

Section WithHost.
Variable host : Host.

Definition generateMarketDescription (spReturn : Q) (vix : option Q) : string :=
  let description :=
    if gt spReturn 2 then "Markets are showing strong bullish momentum"
    else if gt spReturn 0 then
      "Markets are slightly positive with moderate growth potential"
    else if gt spReturn (-2) then
      "Markets are showing slight weakness but remain stable"
    else "Markets are experiencing significant downward pressure" in
  match vix with
  | Some v =>
      if truthy_num v then
        if lt v 15 then
          description ++ ", with low volatility indicating stable conditions"
        else if lt v 25 then
          description ++ ", with moderate market volatility"
        else
          description ++ ", with high volatility suggesting increased uncertainty"
      else description
  | None => description
  end.

Definition generateMarketFactors (spReturn : Q) (vix : option Q) : list Factor :=
  [ {| factor := "S&P 500 Performance";
       impact := (if gt spReturn 0 then "Positive" else "Negative")
                 ++ " market sentiment (" ++ toFixed host 2 spReturn
                 ++ "% change)" |} ]
  ++ (match vix with
      | Some v =>
          if truthy_num v then
            [ {| factor := "Market Volatility (VIX)";
                 impact := if lt v 20 then "Low risk environment"
                           else if lt v 30 then "Moderate market uncertainty"
                           else "High market uncertainty" |} ]
          else []
      | None => []
      end)
  ++ [ {| factor := "Portfolio Strategy";
          impact := if gt spReturn 0
                    then "Favoring growth-oriented global ETFs"
                    else "Emphasizing defensive local market exposure" |} ].

(** The context answered by the [catch] of [getMarketConditions]. *)
Definition unavailable : MarketConditions :=
  {| globalOutlook := positive;
     spReturn := 0;
     volatilityIndex := None;
     marketAnalysis := {| ma_description := "Market data unavailable";
                          factors := [] |} |}.

(** [getMarketConditions].  A rejected quote enters the [catch]; so does
    a quote of the index without [regularMarketChangePercent], whose
    [toFixed] call throws inside the [try]. *)
Definition getMarketConditions (prov : Provider) : MarketConditions :=
  match quote prov "^GSPC", quote prov "^VIX" with
  | Some spyQuote, Some vixQuote =>
      match regularMarketChangePercent spyQuote with
      | Some spReturn =>
          let volatilityIndex := regularMarketPrice vixQuote in
          {| globalOutlook := if gt spReturn 0 then positive else negative;
             spReturn := spReturn;
             volatilityIndex := volatilityIndex;
             marketAnalysis :=
               {| ma_description :=
                    generateMarketDescription spReturn volatilityIndex;
                  factors := generateMarketFactors spReturn volatilityIndex |} |}
      | None => unavailable
      end
  | _, _ => unavailable
  end.

End WithHost.

End DataService.

(* ================================================================== *)
(** * The advanced portfolio generator *)
(* ================================================================== *)

Module Engine.
Import JS.
Import DataService.

(** Sequencing of steps that may throw. *)
Notation "x <- e ;; k" :=
  (match e with Some x => k | None => None end)
  (at level 61, e at next level, right associativity).

(** An entry of the [Portfolio] object. *)
Record Etf : Type := {
  allocation : Q;
  description : string;
  price : option Q;
  change : option Q;
  volume : option Q;
  threeMonthReturn : option Q
}.

Definition Portfolio : Type := obj Etf.

Inductive InvestmentType : Type := once_off | monthly.

(** The [UserProfile] of the generator.  The horizon is a whole number of
    years, as the page sends it; [Math.pow] is then a power with an integer
    exponent. *)
Record UserProfile : Type := {
  age : Q;
  riskScore : Q;
  investmentHorizon : Z;
  incomeNeeds : bool;
  investmentType : option InvestmentType;
  monthlyAmount : option Q
}.

Record Analysis : Type := {
  an_description : string;
  an_factors : list Factor;
  rationale : list string
}.

Record PortfolioWithAnalysis : Type := {
  portfolio : Portfolio;
  marketAnalysis : Analysis
}.

(** ** The equity and bond split (source lines 41 to 59) *)

Definition equityAllocation (userProfile : UserProfile) : Q :=
  Math_min 0.9 (Math_max 0.1 ((110 - age userProfile) / 100)).

Definition riskAdjustment (userProfile : UserProfile) : Q :=
  (riskScore userProfile - 5) / 10.

(** [marketConditions.volatilityIndex && marketConditions.volatilityIndex > 25] *)
Definition highVolatility (marketConditions : MarketConditions) : bool :=
  match volatilityIndex marketConditions with
  | Some v => truthy_num v && gt v 25
  | None => false
  end.

(** The pair [(adjustedEquityAllocation, bondAllocation)] as the two mutable
    variables stand after the income adjustment. *)
Definition split (marketConditions : MarketConditions) (userProfile : UserProfile)
  : Q * Q :=
  let bondAllocation := 1 - equityAllocation userProfile in
  let adjustedEquityAllocation :=
    equityAllocation userProfile + riskAdjustment userProfile * 0.2 in
  let adjustedEquityAllocation :=
    if highVolatility marketConditions
    then adjustedEquityAllocation * 0.9
    else adjustedEquityAllocation in
  if incomeNeeds userProfile then
    let bondAllocation := Math_min 0.4 (bondAllocation + 0.1) in
    let adjustedEquityAllocation := 1 - bondAllocation in
    (adjustedEquityAllocation, bondAllocation)
  else (adjustedEquityAllocation, bondAllocation).

Definition adjustedEquityAllocation mc p : Q := fst (split mc p).
Definition bondAllocation mc p : Q := snd (split mc p).

(** ** The monthly projection (source lines 76 to 85) *)

Definition futureValue (monthlyAmount : Q) (investmentHorizon : Z) : Q :=
  let r := 0.07 / 12 in
  let n := (investmentHorizon * 12)%Z in
  monthlyAmount * ((Qpower (1 + r) n - 1) / r) * (1 + r).

(** The guard of the projection: a monthly investment whose monthly amount
    and horizon are both truthy.  It answers the monthly amount. *)
Definition projectionGuard (userProfile : UserProfile) : option Q :=
  match investmentType userProfile, monthlyAmount userProfile with
  | Some monthly, Some m =>
      if truthy_num m && negb (investmentHorizon userProfile =? 0)%Z
      then Some m else None
  | _, _ => None
  end.

(** ** The instrument names *)

Definition GLOBAL_DIVIDEND : string := "CoreShares S&P Global Dividend Aristocrats ETF".
Definition MSCI_WORLD : string := "Satrix MSCI World ETF".
Definition SA_DIVIDEND : string := "CoreShares S&P South Africa Dividend Aristocrats ETF".
Definition EMERGING : string := "Satrix MSCI Emerging Markets ETF".
Definition PROPERTY : string := "Satrix Property ETF".
Definition TOP40 : string := "Satrix Top 40 ETF".
Definition SA_BOND : string := "Satrix SA Bond ETF".

(** The object literal assigned to [portfolio[name]].  Reading a field of
    [etfData[name]] throws when the name is missing from [etfData]. *)
Definition etfEntry (etfData : ETFData) (name : string) (alloc : Q) (desc : string)
  : option Etf :=
  d <- obj_get name etfData ;;
  Some {| allocation := alloc;
          description := desc;
          price := DataService.price d;
          change := DataService.change d;
          volume := DataService.volume d;
          threeMonthReturn := DataService.threeMonthReturn d |}.

(** [portfolio[name] = { allocation: alloc, description: desc, ... }] *)
Definition assign (etfData : ETFData) (name : string) (alloc : Q) (desc : string)
    (portfolio : Portfolio) : option Portfolio :=
  e <- etfEntry etfData name alloc desc ;;
  Some (obj_set name e portfolio).

(** ** Selection of the equity instruments (source lines 87 to 184) *)

Definition selectETFs (etfData : ETFData) (marketConditions : MarketConditions)
    (userProfile : UserProfile) (adjustedEquityAllocation : Q)
    (portfolio : Portfolio) : option Portfolio :=
  match globalOutlook marketConditions with
  | positive =>
      if incomeNeeds userProfile then
        portfolio <- assign etfData GLOBAL_DIVIDEND (adjustedEquityAllocation * 0.4)
                       "Global dividend-growing companies" portfolio ;;
        portfolio <- assign etfData MSCI_WORLD (adjustedEquityAllocation * 0.3)
                       "Global developed market exposure" portfolio ;;
        assign etfData SA_DIVIDEND (adjustedEquityAllocation * 0.3)
          "High-quality dividend-paying SA companies" portfolio
      else
        portfolio <- assign etfData MSCI_WORLD (adjustedEquityAllocation * 0.6)
                       "Global developed market exposure" portfolio ;;
        assign etfData EMERGING (adjustedEquityAllocation * 0.4)
          "Emerging markets exposure" portfolio
  | negative =>
      if incomeNeeds userProfile then
        portfolio <- assign etfData SA_DIVIDEND (adjustedEquityAllocation * 0.5)
                       "High-quality dividend-paying SA companies" portfolio ;;
        portfolio <- assign etfData PROPERTY (adjustedEquityAllocation * 0.3)
                       "Local property income exposure" portfolio ;;
        assign etfData TOP40 (adjustedEquityAllocation * 0.2)
          "Top 40 SA companies for growth" portfolio
      else
        portfolio <- assign etfData TOP40 (adjustedEquityAllocation * 0.7)
                       "Tracks the 40 largest companies on the JSE" portfolio ;;
        assign etfData SA_DIVIDEND (adjustedEquityAllocation * 0.3)
          "High-quality dividend-paying SA companies" portfolio
  end.

(** The [portfolio] object as it stands before normalisation:
    the equity instruments, then the bond instrument. *)
Definition rawPortfolio (etfData : ETFData) (marketConditions : MarketConditions)
    (userProfile : UserProfile) : option Portfolio :=
  let '(adjustedEquityAllocation, bondAllocation) :=
    split marketConditions userProfile in
  portfolio <- selectETFs etfData marketConditions userProfile
                 adjustedEquityAllocation [] ;;
  assign etfData SA_BOND bondAllocation
    "Exposure to South African government bonds" portfolio.

(** ** Normalisation (source lines 197 to 201) *)

(** [Object.values(portfolio).reduce((sum, etf) => sum + etf.allocation, 0)] *)
Definition totalAllocation (portfolio : Portfolio) : Q :=
  fold_left (fun sum etf => sum + allocation etf) (obj_values portfolio) 0.

Definition withAllocation (e : Etf) (a : Q) : Etf :=
  {| allocation := a;
     description := description e;
     price := price e;
     change := change e;
     volume := volume e;
     threeMonthReturn := threeMonthReturn e |}.

(** One round of the [forEach]:
    [portfolio[etf].allocation = portfolio[etf].allocation / totalAllocation].
    Every key visited comes from the object itself, so the read finds it. *)
Definition normalizeKey (totalAllocation : Q) (portfolio : Portfolio) (etf : string)
  : Portfolio :=
  match obj_get etf portfolio with
  | Some e => obj_set etf (withAllocation e (allocation e / totalAllocation)) portfolio
  | None => portfolio
  end.

(** What one round of the [forEach] does to the entry it visits. *)
Definition scaled (t : Q) (kv : string * Etf) : string * Etf :=
  (fst kv, withAllocation (snd kv) (allocation (snd kv) / t)).

(** In [Q] a division by zero answers zero where the source would answer
    [NaN] or an infinity; the divisor is positive on every profile whose
    risk score lies between 1 and 10. *)
Definition normalize (portfolio : Portfolio) : Portfolio :=
  let totalAllocation := totalAllocation portfolio in
  fold_left (normalizeKey totalAllocation) (obj_keys portfolio) portfolio.

Section WithHost.
Variable host : Host.

(** ** The rationale lines (source lines 61 to 85, 133, 181 and 195) *)

Definition percent1 (x : Q) : string := toFixed host 1 x.

Definition monthlyProjection (userProfile : UserProfile) : option string :=
  m <- projectionGuard userProfile ;;
  let FV := futureValue m (investmentHorizon userProfile) in
  Some ("If you invest R" ++ toLocaleString host 2 m ++ " per month for "
        ++ numToString host (inject_Z (investmentHorizon userProfile))
        ++ " years (assuming a 7% annual return), your projected portfolio value could be approximately R"
        ++ toLocaleString host 0 FV ++ ".").

Definition rationaleOf (marketConditions : MarketConditions)
    (userProfile : UserProfile) : list string :=
  let bondAllocation := bondAllocation marketConditions userProfile in
  [ "Age-based equity allocation: "
      ++ percent1 (equityAllocation userProfile * 100)
      ++ "% based on age " ++ numToString host (age userProfile);
    "Risk adjustment: " ++ percent1 (riskAdjustment userProfile * 20)
      ++ "% shift based on risk score " ++ numToString host (riskScore userProfile);
    "Investment horizon: "
      ++ numToString host (inject_Z (investmentHorizon userProfile)) ++ " years" ]
  ++ (if incomeNeeds userProfile
      then ["Income requirement: Increase allocation to dividend-paying ETFs and bonds"]
      else [])
  ++ (if highVolatility marketConditions
      then ["Market volatility adjustment: -10% equity due to high VIX ("
            ++ match volatilityIndex marketConditions with
               | Some v => percent1 v
               | None => ""
               end ++ ")"]
      else [])
  ++ (match projectionGuard userProfile with
      | Some _ =>
          ["Projection includes monthly compounding and assumes a 7% average annual return. Actual returns may vary."]
      | None => []
      end)
  ++ [ match globalOutlook marketConditions, incomeNeeds userProfile with
       | positive, true =>
           "Global market outlook is positive: Balanced allocation between global and local dividend-paying ETFs"
       | positive, false =>
           "Global market outlook is positive: Increased allocation to international markets"
       | negative, true =>
           "Market outlook is cautious: Focus on stable local dividend and property income"
       | negative, false =>
           "Global market outlook is cautious: Focusing on stable local market exposure"
       end ]
  ++ [ "Fixed income allocation: " ++ percent1 (bondAllocation * 100) ++ "% for "
       ++ (if incomeNeeds userProfile then "income and" else "") ++ " stability" ].

(** The [description] of the returned [marketAnalysis]. *)
Definition narrative (marketConditions : MarketConditions)
    (userProfile : UserProfile) : string :=
  ma_description (DataService.marketAnalysis marketConditions)
  ++ match monthlyProjection userProfile with
     | Some projection => nl ++ nl ++ projection
     | None => ""
     end.

(** ** [generateAdvancedPortfolio]

    [generateAdvancedPortfolioWith] is the body of the function after its two
    [await]s; [amount] is accepted and never read. *)
Definition generateAdvancedPortfolioWith (etfData : ETFData)
    (marketConditions : MarketConditions) (userProfile : UserProfile) (amount : Q)
  : option PortfolioWithAnalysis :=
  portfolio <- rawPortfolio etfData marketConditions userProfile ;;
  Some {| portfolio := normalize portfolio;
          marketAnalysis :=
            {| an_description := narrative marketConditions userProfile;
               an_factors := factors (DataService.marketAnalysis marketConditions);
               rationale := rationaleOf marketConditions userProfile |} |}.

Definition generateAdvancedPortfolio (prov : Provider) (userProfile : UserProfile)
    (amount : Q) : option PortfolioWithAnalysis :=
  let etfData := getETFData prov in
  let marketConditions := getMarketConditions host prov in
  generateAdvancedPortfolioWith etfData marketConditions userProfile amount.

End WithHost.

(** ** Views of an allocation plan *)

(** The mapping of instrument names to weights. *)
Definition weights (portfolio : Portfolio) : obj Q :=
  map (fun kv => (fst kv, allocation (snd kv))) portfolio.

Definition sumWeights (w : obj Q) : Q :=
  fold_right (fun kv acc => snd kv + acc) 0 w.

(** The weight of one instrument; an absent instrument weighs nothing. *)
Definition weightOf (name : string) (portfolio : Portfolio) : Q :=
  match obj_get name portfolio with
  | Some e => allocation e
  | None => 0
  end.

(** A profile with other projection inputs and everything else unchanged. *)
Definition withInvestment (p : UserProfile) (ty : option InvestmentType)
    (m : option Q) : UserProfile :=
  {| age := age p; riskScore := riskScore p;
     investmentHorizon := investmentHorizon p; incomeNeeds := incomeNeeds p;
     investmentType := ty; monthlyAmount := m |}.

(** A profile with another income need and everything else unchanged. *)
Definition withIncomeNeeds (p : UserProfile) (income : bool) : UserProfile :=
  {| age := age p; riskScore := riskScore p;
     investmentHorizon := investmentHorizon p; incomeNeeds := income;
     investmentType := investmentType p; monthlyAmount := monthlyAmount p |}.

(** The equity part of a plan: every instrument but the bond instrument. *)
Definition equityWeight (portfolio : Portfolio) : Q :=
  sumWeights (filter (fun kv => negb (String.eqb (fst kv) SA_BOND)) (weights portfolio)).

End Engine.

(* ================================================================== *)
(** * The chat page: validators and the intake dialogue *)
(* ================================================================== *)

Module Page.
Import JS.

(** The partial profile held in the page's state.  A field that is
    [undefined] is [None].  [investmentAmount] and [monthlyAmount] hold the
    number whose decimal text ([amount.toString()]) the source stores and
    later reads back with [Number(...)]. *)
Record UserProfile : Type := {
  investmentGoal : option string;
  timeHorizon : option Z;
  riskTolerance : option string;
  incomeNeeds : option string;
  investmentAmount : option Q;
  investmentType : option Engine.InvestmentType;
  monthlyAmount : option Q
}.

(** [useState<Partial<UserProfile>>({})] *)
Definition emptyProfile : UserProfile :=
  {| investmentGoal := None; timeHorizon := None; riskTolerance := None;
     incomeNeeds := None; investmentAmount := None; investmentType := None;
     monthlyAmount := None |}.

(** ** Validators (source lines 148 to 164); [None] is [null] *)

Definition validateTimeHorizon (input : string) : option Z :=
  match parseInt (keep is_digit (toLowerCase input)) with
  | Some years => if (0 <? years)%Z && (years <=? 50)%Z then Some years else None
  | None => None
  end.

Definition validateRiskTolerance (input : string) : option string :=
  let risk := toLowerCase input in
  if existsb (String.eqb risk) ["low"; "medium"; "high"] then Some risk else None.

Definition validateAmount (input : string) : option Q :=
  match parseFloat (keep (fun c => is_digit c || is_dot c) input) with
  | Some amount => if gt amount 0 then Some amount else None
  | None => None
  end.

(** ** Truthiness of the profile fields, as the [if] chain tests them *)

Definition truthy_oint (x : option Z) : bool :=
  match x with
  | Some v => negb (v =? 0)%Z
  | None => false
  end.

(** A stored amount is the decimal text of a number, never the empty text. *)
Definition truthy_oamount (x : option Q) : bool :=
  match x with
  | Some _ => true
  | None => false
  end.

Definition truthy_otype (x : option Engine.InvestmentType) : bool :=
  match x with
  | Some _ => true
  | None => false
  end.

Definition isMonthly (x : option Engine.InvestmentType) : bool :=
  match x with
  | Some Engine.monthly => true
  | _ => false
  end.

(** ** The server round trip of [generatePortfolio] (source lines 279 to 317)

    [reachable] tells whether the request to [/api/portfolio] gets through;
    the route answers status 500 when the generator throws.  Either failure
    makes [generatePortfolio] answer [null]. *)

Record World : Type := {
  host : Host;
  prov : DataService.Provider;
  reachable : bool
}.

Definition requestProfile (profile : UserProfile) : Engine.UserProfile :=
  {| Engine.age := 30;
     Engine.riskScore :=
       match riskTolerance profile with
       | Some risk =>
           if String.eqb risk "low" then 3
           else if String.eqb risk "medium" then 5 else 8
       | None => 8
       end;
     Engine.investmentHorizon :=
       if truthy_oint (timeHorizon profile)
       then match timeHorizon profile with Some y => y | None => 5%Z end
       else 5%Z;
     Engine.incomeNeeds :=
       match incomeNeeds profile with
       | Some a => String.eqb a "yes"
       | None => false
       end;
     Engine.investmentType := investmentType profile;
     Engine.monthlyAmount := None |}.

(** [Number(undefined)] is [NaN]; the generator never reads the amount. *)
Definition requestAmount (profile : UserProfile) : option Q :=
  if isMonthly (investmentType profile) && truthy_oamount (monthlyAmount profile)
  then monthlyAmount profile
  else investmentAmount profile.

Definition generatePortfolio (w : World) (profile : UserProfile)
  : option Engine.PortfolioWithAnalysis :=
  if reachable w then
    Engine.generateAdvancedPortfolio (host w) (prov w) (requestProfile profile)
      (match requestAmount profile with Some a => a | None => 0 end)
  else None.

(** ** [generateAdvice] (source lines 319 to 376) *)

Definition orUndefined (s : option string) : string :=
  match s with
  | Some v => v
  | None => "undefined"
  end.

(** The bullet of the advice text, U+2022 in UTF-8. *)
Definition bullet : string :=
  String (ascii_of_nat 226) (String (ascii_of_nat 128)
    (String (ascii_of_nat 162) EmptyString)).

Definition adviceRow (h : Host) (amount : Q) (row : string * Engine.Etf) : string :=
  let '(etf, details) := row in
  let allocation := Engine.allocation details * 100 in
  let etfAmount := amount * Engine.allocation details in
  "| " ++ etf ++ " | " ++ toFixed h 1 allocation ++ "% | R"
  ++ toFixed h 2 etfAmount ++ " | " ++ Engine.description details ++ " |" ++ nl.

Definition generateAdvice (h : Host) (portfolio : Engine.Portfolio) (amount : Q)
    (profile : UserProfile) : string :=
  "Based on your profile:" ++ nl ++ nl
  ++ "Investment Goal: " ++ orUndefined (investmentGoal profile) ++ nl
  ++ "Time Horizon: "
  ++ orUndefined (option_map (fun y => numToString h (inject_Z y)) (timeHorizon profile))
  ++ " years" ++ nl
  ++ "Risk Tolerance: " ++ orUndefined (riskTolerance profile) ++ nl
  ++ "Income Needs: " ++ orUndefined (incomeNeeds profile) ++ nl
  ++ (if isMonthly (investmentType profile)
      then "Investment Type: Monthly" ++ nl
           ++ "Monthly Amount: R" ++ toFixed h 2 amount ++ nl
      else "Investment Type: Once-off" ++ nl
           ++ "Investment Amount: R" ++ toFixed h 2 amount ++ nl)
  ++ nl ++ "Here's your personalized Easy Equities portfolio:" ++ nl ++ nl
  ++ "Model Portfolio (Table):" ++ nl ++ nl
  ++ "| ETF | Allocation | Amount (R) | Description |" ++ nl
  ++ "| --- | ---------- | ---------- | ----------- |" ++ nl
  ++ String.concat "" (map (adviceRow h amount) portfolio)
  ++ (if isMonthly (investmentType profile)
      then nl ++ "Monthly Investment Strategy:" ++ nl ++ nl
           ++ bullet ++ " Consider setting up a monthly debit order for consistent investing (rand-cost averaging)" ++ nl
           ++ bullet ++ " Review your portfolio allocation every 6-12 months" ++ nl
           ++ bullet ++ " Reinvest dividends to maximize compounding" ++ nl ++ nl
      else "")
  ++ (match timeHorizon profile with
      | Some y =>
          if (10 <? y)%Z
          then "Long-term Investment Strategy:" ++ nl ++ nl
               ++ bullet ++ " Consider automatic reinvestment of dividends" ++ nl
               ++ bullet ++ " Plan for periodic rebalancing (every 6-12 months)" ++ nl
               ++ bullet ++ " Focus on cost-averaging through regular contributions" ++ nl ++ nl
          else ""
      | None => ""
      end)
  ++ (match incomeNeeds profile with
      | Some a =>
          if String.eqb a "yes"
          then "Income Strategy:" ++ nl ++ nl
               ++ bullet ++ " Consider setting up a quarterly dividend withdrawal plan" ++ nl
               ++ bullet ++ " Monitor dividend payment schedules of your ETFs" ++ nl
               ++ bullet ++ " Maintain a cash buffer for consistent income" ++ nl ++ nl
          else ""
      | None => ""
      end)
  ++ "Implementation Steps:" ++ nl ++ nl
  ++ "1. Log in to your Easy Equities account" ++ nl
  ++ "2. Navigate to the 'Buy' section" ++ nl
  ++ "3. Search for each ETF listed above" ++ nl
  ++ "4. Enter the Rand amount for each ETF as calculated above" ++ nl
  ++ "5. Review and confirm your orders" ++ nl ++ nl
  ++ "Remember to regularly review and rebalance your portfolio. Consider setting up a monthly debit order to consistently invest over time."
  ++ nl ++ nl
  ++ "Disclaimer: This is a simplified model and should not be considered as professional financial advice. Always do your own research and consider consulting with a qualified financial advisor before making investment decisions.".

(** ** The prompts and re-prompts of the dialogue *)

Definition ASK_HORIZON : string :=
  "How long do you plan to invest for? Please specify the number of years (e.g., 5 years, 10 years, etc.)".
Definition ASK_RISK : string := "What's your risk tolerance? (Low, Medium, or High)".
Definition ASK_INCOME : string := "Do you need regular income from this investment? (Yes/No)".
Definition ASK_AMOUNT : string := "How much are you planning to invest? (in Rands)".
Definition ASK_TYPE : string :=
  "Is this a once-off lump sum investment or a recurring monthly investment? (Type 'once-off' or 'monthly')".
Definition ASK_MONTHLY : string := "What is the monthly amount you plan to invest? (in Rands)".

Definition RETRY_AMOUNT : string := "Please enter a valid investment amount (e.g., 10000)".
Definition RETRY_HORIZON : string :=
  "Please enter a valid time horizon in years (between 1 and 50 years)".
Definition RETRY_RISK : string := "Please specify your risk tolerance as Low, Medium, or High".
Definition RETRY_INCOME : string := "Please answer Yes or No regarding your income needs".
Definition RETRY_TYPE : string :=
  "Please specify 'once-off' for a lump sum or 'monthly' for a recurring investment.".
Definition RETRY_MONTHLY : string :=
  "Please enter a valid monthly investment amount (e.g., 1000)".

Definition APOLOGY : string :=
  "I apologize, but I couldn't generate a portfolio at this time. Please try again later.".
Definition ALREADY_DONE : string :=
  "I've already provided a portfolio recommendation. If you'd like a new one, please refresh the page to start over.".

(** ** [generateBotResponse] (source lines 184 to 277)

    One turn of the dialogue: the profile the page holds afterwards, the
    message appended to the conversation, and whether the turn went on to
    portfolio generation, which is what ends the intake. *)

Record Turn : Type := {
  profileAfter : UserProfile;
  botResponse : string;
  isFinal : bool
}.

Definition setInvestmentGoal (p : UserProfile) (v : string) : UserProfile :=
  {| investmentGoal := Some v; timeHorizon := timeHorizon p;
     riskTolerance := riskTolerance p; incomeNeeds := incomeNeeds p;
     investmentAmount := investmentAmount p; investmentType := investmentType p;
     monthlyAmount := monthlyAmount p |}.

Definition setTimeHorizon (p : UserProfile) (v : Z) : UserProfile :=
  {| investmentGoal := investmentGoal p; timeHorizon := Some v;
     riskTolerance := riskTolerance p; incomeNeeds := incomeNeeds p;
     investmentAmount := investmentAmount p; investmentType := investmentType p;
     monthlyAmount := monthlyAmount p |}.

Definition setRiskTolerance (p : UserProfile) (v : string) : UserProfile :=
  {| investmentGoal := investmentGoal p; timeHorizon := timeHorizon p;
     riskTolerance := Some v; incomeNeeds := incomeNeeds p;
     investmentAmount := investmentAmount p; investmentType := investmentType p;
     monthlyAmount := monthlyAmount p |}.

Definition setIncomeNeeds (p : UserProfile) (v : string) : UserProfile :=
  {| investmentGoal := investmentGoal p; timeHorizon := timeHorizon p;
     riskTolerance := riskTolerance p; incomeNeeds := Some v;
     investmentAmount := investmentAmount p; investmentType := investmentType p;
     monthlyAmount := monthlyAmount p |}.

Definition setInvestmentAmount (p : UserProfile) (v : Q) : UserProfile :=
  {| investmentGoal := investmentGoal p; timeHorizon := timeHorizon p;
     riskTolerance := riskTolerance p; incomeNeeds := incomeNeeds p;
     investmentAmount := Some v; investmentType := investmentType p;
     monthlyAmount := monthlyAmount p |}.

Definition setInvestmentType (p : UserProfile) (v : Engine.InvestmentType)
  : UserProfile :=
  {| investmentGoal := investmentGoal p; timeHorizon := timeHorizon p;
     riskTolerance := riskTolerance p; incomeNeeds := incomeNeeds p;
     investmentAmount := investmentAmount p; investmentType := Some v;
     monthlyAmount := monthlyAmount p |}.

Definition setMonthlyAmount (p : UserProfile) (v : Q) : UserProfile :=
  {| investmentGoal := investmentGoal p; timeHorizon := timeHorizon p;
     riskTolerance := riskTolerance p; incomeNeeds := incomeNeeds p;
     investmentAmount := investmentAmount p; investmentType := investmentType p;
     monthlyAmount := Some v |}.

(** The closing of a completed intake: generate the portfolio and word the
    advice, or apologise. *)
Definition recommend (w : World) (updatedProfile : UserProfile) (amount : option Q)
  : Turn :=
  {| profileAfter := updatedProfile;
     botResponse :=
       match generatePortfolio w updatedProfile with
       | Some portfolioData =>
           generateAdvice (host w) (Engine.portfolio portfolioData)
             (match amount with Some a => a | None => 0 end) updatedProfile
       | None => APOLOGY
       end;
     isFinal := true |}.

Definition reply (p : UserProfile) (message : string) : Turn :=
  {| profileAfter := p; botResponse := message; isFinal := false |}.

(** The answer to the type question, [None] when it is neither word. *)
Definition readType (userInput : string) : option Engine.InvestmentType :=
  let type := toLowerCase userInput in
  if String.eqb type "once-off" then Some Engine.once_off
  else if String.eqb type "monthly" then Some Engine.monthly
  else None.

Definition generateBotResponse (w : World) (userProfile : UserProfile)
    (userInput : string) : Turn :=
  let updatedProfile := userProfile in
  if negb (truthy_ostr (investmentGoal updatedProfile)) then
    match validateAmount userInput with
    | Some amount =>
        if truthy_num amount
        then reply (setInvestmentGoal updatedProfile userInput) ASK_HORIZON
        else reply userProfile RETRY_AMOUNT
    | None => reply userProfile RETRY_AMOUNT
    end
  else if negb (truthy_oint (timeHorizon updatedProfile)) then
    match validateTimeHorizon userInput with
    | Some timeHorizon =>
        if negb (timeHorizon =? 0)%Z
        then reply (setTimeHorizon updatedProfile timeHorizon) ASK_RISK
        else reply userProfile RETRY_HORIZON
    | None => reply userProfile RETRY_HORIZON
    end
  else if negb (truthy_ostr (riskTolerance updatedProfile)) then
    match validateRiskTolerance userInput with
    | Some riskTolerance =>
        if truthy_str riskTolerance
        then reply (setRiskTolerance updatedProfile riskTolerance) ASK_INCOME
        else reply userProfile RETRY_RISK
    | None => reply userProfile RETRY_RISK
    end
  else if negb (truthy_ostr (incomeNeeds updatedProfile)) then
    let incomeNeeds := toLowerCase userInput in
    if String.eqb incomeNeeds "yes" || String.eqb incomeNeeds "no"
    then reply (setIncomeNeeds updatedProfile incomeNeeds) ASK_AMOUNT
    else reply userProfile RETRY_INCOME
  else if negb (truthy_oamount (investmentAmount updatedProfile)) then
    match validateAmount userInput with
    | Some amount =>
        if truthy_num amount
        then reply (setInvestmentAmount updatedProfile amount) ASK_TYPE
        else reply userProfile RETRY_AMOUNT
    | None => reply userProfile RETRY_AMOUNT
    end
  else if negb (truthy_otype (investmentType updatedProfile)) then
    match readType userInput with
    | Some Engine.monthly =>
        reply (setInvestmentType updatedProfile Engine.monthly) ASK_MONTHLY
    | Some Engine.once_off =>
        let updatedProfile := setInvestmentType updatedProfile Engine.once_off in
        recommend w updatedProfile (investmentAmount updatedProfile)
    | None => reply userProfile RETRY_TYPE
    end
  else if isMonthly (investmentType updatedProfile)
          && negb (truthy_oamount (monthlyAmount updatedProfile)) then
    match validateAmount userInput with
    | Some monthly =>
        if truthy_num monthly
        then
          let updatedProfile := setMonthlyAmount updatedProfile monthly in
          recommend w updatedProfile (monthlyAmount updatedProfile)
        else reply userProfile RETRY_MONTHLY
    | None => reply userProfile RETRY_MONTHLY
    end
  else reply userProfile ALREADY_DONE.

(** ** The dialogue as a state machine *)

(** The field the [if] chain asks for next; [None] once the intake is over. *)
Inductive Field : Type :=
| FGoal | FHorizon | FRisk | FIncome | FAmount | FType | FMonthly.

Definition pending (p : UserProfile) : option Field :=
  if negb (truthy_ostr (investmentGoal p)) then Some FGoal
  else if negb (truthy_oint (timeHorizon p)) then Some FHorizon
  else if negb (truthy_ostr (riskTolerance p)) then Some FRisk
  else if negb (truthy_ostr (incomeNeeds p)) then Some FIncome
  else if negb (truthy_oamount (investmentAmount p)) then Some FAmount
  else if negb (truthy_otype (investmentType p)) then Some FType
  else if isMonthly (investmentType p) && negb (truthy_oamount (monthlyAmount p))
  then Some FMonthly
  else None.

Definition notNull {A : Type} (x : option A) : bool :=
  match x with
  | Some _ => true
  | None => false
  end.

(** Whether an answer passes the validator of a field: the validator does
    not answer [null], or the inline comparison of the answer succeeds. *)
Definition accepts (f : Field) (userInput : string) : bool :=
  match f with
  | FGoal | FAmount | FMonthly => notNull (validateAmount userInput)
  | FHorizon => notNull (validateTimeHorizon userInput)
  | FRisk => notNull (validateRiskTolerance userInput)
  | FIncome =>
      let a := toLowerCase userInput in String.eqb a "yes" || String.eqb a "no"
  | FType =>
      let t := toLowerCase userInput in
      String.eqb t "once-off" || String.eqb t "monthly"
  end.

Definition reprompt (f : Field) : string :=
  match f with
  | FGoal | FAmount => RETRY_AMOUNT
  | FHorizon => RETRY_HORIZON
  | FRisk => RETRY_RISK
  | FIncome => RETRY_INCOME
  | FType => RETRY_TYPE
  | FMonthly => RETRY_MONTHLY
  end.

(** Whether a field is set, that is truthy, in a profile. *)
Definition isSet (f : Field) (p : UserProfile) : bool :=
  match f with
  | FGoal => truthy_ostr (investmentGoal p)
  | FHorizon => truthy_oint (timeHorizon p)
  | FRisk => truthy_ostr (riskTolerance p)
  | FIncome => truthy_ostr (incomeNeeds p)
  | FAmount => truthy_oamount (investmentAmount p)
  | FType => truthy_otype (investmentType p)
  | FMonthly => truthy_oamount (monthlyAmount p)
  end.






(** The dialogue fed a list of answers, one turn each: the turns' replies
    in order and the profile held at the end. *)
Fixpoint converse (w : World) (p : UserProfile) (inputs : list string)
  : list Turn * UserProfile :=
  match inputs with
  | [] => ([], p)
  | userInput :: rest =>
      let t := generateBotResponse w p userInput in
      let '(ts, q) := converse w (profileAfter t) rest in
      (t :: ts, q)
  end.

(** The invariant of the dialogue: each field is set only if the one before
    it is, and a monthly amount only under a monthly investment type. *)
Definition ordered (p : UserProfile) : Prop :=
  (isSet FHorizon p = true -> isSet FGoal p = true) /\
  (isSet FRisk p = true -> isSet FHorizon p = true) /\
  (isSet FIncome p = true -> isSet FRisk p = true) /\
  (isSet FAmount p = true -> isSet FIncome p = true) /\
  (isSet FType p = true -> isSet FAmount p = true) /\
  (isSet FMonthly p = true -> isMonthly (investmentType p) = true).

(** The profiles the page can hold: the empty one and whatever a turn
    leaves behind. *)
Inductive reachableProfile (w : World) : UserProfile -> Prop :=
| reach_empty : reachableProfile w emptyProfile
| reach_turn : forall p userInput,
    reachableProfile w p ->
    reachableProfile w (profileAfter (generateBotResponse w p userInput)).

End Page.

(* ================================================================== *)
(** * The arithmetic of the generator in binary64 *)
(* ================================================================== *)

(** The numbers of the host are binary64 floating-point numbers.  This
    module repeats the arithmetic of source lines 41 to 59, 87 to 194 and
    197 to 201 on them, every literal rounded to the nearest binary64 number
    as the host reads it, so that plans can be run bit for bit. *)
Module Binary64.
Import PrimFloat.
Local Open Scope float_scope.
#[local] Set Warnings "-inexact-float".

Definition Math_min (a b : float) : float := if a <=? b then a else b.
Definition Math_max (a b : float) : float := if a <=? b then b else a.

Definition split (age riskScore : float) (highVolatility incomeNeeds : bool)
  : float * float :=
  let equityAllocation := Math_min 0.9 (Math_max 0.1 ((110 - age) / 100)) in
  let bondAllocation := 1 - equityAllocation in
  let riskAdjustment := (riskScore - 5) / 10 in
  let adjustedEquityAllocation := equityAllocation + riskAdjustment * 0.2 in
  let adjustedEquityAllocation :=
    if highVolatility then adjustedEquityAllocation * 0.9
    else adjustedEquityAllocation in
  if incomeNeeds then
    let bondAllocation := Math_min 0.4 (bondAllocation + 0.1) in
    let adjustedEquityAllocation := 1 - bondAllocation in
    (adjustedEquityAllocation, bondAllocation)
  else (adjustedEquityAllocation, bondAllocation).

Definition rawWeights (outlook : DataService.Outlook) (incomeNeeds : bool)
    (adjustedEquityAllocation bondAllocation : float) : JS.obj float :=
  (match outlook, incomeNeeds with
   | DataService.positive, true =>
       [ (Engine.GLOBAL_DIVIDEND, adjustedEquityAllocation * 0.4);
         (Engine.MSCI_WORLD, adjustedEquityAllocation * 0.3);
         (Engine.SA_DIVIDEND, adjustedEquityAllocation * 0.3) ]
   | DataService.positive, false =>
       [ (Engine.MSCI_WORLD, adjustedEquityAllocation * 0.6);
         (Engine.EMERGING, adjustedEquityAllocation * 0.4) ]
   | DataService.negative, true =>
       [ (Engine.SA_DIVIDEND, adjustedEquityAllocation * 0.5);
         (Engine.PROPERTY, adjustedEquityAllocation * 0.3);
         (Engine.TOP40, adjustedEquityAllocation * 0.2) ]
   | DataService.negative, false =>
       [ (Engine.TOP40, adjustedEquityAllocation * 0.7);
         (Engine.SA_DIVIDEND, adjustedEquityAllocation * 0.3) ]
   end ++ [ (Engine.SA_BOND, bondAllocation) ])%list.

(** [reduce((sum, etf) => sum + etf.allocation, 0)], from the left. *)
Definition total (w : JS.obj float) : float :=
  fold_left (fun sum kv => sum + snd kv) w 0.

Definition weights (age riskScore : float) (highVolatility incomeNeeds : bool)
    (outlook : DataService.Outlook) : JS.obj float :=
  let '(adjustedEquityAllocation, bondAllocation) :=
    split age riskScore highVolatility incomeNeeds in
  let raw := rawWeights outlook incomeNeeds adjustedEquityAllocation bondAllocation in
  let totalAllocation := total raw in
  map (fun kv => (fst kv, snd kv / totalAllocation)) raw.

(** Whether two numbers differ by at most 1e-9. *)
Definition near (a b : float) : bool := abs (a - b) <=? 1e-9.

(** The requests the page can send: age 30, a risk score of 3, 5 or 8, any
    income need, outlook and volatility regime. *)
Definition pageRequests : list (float * bool * bool * DataService.Outlook) :=
  list_prod (list_prod (list_prod [3; 5; 8] [false; true]) [false; true])
            [DataService.positive; DataService.negative].

(** The whole ages from 0 to 120 and the risk scores from 1 to 10. *)
Fixpoint count (n : nat) (from : float) : list float :=
  match n with
  | O => []
  | S n' => from :: count n' (from + 1)
  end.

Definition ages : list float := count 121 0.

Definition riskScores : list float := [1; 2; 3; 4; 5; 6; 7; 8; 9; 10].

(** Every age of [ages] with every risk score, volatility regime, income
    need and outlook. *)
Definition requests : list (float * float * bool * bool * DataService.Outlook) :=
  list_prod (list_prod (list_prod (list_prod ages riskScores) [false; true])
                       [false; true])
            [DataService.positive; DataService.negative].

Definition inside (x : float) : bool := (0 <? x) && (x <? 1).

Definition weightOf (name : string) (w : JS.obj float) : float :=
  match JS.obj_get name w with
  | Some x => x
  | None => 0
  end.

End Binary64.

(* ================================================================== *)
(** * The written specification of the instrument table *)
(* ================================================================== *)

Module Spec.
Import DataService.

(** The decision table of the specification, keyed by outlook and income
    need; each cell names its instruments with their share of the equity
    allocation. *)
Definition basket (outlook : Outlook) (incomeNeeds : bool) : JS.obj Q :=
  match outlook, incomeNeeds with
  | positive, true =>
      [ (Engine.GLOBAL_DIVIDEND, 0.4); (Engine.MSCI_WORLD, 0.3);
        (Engine.SA_DIVIDEND, 0.3) ]
  | positive, false =>
      [ (Engine.MSCI_WORLD, 0.6); (Engine.EMERGING, 0.4) ]
  | negative, true =>
      [ (Engine.SA_DIVIDEND, 0.5); (Engine.PROPERTY, 0.3); (Engine.TOP40, 0.2) ]
  | negative, false =>
      [ (Engine.TOP40, 0.7); (Engine.SA_DIVIDEND, 0.3) ]
  end.

(** Two weight mappings with the same names in the same order and equal
    numbers. *)
Definition sameWeights (a b : JS.obj Q) : Prop :=
  Forall2 (fun x y => fst x = fst y /\ snd x == snd y) a b.

(** The tolerance of the specification on numbers, 1e-9. *)
Definition tolerance : Q := 1 # 1000000000.

End Spec.

(* ================================================================== *)
(** * Sample hosts, providers and profiles for running the model *)
(* ================================================================== *)

Module Sample.
Import JS.
Import DataService.

(** Fixed-point decimal text of a number, rounded half away from zero, with
    [d] fraction digits. *)
Definition digitsOf (n : Z) : string :=
  DecimalString.NilZero.string_of_uint (N.to_uint (Z.to_N n)).

Fixpoint zeros (n : nat) : string :=
  match n with
  | O => ""
  | S n' => String "0"%char (zeros n')
  end.

Definition fixed (d : nat) (x : Q) : string :=
  let scaled := Qfloor (Qabs x * inject_Z (10 ^ Z.of_nat d) + (1 # 2)) in
  let s := digitsOf scaled in
  let s := zeros (S d - String.length s) ++ s in
  let k := (String.length s - d)%nat in
  (if Qle_bool 0 x then "" else "-")
  ++ String.substring 0 k s
  ++ (match d with
      | O => ""
      | S _ => "." ++ String.substring k d s
      end).

(** A host that writes every number in fixed-point decimal notation without
    digit grouping. *)
Definition host : Host :=
  {| toFixed := fixed;
     toLocaleString := fixed;
     numToString := fixed 0 |}.

(** The provider during a complete outage. *)
Definition outage : Provider :=
  {| quote := fun _ => None; historical := fun _ => None |}.

(** A provider that is up: the index moved by [sp] percent, the volatility
    index stands at [vix], every instrument trades at 100 after closing at
    80 three months ago. *)
Definition market (sp vix : Q) : Provider :=
  {| quote := fun symbol =>
       if String.eqb symbol "^GSPC" then
         Some {| regularMarketPrice := Some 5000;
                 regularMarketChangePercent := Some sp;
                 regularMarketVolume := Some 1000 |}
       else if String.eqb symbol "^VIX" then
         Some {| regularMarketPrice := Some vix;
                 regularMarketChangePercent := Some 0;
                 regularMarketVolume := None |}
       else
         Some {| regularMarketPrice := Some 100;
                 regularMarketChangePercent := Some 1;
                 regularMarketVolume := Some 5000 |};
     historical := fun _ => Some [ {| close := 80 |} ] |}.

Definition investor (age riskScore : Q) (horizon : Z) (income : bool)
  : Engine.UserProfile :=
  {| Engine.age := age;
     Engine.riskScore := riskScore;
     Engine.investmentHorizon := horizon;
     Engine.incomeNeeds := income;
     Engine.investmentType := Some Engine.once_off;
     Engine.monthlyAmount := None |}.

Definition saver (monthlyAmount : Q) (horizon : Z) : Engine.UserProfile :=
  {| Engine.age := 30;
     Engine.riskScore := 5;
     Engine.investmentHorizon := horizon;
     Engine.incomeNeeds := false;
     Engine.investmentType := Some Engine.monthly;
     Engine.monthlyAmount := Some monthlyAmount |}.

Definition world (sp vix : Q) : Page.World :=
  {| Page.host := host; Page.prov := market sp vix; Page.reachable := true |}.

(** The reduced weights of a plan, for reading off results. *)
Definition reducedWeights (r : option Engine.PortfolioWithAnalysis) : obj Q :=
  match r with
  | Some res => map (fun kv => (fst kv, Qred (snd kv))) (Engine.weights (Engine.portfolio res))
  | None => []
  end.

End Sample.

(* ================================================================== *)
(** * The chat around the dialogue, and views of the intake *)
(* ================================================================== *)

Module Chat.
Import JS.
Import Page.
Local Open Scope nat_scope.

(** The first message of the conversation (source lines 126 to 132). *)
Definition WELCOME : string :=
  "Welcome to the Easy Equities Advisor Bot! I'm here to help you create a personalized investment portfolio."
  ++ nl ++ nl ++ "What's your investment goal(in Rands)?".

(** The message that asks for a field. *)
Definition ask (f : Field) : string :=
  match f with
  | FGoal => WELCOME
  | FHorizon => ASK_HORIZON
  | FRisk => ASK_RISK
  | FIncome => ASK_INCOME
  | FAmount => ASK_AMOUNT
  | FType => ASK_TYPE
  | FMonthly => ASK_MONTHLY
  end.

(** The field that comes after a field in the canonical order; the monthly
    amount follows the type only under the monthly type of profile [q]. *)
Definition following (f : Field) (q : UserProfile) : option Field :=
  match f with
  | FGoal => Some FHorizon
  | FHorizon => Some FRisk
  | FRisk => Some FIncome
  | FIncome => Some FAmount
  | FAmount => Some FType
  | FType => if isMonthly (investmentType q) then Some FMonthly else None
  | FMonthly => None
  end.

(** How many of the first five fields are set. *)
Definition filled (p : UserProfile) : nat :=
  length (filter (fun f => isSet f p) [FGoal; FHorizon; FRisk; FIncome; FAmount]).

(** The values the validators let into a profile. *)
Definition validValues (p : UserProfile) : Prop :=
  (forall g, investmentGoal p = Some g -> notNull (validateAmount g) = true) /\
  (forall y, timeHorizon p = Some y -> (1 <= y <= 50)%Z) /\
  (forall r, riskTolerance p = Some r ->
     r = "low" \/ r = "medium" \/ r = "high") /\
  (forall a, incomeNeeds p = Some a -> a = "yes" \/ a = "no") /\
  (forall a, investmentAmount p = Some a -> (0 < a)%Q) /\
  (forall a, monthlyAmount p = Some a -> (0 < a)%Q).

(** ** [String.prototype.trim] on UTF-8 text

    The white space and line terminators of the language, as the byte
    sequences that encode them: the six ASCII ones, U+00A0, U+1680, U+2000
    to U+200A, U+2028, U+2029, U+202F, U+205F, U+3000 and U+FEFF. *)

Definition bytes (l : list nat) : string :=
  fold_right (fun n s => String (ascii_of_nat n) s) EmptyString l.

Definition whiteSpace : list string :=
  map bytes
    ([ [9]; [10]; [11]; [12]; [13]; [32]; [194; 160]; [225; 154; 128] ]
     ++ map (fun k => [226; 128; k]) [128; 129; 130; 131; 132; 133; 134; 135; 136; 137; 138]
     ++ [ [226; 128; 168]; [226; 128; 169]; [226; 128; 175]; [226; 129; 159];
          [227; 128; 128]; [239; 187; 191] ])%list.

(** The rest of [s] after the prefix [pre], when [s] starts with it. *)
Fixpoint dropPrefix (pre s : string) : option string :=
  match pre, s with
  | EmptyString, _ => Some s
  | String a pre', String b s' => if Ascii.eqb a b then dropPrefix pre' s' else None
  | String _ _, EmptyString => None
  end.

(** The rest of [s] after one leading white space character, if any. *)
Definition dropWhiteSpace (ws : list string) (s : string) : option string :=
  fold_right (fun w acc => match dropPrefix w s with
                           | Some rest => Some rest
                           | None => acc
                           end) None ws.

Fixpoint trimStartFuel (ws : list string) (fuel : nat) (s : string) : string :=
  match fuel with
  | O => s
  | S fuel' =>
      match dropWhiteSpace ws s with
      | Some rest => trimStartFuel ws fuel' rest
      | None => s
      end
  end.

Fixpoint reverse (acc s : string) : string :=
  match s with
  | EmptyString => acc
  | String c s' => reverse (String c acc) s'
  end.

Definition trimStart (s : string) : string :=
  trimStartFuel whiteSpace (String.length s) s.

Definition trimEnd (s : string) : string :=
  let r := reverse EmptyString s in
  reverse EmptyString
    (trimStartFuel (map (reverse EmptyString) whiteSpace) (String.length r) r).

Definition trim (s : string) : string := trimEnd (trimStart s).

(** ** [handleSend] (source lines 166 to 182)

    The state of the page that a send touches: the conversation, the text
    of the input box and the profile.  [generateBotResponse] does not throw
    in this model, so the [catch] that apologises is never entered. *)

Inductive Role : Type := user | bot.

Record Message : Type := { role : Role; content : string }.

Record State : Type := {
  messages : list Message;
  input : string;
  userProfile : UserProfile
}.

Definition initialState : State :=
  {| messages := [ {| role := bot; content := WELCOME |} ];
     input := "";
     userProfile := emptyProfile |}.

(** [setInput(e.target.value)] *)
Definition type (st : State) (text : string) : State :=
  {| messages := messages st; input := text; userProfile := userProfile st |}.

Definition handleSend (w : World) (st : State) : State :=
  if truthy_str (trim (input st)) then
    let userMessage := trim (input st) in
    let t := generateBotResponse w (userProfile st) userMessage in
    {| messages := (messages st
                    ++ [ {| role := user; content := userMessage |} ]
                    ++ [ {| role := bot; content := botResponse t |} ])%list;
       input := "";
       userProfile := profileAfter t |}
  else st.

(** A session: each text is typed into the box and sent. *)
Definition session (w : World) (texts : list string) : State :=
  fold_left (fun st text => handleSend w (type st text)) texts initialState.

(** What a list of typed texts actually sends: the trimmed texts, the
    blank ones left out. *)
Definition sentTexts (texts : list string) : list string :=
  map trim (filter (fun text => truthy_str (trim text)) texts).

(** The conversation entries of a list of turns with the messages that
    caused them. *)
Definition exchanges (sent : list string) (turns : list Turn) : list Message :=
  flat_map (fun ut => [ {| role := user; content := fst ut |};
                        {| role := bot; content := botResponse (snd ut) |} ])
           (combine sent turns).

End Chat.

(* ================================================================== *)
(** * app/portfolio-generator.ts *)
(* ================================================================== *)

Module Basic.
Import JS.

Record Etf : Type := { allocation : Q; description : string }.

Definition Portfolio : Type := obj Etf.

(** [generatePortfolio(risk, amount)]: a fixed portfolio per risk tier;
    [None] is the thrown [Error("Invalid risk tolerance")].  [amount] is
    accepted and never read. *)
Definition generatePortfolio (risk : string) (amount : Q) : option Portfolio :=
  let tier := toLowerCase risk in
  if String.eqb tier "low" then
    Some [ ("Satrix Top 40 ETF",
            {| allocation := 0.4;
               description := "Tracks the 40 largest companies on the JSE" |});
           ("CoreShares Total World Stock ETF",
            {| allocation := 0.3; description := "Global equity exposure" |});
           ("Satrix SA Bond ETF",
            {| allocation := 0.2;
               description := "Exposure to South African government bonds" |});
           ("NewGold ETF",
            {| allocation := 0.1; description := "Gold bullion investment" |}) ]
  else if String.eqb tier "medium" then
    Some [ ("Satrix MSCI World ETF",
            {| allocation := 0.35;
               description := "Global developed market exposure" |});
           ("Sygnia Itrix 4th Industrial Revolution Global Equity ETF",
            {| allocation := 0.25;
               description := "Exposure to innovative tech companies" |});
           ("CoreShares S&P South Africa Dividend Aristocrats ETF",
            {| allocation := 0.2;
               description := "High-quality dividend-paying SA companies" |});
           ("Ashburton MidCap ETF",
            {| allocation := 0.15;
               description := "Exposure to mid-sized SA companies" |});
           ("Satrix Property ETF",
            {| allocation := 0.05; description := "Diversified property exposure" |}) ]
  else if String.eqb tier "high" then
    Some [ ("Sygnia FAANG Plus Equity ETF",
            {| allocation := 0.3; description := "High-growth global tech giants" |});
           ("CoreShares S&P Global Dividend Aristocrats ETF",
            {| allocation := 0.25;
               description := "Global dividend-growing companies" |});
           ("Satrix MSCI Emerging Markets ETF",
            {| allocation := 0.2; description := "Emerging markets exposure" |});
           ("Sygnia Itrix 4th Industrial Revolution Global Equity ETF",
            {| allocation := 0.15; description := "Innovative tech companies" |});
           ("Satrix Fini ETF",
            {| allocation := 0.1; description := "SA financial sector exposure" |}) ]
  else None.

Definition total (portfolio : Portfolio) : Q :=
  fold_right (fun kv acc => allocation (snd kv) + acc) 0 portfolio.

End Basic.

(* ================================================================== *)
(** * The growth chart of the later page *)
(* ================================================================== *)

(** [generateGrowthData] of the page revision that draws a growth chart.
    [random k] is the number the k-th call of [Math.random] answers, the
    years are whole, as the page passes them. *)
Module Growth.
Import JS.

Record Point : Type := { year : Z; value : Z; tooltip : string }.

(** [Math.round]: the nearest integer, a tie going up. *)
Definition Math_round (x : Q) : Z := Qfloor (x + (1 # 2)).

Definition baseRate (riskLevel : string) : Q :=
  if String.eqb riskLevel "low" then 0.06
  else if String.eqb riskLevel "medium" then 0.08 else 0.10.

Definition volatility (riskLevel : string) : Q :=
  if String.eqb riskLevel "low" then 0.02
  else if String.eqb riskLevel "medium" then 0.03 else 0.04.

(** The rounds of the [for] loop from [year] on, [count] of them. *)
Fixpoint rounds (h : Host) (random : nat -> Q) (baseRate volatility : Q)
    (monthlyAmount : option Q) (count year : nat) (currentAmount : Q)
  : list Point :=
  match count with
  | O => []
  | S count' =>
      let yearlyRate := baseRate + (random year * volatility - volatility / 2) in
      let currentAmount :=
        match monthlyAmount with
        | Some m => if truthy_num m then currentAmount + m * 12 else currentAmount
        | None => currentAmount
        end in
      let currentAmount := currentAmount * (1 + yearlyRate) in
      {| year := Z.of_nat year;
         value := Math_round currentAmount;
         tooltip := "R" ++ toLocaleString h 3 (inject_Z (Math_round currentAmount)) |}
      :: rounds h random baseRate volatility monthlyAmount count' (S year) currentAmount
  end.

Definition generateGrowthData (h : Host) (random : nat -> Q) (amount : Q)
    (years : Z) (monthlyAmount : option Q) (riskLevel : string) : list Point :=
  rounds h random (baseRate riskLevel) (volatility riskLevel) monthlyAmount
    (Z.to_nat (years + 1)) 0 amount.

End Growth.

(* ================================================================== *)
(** * Facts about the host helpers *)
(* ================================================================== *)

Module JSFacts.
Import JS.

Lemma Qle_bool_false (a b : Q) : Qle_bool a b = false -> b < a.
Proof.
  intros H. apply Qnot_le_lt. intros Hle.
  apply Qle_bool_iff in Hle. congruence.
Qed.

(** Turn every comparison of the goal and of the hypotheses into an order
    fact, one case per outcome. *)
Ltac qcases :=
  unfold Math_min, Math_max, gt, lt, truthy_num in *;
  repeat match goal with
  | |- context [Qle_bool ?a ?b] =>
      let H := fresh "Hcmp" in
      destruct (Qle_bool a b) eqn:H;
      [apply Qle_bool_iff in H | apply Qle_bool_false in H]
  | H0 : context [Qle_bool ?a ?b] |- _ =>
      let H := fresh "Hcmp" in
      destruct (Qle_bool a b) eqn:H;
      [apply Qle_bool_iff in H | apply Qle_bool_false in H]
  end;
  cbn [negb andb orb] in *.

(** Division by the constants of the source, written as a product, which is
    the form linear arithmetic works on. *)
Ltac qdiv :=
  unfold Qdiv in *;
  change (/ 10) with (1 # 10) in *;
  change (/ 100) with (1 # 100) in *.

Ltac qsolve := qcases; qdiv; lra.

Lemma Math_min_spec (a b : Q) :
  (a <= b /\ Math_min a b = a) \/ (b < a /\ Math_min a b = b).
Proof. qcases; [left | right]; split; auto. Qed.

Lemma Math_max_spec (a b : Q) :
  (a <= b /\ Math_max a b = b) \/ (b < a /\ Math_max a b = a).
Proof. qcases; [left | right]; split; auto. Qed.

Lemma gt_true (a b : Q) : gt a b = true <-> b < a.
Proof.
  unfold gt. destruct (Qle_bool a b) eqn:H; cbn.
  - apply Qle_bool_iff in H. split; [discriminate | intros; lra].
  - apply Qle_bool_false in H. split; auto.
Qed.

Lemma truthy_num_true (x : Q) : truthy_num x = true <-> ~ x == 0.
Proof.
  unfold truthy_num. destruct (Qeq_bool x 0) eqn:H; cbn.
  - apply Qeq_bool_iff in H. split; [discriminate | contradiction].
  - split; auto. intros _ Hx. apply Qeq_bool_iff in Hx. congruence.
Qed.

(** ** Reading and writing objects *)

Section Objects.
Context {A : Type}.
Implicit Types (o : obj A) (k : string) (v : A).

Lemma obj_get_set_same k v o : obj_get k (obj_set k v o) = Some v.
Proof.
  induction o as [|[k' v'] o IH]; cbn.
  - now rewrite String.eqb_refl.
  - destruct (String.eqb k k') eqn:E; cbn; rewrite ?String.eqb_refl, ?E; auto.
Qed.

Lemma obj_get_set_other k k' v o :
  k <> k' -> obj_get k (obj_set k' v o) = obj_get k o.
Proof.
  intros Hne. induction o as [|[k0 v0] o IH]; cbn.
  - apply String.eqb_neq in Hne. now rewrite Hne.
  - destruct (String.eqb k' k0) eqn:E; cbn.
    + apply String.eqb_eq in E. subst k0.
      apply String.eqb_neq in Hne. now rewrite Hne.
    + now rewrite IH.
Qed.

Lemma obj_get_set k k' v o :
  obj_get k (obj_set k' v o) = if String.eqb k k' then Some v else obj_get k o.
Proof.
  destruct (String.eqb k k') eqn:E.
  - apply String.eqb_eq in E. subst. apply obj_get_set_same.
  - apply String.eqb_neq in E. now apply obj_get_set_other.
Qed.

Lemma obj_get_In k o : In k (obj_keys o) -> exists v, obj_get k o = Some v.
Proof.
  induction o as [|[k' v'] o IH]; cbn; [tauto|].
  intros [-> | Hin].
  - rewrite String.eqb_refl. eauto.
  - destruct (String.eqb k k'); eauto.
Qed.

Lemma obj_get_notin k o : ~ In k (obj_keys o) -> obj_get k o = None.
Proof.
  induction o as [|[k' v'] o IH]; cbn; auto.
  intros Hn. destruct (String.eqb k k') eqn:E.
  - apply String.eqb_eq in E. subst. tauto.
  - apply IH. tauto.
Qed.

(** A key that first occurs after a prefix [done] is read and written at
    that occurrence. *)
Lemma obj_get_middle k v (done rest : obj A) :
  ~ In k (obj_keys done) -> obj_get k (done ++ (k, v) :: rest)%list = Some v.
Proof.
  induction done as [|[k' v'] done IH]; cbn; intros Hn.
  - now rewrite String.eqb_refl.
  - destruct (String.eqb k k') eqn:E.
    + apply String.eqb_eq in E. subst. tauto.
    + apply IH. tauto.
Qed.

Lemma obj_set_middle k v v' (done rest : obj A) :
  ~ In k (obj_keys done) ->
  obj_set k v' (done ++ (k, v) :: rest)%list = (done ++ (k, v') :: rest)%list.
Proof.
  induction done as [|[k0 v0] done IH]; cbn; intros Hn.
  - now rewrite String.eqb_refl.
  - destruct (String.eqb k k0) eqn:E.
    + apply String.eqb_eq in E. subst. tauto.
    + f_equal. apply IH. tauto.
Qed.

Lemma obj_set_new k v o : ~ In k (obj_keys o) -> obj_set k v o = (o ++ [(k, v)])%list.
Proof.
  induction o as [|[k0 v0] o IH]; cbn; intros Hn; auto.
  destruct (String.eqb k k0) eqn:E.
  - apply String.eqb_eq in E. subst. tauto.
  - f_equal. apply IH. tauto.
Qed.

End Objects.

End JSFacts.

(* ================================================================== *)
(** * Facts about the data service *)
(* ================================================================== *)

Module DataServiceFacts.
Import JS.
Import DataService.
Import JSFacts.

Lemma fst_fetchETF (prov : Provider) (entry : string * string) :
  fst (fetchETF prov entry) = fst entry.
Proof.
  destruct entry as [name symbol]. unfold fetchETF.
  destruct (quote prov symbol); [destruct (historical prov symbol)|]; reflexivity.
Qed.

Section Populate.
Context {A : Type}.

Lemma populate_keeps (rs : list (string * A)) (o : obj A) (k : string) :
  (exists v, obj_get k o = Some v) -> exists v, obj_get k (populate rs o) = Some v.
Proof.
  unfold populate. revert o. induction rs as [|[k' v'] rs IH]; intros o [v Hv]; cbn.
  - eauto.
  - apply IH. rewrite obj_get_set. destruct (String.eqb k k'); eauto.
Qed.

Lemma populate_adds (rs : list (string * A)) (o : obj A) (k : string) :
  In k (map fst rs) -> exists v, obj_get k (populate rs o) = Some v.
Proof.
  revert o. induction rs as [|[k' v'] rs IH]; intros o; cbn; [tauto|].
  intros [-> | Hin].
  - apply (populate_keeps rs). rewrite obj_get_set_same. eauto.
  - now apply IH.
Qed.

End Populate.

(** Whatever the provider does, [getETFData] answers an entry for every
    name of [ETF_SYMBOLS]. *)
Lemma getETFData_covers (prov : Provider) (name : string) :
  In name (obj_keys ETF_SYMBOLS) ->
  exists d, obj_get name (getETFData prov) = Some d.
Proof.
  intros Hin. unfold getETFData. apply populate_adds.
  rewrite map_map.
  erewrite map_ext; [exact Hin|]. intros e. apply fst_fetchETF.
Qed.

(** During a complete outage every entry is the bare one. *)
Lemma getETFData_outage (prov : Provider) :
  (forall symbol, quote prov symbol = None) ->
  getETFData prov = map (fun e => (fst e, bare (fst e))) ETF_SYMBOLS.
Proof.
  intros H. unfold getETFData, populate, ETF_SYMBOLS, fetchETF. cbn [map].
  rewrite !H. reflexivity.
Qed.

Lemma getMarketConditions_outage (h : Host) (prov : Provider) :
  quote prov "^GSPC" = None \/ quote prov "^VIX" = None ->
  getMarketConditions h prov = unavailable.
Proof.
  intros [H | H]; unfold getMarketConditions; rewrite H.
  - reflexivity.
  - destruct (quote prov "^GSPC"); reflexivity.
Qed.

End DataServiceFacts.

(* ================================================================== *)
(** * Facts about the allocation engine *)
(* ================================================================== *)

Module EngineFacts.
Import JS.
Import DataService.
Import Engine.
Import JSFacts.
Import DataServiceFacts.
Local Open Scope list_scope.

(** ** The split *)

Lemma equityAllocation_bounds (p : UserProfile) :
  0.1 <= equityAllocation p <= 0.9.
Proof. unfold equityAllocation. qsolve. Qed.

(** A risk score between 1 and 10 moves the equity share by at most
    0.08 down and 0.1 up. *)
Lemma riskAdjustment_bounds (p : UserProfile) :
  1 <= riskScore p <= 10 -> -0.08 <= riskAdjustment p * 0.2 <= 0.1.
Proof. unfold riskAdjustment. intros [H1 H2]. qdiv. split; lra. Qed.

Lemma split_bounds (mc : MarketConditions) (p : UserProfile) :
  1 <= riskScore p <= 10 ->
  0.018 <= adjustedEquityAllocation mc p <= 1 /\
  0.1 <= bondAllocation mc p <= 0.9.
Proof.
  intros Hr.
  pose proof (equityAllocation_bounds p) as He.
  pose proof (riskAdjustment_bounds p Hr) as Ha.
  unfold adjustedEquityAllocation, bondAllocation, split.
  destruct (incomeNeeds p), (highVolatility mc); cbn [fst snd]; qsolve.
Qed.

(** Without volatility dampening the adjusted equity share is at least 0.02. *)
Lemma split_calm (mc : MarketConditions) (p : UserProfile) :
  1 <= riskScore p <= 10 -> highVolatility mc = false ->
  0.02 <= adjustedEquityAllocation mc p.
Proof.
  intros Hr Hv.
  pose proof (equityAllocation_bounds p) as He.
  pose proof (riskAdjustment_bounds p Hr) as Ha.
  unfold adjustedEquityAllocation, split. rewrite Hv.
  destruct (incomeNeeds p); cbn [fst snd]; qsolve.
Qed.

(** ** The instruments are always found *)

Lemma getETFData_is_covering (prov : Provider) : covers (getETFData prov).
Proof. intros name. apply getETFData_covers. Qed.

Lemma etfEntry_covers (etfData : ETFData) (name : string) (a : Q) (desc : string) :
  covers etfData -> In name (obj_keys ETF_SYMBOLS) ->
  exists e, etfEntry etfData name a desc = Some e /\ allocation e = a.
Proof.
  intros Hc Hin. destruct (Hc name Hin) as [d Hd].
  unfold etfEntry. rewrite Hd. eexists. split; reflexivity.
Qed.

Lemma assign_covers (etfData : ETFData) (name : string) (a : Q) (desc : string)
    (pf : Portfolio) :
  covers etfData -> In name (obj_keys ETF_SYMBOLS) ->
  exists e, assign etfData name a desc pf = Some (obj_set name e pf)
            /\ allocation e = a.
Proof.
  intros Hc Hin. destruct (etfEntry_covers etfData name a desc Hc Hin) as (e & He & Ha).
  exists e. unfold assign. rewrite He. auto.
Qed.

(** Membership of a name in [ETF_SYMBOLS], decided by running the lookup. *)
Lemma known_by_lookup (name : string) :
  existsb (String.eqb name) (obj_keys ETF_SYMBOLS) = true ->
  In name (obj_keys ETF_SYMBOLS).
Proof.
  intros H. apply existsb_exists in H. destruct H as (k & Hin & Heq).
  apply String.eqb_eq in Heq. now subst.
Qed.

Ltac known := apply known_by_lookup; vm_compute; reflexivity.

Ltac rewrite_allocations :=
  repeat match goal with
  | H : allocation _ = _ |- _ => rewrite H; clear H
  end.

(** Run one assignment of the generator on a covering [etfData]. *)
Ltac run_assign Hc :=
  match goal with
  | |- context [assign ?d ?name ?a ?desc ?pf] =>
      let e := fresh "e" in
      let He := fresh "He" in
      let Ha := fresh "Ha" in
      destruct (assign_covers d name a desc pf Hc ltac:(known)) as (e & He & Ha);
      rewrite He; clear He
  end.

(** The equity instruments written by [selectETFs] are the cell of the
    decision table, each share scaled by the adjusted equity allocation. *)
Lemma selectETFs_weights (etfData : ETFData) (mc : MarketConditions)
    (p : UserProfile) (adj : Q) :
  covers etfData ->
  exists pf,
    selectETFs etfData mc p adj [] = Some pf /\
    weights pf = map (fun kv => (fst kv, adj * snd kv))
                     (Spec.basket (globalOutlook mc) (incomeNeeds p)).
Proof.
  intros Hc. unfold selectETFs.
  destruct (globalOutlook mc), (incomeNeeds p);
    repeat run_assign Hc; eexists; (split; [reflexivity|]);
    cbn; rewrite_allocations; reflexivity.
Qed.

Lemma rawPortfolio_weights (etfData : ETFData) (mc : MarketConditions)
    (p : UserProfile) :
  covers etfData ->
  exists pf,
    rawPortfolio etfData mc p = Some pf /\
    weights pf =
      (map (fun kv => (fst kv, adjustedEquityAllocation mc p * snd kv))
           (Spec.basket (globalOutlook mc) (incomeNeeds p))
       ++ [(SA_BOND, bondAllocation mc p)])%list.
Proof.
  intros Hc. unfold rawPortfolio, adjustedEquityAllocation, bondAllocation.
  destruct (split mc p) as [adj bond]. cbn [fst snd].
  unfold selectETFs.
  destruct (globalOutlook mc), (incomeNeeds p);
    repeat run_assign Hc; eexists; (split; [reflexivity|]);
    cbn; rewrite_allocations; reflexivity.
Qed.

(** ** Normalisation *)

Lemma keys_weights (pf : Portfolio) : obj_keys pf = map fst (weights pf).
Proof. unfold obj_keys, weights. rewrite map_map. reflexivity. Qed.

Lemma keys_scaled (t : Q) (pf : Portfolio) : obj_keys (map (scaled t) pf) = obj_keys pf.
Proof. unfold obj_keys. rewrite map_map. reflexivity. Qed.

(** The [forEach] over the keys, started after a prefix [done] of entries
    already divided, divides the remaining entries and nothing else. *)
Lemma forEach_scales (t : Q) (todo done : Portfolio) :
  NoDup (obj_keys (done ++ todo)) ->
  fold_left (normalizeKey t) (obj_keys todo) (map (scaled t) done ++ todo)%list
  = (map (scaled t) done ++ map (scaled t) todo)%list.
Proof.
  revert done. induction todo as [|[k e] todo IH]; intros done Hnd; cbn.
  - reflexivity.
  - assert (Hk : ~ In k (obj_keys (map (scaled t) done))).
    { rewrite keys_scaled. unfold obj_keys in *. rewrite map_app in Hnd. cbn in Hnd.
      apply NoDup_remove_2 in Hnd. intros Hin. apply Hnd.
      apply in_or_app. now left. }
    unfold normalizeKey at 2.
    rewrite (obj_get_middle k e _ todo Hk), (obj_set_middle k e _ _ todo Hk).
    specialize (IH (done ++ [(k, e)])%list).
    rewrite <- !app_assoc in IH. cbn in IH.
    rewrite map_app in IH. cbn in IH. rewrite <- !app_assoc in IH. cbn in IH.
    apply IH. exact Hnd.
Qed.

Lemma normalize_map (pf : Portfolio) :
  NoDup (obj_keys pf) ->
  normalize pf = map (scaled (totalAllocation pf)) pf.
Proof.
  intros Hnd. unfold normalize.
  exact (forEach_scales (totalAllocation pf) pf [] Hnd).
Qed.

Lemma weights_normalize (pf : Portfolio) :
  NoDup (obj_keys pf) ->
  weights (normalize pf)
  = map (fun kv => (fst kv, snd kv / totalAllocation pf)) (weights pf).
Proof.
  intros Hnd. rewrite (normalize_map pf Hnd). unfold weights.
  rewrite !map_map. reflexivity.
Qed.

Lemma reduce_sum (l : list Etf) (a : Q) :
  fold_left (fun sum etf => sum + allocation etf) l a
  == a + fold_right (fun etf acc => allocation etf + acc) 0 l.
Proof.
  revert a. induction l as [|e l IH]; intros a; cbn.
  - lra.
  - rewrite IH. lra.
Qed.

Lemma totalAllocation_sum (pf : Portfolio) :
  totalAllocation pf == sumWeights (weights pf).
Proof.
  unfold totalAllocation. rewrite reduce_sum.
  unfold sumWeights, weights, obj_values.
  induction pf as [|[k e] pf IH]; cbn in *; lra.
Qed.

Lemma sumWeights_app (a b : obj Q) :
  sumWeights (a ++ b) == sumWeights a + sumWeights b.
Proof. unfold sumWeights. induction a as [|x a IH]; cbn; lra. Qed.

Lemma sumWeights_times (c : Q) (w : obj Q) :
  sumWeights (map (fun kv => (fst kv, c * snd kv)) w) == c * sumWeights w.
Proof. unfold sumWeights. induction w as [|x w IH]; cbn; lra. Qed.

Lemma sumWeights_over (t : Q) (w : obj Q) :
  sumWeights (map (fun kv => (fst kv, snd kv / t)) w) == sumWeights w / t.
Proof.
  unfold sumWeights, Qdiv. induction w as [|x w IH]; cbn.
  - lra.
  - rewrite IH. ring.
Qed.

(** Each cell of the decision table shares out the whole equity allocation. *)
Lemma basket_shares (outlook : Outlook) (income : bool) :
  sumWeights (Spec.basket outlook income) == 1.
Proof. destruct outlook, income; reflexivity. Qed.

Lemma basket_positive (outlook : Outlook) (income : bool) :
  Forall (fun kv => 0 < snd kv) (Spec.basket outlook income).
Proof. destruct outlook, income; repeat constructor. Qed.

(** The raw allocations add up to the adjusted equity plus the bond leg. *)
Lemma raw_total (etfData : ETFData) (mc : MarketConditions) (p : UserProfile)
    (pf : Portfolio) :
  covers etfData -> rawPortfolio etfData mc p = Some pf ->
  totalAllocation pf == adjustedEquityAllocation mc p + bondAllocation mc p.
Proof.
  intros Hc Hpf. destruct (rawPortfolio_weights etfData mc p Hc) as (pf' & H1 & H2).
  rewrite H1 in Hpf. injection Hpf as <-.
  rewrite totalAllocation_sum, H2, sumWeights_app, sumWeights_times, basket_shares.
  cbn. lra.
Qed.

Lemma raw_total_positive (etfData : ETFData) (mc : MarketConditions)
    (p : UserProfile) (pf : Portfolio) :
  covers etfData -> 1 <= riskScore p <= 10 ->
  rawPortfolio etfData mc p = Some pf -> 0 < totalAllocation pf.
Proof.
  intros Hc Hr Hpf. rewrite (raw_total etfData mc p pf Hc Hpf).
  destruct (split_bounds mc p Hr) as [[? ?] [? ?]]. lra.
Qed.

Lemma raw_keys_NoDup (etfData : ETFData) (mc : MarketConditions) (p : UserProfile)
    (pf : Portfolio) :
  covers etfData -> rawPortfolio etfData mc p = Some pf -> NoDup (obj_keys pf).
Proof.
  intros Hc Hpf. destruct (rawPortfolio_weights etfData mc p Hc) as (pf' & H1 & H2).
  rewrite H1 in Hpf. injection Hpf as <-.
  rewrite keys_weights, H2, map_app, map_map. cbn [map fst].
  destruct (globalOutlook mc), (incomeNeeds p); cbn;
    repeat (constructor; [cbn; intuition discriminate|]); constructor.
Qed.

(** The generator returns a plan on every covering [etfData]: the raw
    portfolio, divided entry by entry by its total. *)
Lemma generate_returns (h : Host) (etfData : ETFData) (mc : MarketConditions)
    (p : UserProfile) (amount : Q) :
  covers etfData ->
  exists raw res,
    rawPortfolio etfData mc p = Some raw /\
    generateAdvancedPortfolioWith h etfData mc p amount = Some res /\
    portfolio res = normalize raw /\
    weights (portfolio res)
    = map (fun kv => (fst kv, snd kv / totalAllocation raw)) (weights raw).
Proof.
  intros Hc. destruct (rawPortfolio_weights etfData mc p Hc) as (raw & Hraw & Hw).
  unfold generateAdvancedPortfolioWith. rewrite Hraw.
  eexists. eexists. repeat split. cbn [portfolio].
  apply weights_normalize. eapply raw_keys_NoDup; eauto.
Qed.

Lemma ratio_bounds (a t : Q) : 0 < a -> a < t -> 0 < a / t < 1.
Proof.
  intros Ha Hat. assert (Ht : 0 < t) by lra. split.
  - apply Qlt_shift_div_l; lra.
  - apply Qlt_shift_div_r; lra.
Qed.

(** ** The bond weight and the equity weight of the returned plan *)

Lemma weightOf_weights (name : string) (pf : Portfolio) :
  weightOf name pf
  = match obj_get name (weights pf) with Some a => a | None => 0 end.
Proof.
  unfold weightOf. induction pf as [|[k e] pf IH]; cbn; auto.
  destruct (String.eqb name k); auto.
Qed.

Lemma plan_weights (h : Host) (etfData : ETFData) (mc : MarketConditions)
    (p : UserProfile) (amount : Q) :
  covers etfData -> 1 <= riskScore p <= 10 ->
  exists res,
    generateAdvancedPortfolioWith h etfData mc p amount = Some res /\
    weightOf SA_BOND (portfolio res)
    == bondAllocation mc p / (adjustedEquityAllocation mc p + bondAllocation mc p) /\
    equityWeight (portfolio res)
    == adjustedEquityAllocation mc p
       / (adjustedEquityAllocation mc p + bondAllocation mc p).
Proof.
  intros Hc Hr.
  destruct (generate_returns h _ mc p amount Hc) as (raw & res & Hraw & Hres & _ & Hw).
  destruct (rawPortfolio_weights _ mc p Hc) as (raw' & Hraw' & Hw').
  rewrite Hraw in Hraw'. injection Hraw' as <-.
  pose proof (raw_total _ mc p raw Hc Hraw) as Ht.
  pose proof (raw_total_positive _ mc p raw Hc Hr Hraw) as Hpos.
  exists res. split; [exact Hres|]. split.
  - rewrite weightOf_weights, Hw, Hw'.
    destruct (globalOutlook mc), (incomeNeeds p); cbn; rewrite Ht; reflexivity.
  - unfold equityWeight. rewrite Hw, Hw'.
    destruct (globalOutlook mc), (incomeNeeds p); cbn; rewrite Ht; field; lra.
Qed.

(** X26.  Without an income need, a volatility index of 30 gives a strictly
    smaller equity part than a volatility index of 10, for every age and
    every risk score between 1 and 10. *)
Lemma volatility_dampens_without_income (h : Host) (prov : Provider)
    (calmMarket stormyMarket : MarketConditions) (p : UserProfile) (amount : Q) :
  incomeNeeds p = false -> 1 <= riskScore p <= 10 ->
  volatilityIndex calmMarket = Some 10 ->
  volatilityIndex stormyMarket = Some 30 ->
  exists calm stormy,
    generateAdvancedPortfolioWith h (getETFData prov) calmMarket p amount = Some calm /\
    generateAdvancedPortfolioWith h (getETFData prov) stormyMarket p amount = Some stormy /\
    equityWeight (portfolio stormy) < equityWeight (portfolio calm).
Proof.
  intros Hi Hr H10 H30.
  pose proof (getETFData_is_covering prov) as Hc.
  destruct (plan_weights h _ calmMarket p amount Hc Hr) as (calm & Hcalm & _ & Ec).
  destruct (plan_weights h _ stormyMarket p amount Hc Hr) as (stormy & Hstormy & _ & Es).
  exists calm, stormy. split; [exact Hcalm|]. split; [exact Hstormy|].
  rewrite Ec, Es. clear Ec Es Hcalm Hstormy.
  pose proof (equityAllocation_bounds p) as He.
  pose proof (riskAdjustment_bounds p Hr) as Ha.
  unfold adjustedEquityAllocation, bondAllocation, split, highVolatility.
  rewrite Hi, H10, H30. cbn [fst snd].
  change (truthy_num 10 && gt 10 25) with false.
  change (truthy_num 30 && gt 30 25) with true. cbn iota.
  set (a := equityAllocation p + riskAdjustment p * 0.2) in *.
  set (b := 1 - equityAllocation p) in *.
  assert (Hapos : 0 < a) by (subst a; lra).
  assert (Hbpos : 0 < b) by (subst b; lra).
  destruct (ratio_bounds a (a + b)) as [Hr0 Hr1]; try lra.
  assert (Hra : a / (a + b) * (a + b) == a) by (field; lra).
  apply Qlt_shift_div_r; [lra|].
  set (r := a / (a + b)) in *. nra.
Qed.

(** X27.  Up to the age of 40 the income override does raise the bond
    weight: the plan with an income need holds at least as much of the bond
    instrument as the plan of the same investor without it. *)
Lemma income_raises_bonds_up_to_40 (h : Host) (prov : Provider)
    (mc : MarketConditions) (p : UserProfile) (amount : Q) :
  age p <= 40 -> 1 <= riskScore p <= 10 ->
  exists withIncome without,
    generateAdvancedPortfolioWith h (getETFData prov) mc (withIncomeNeeds p true) amount
    = Some withIncome /\
    generateAdvancedPortfolioWith h (getETFData prov) mc (withIncomeNeeds p false) amount
    = Some without /\
    weightOf SA_BOND (portfolio without) <= weightOf SA_BOND (portfolio withIncome).
Proof.
  intros Hage Hr.
  pose proof (getETFData_is_covering prov) as Hc.
  destruct (plan_weights h _ mc (withIncomeNeeds p true) amount Hc Hr)
    as (r1 & H1 & E1 & _).
  destruct (plan_weights h _ mc (withIncomeNeeds p false) amount Hc Hr)
    as (r0 & H0 & E0 & _).
  exists r1, r0. split; [exact H1|]. split; [exact H0|].
  rewrite E1, E0. clear E1 E0 H1 H0.
  pose proof (riskAdjustment_bounds p Hr) as Ha.
  assert (He : 0.7 <= equityAllocation p <= 0.9).
  { unfold equityAllocation. qsolve. }
  unfold adjustedEquityAllocation, bondAllocation, split. cbn [incomeNeeds withIncomeNeeds].
  change (equityAllocation (withIncomeNeeds p true)) with (equityAllocation p).
  change (equityAllocation (withIncomeNeeds p false)) with (equityAllocation p).
  change (riskAdjustment (withIncomeNeeds p false)) with (riskAdjustment p).
  cbn [fst snd].
  set (e := equityAllocation p) in *. set (ra := riskAdjustment p * 0.2) in *.
  assert (Hcap : Math_min 0.4 (1 - e + 0.1) == 1 - e + 0.1).
  { unfold Math_min. destruct (Qle_bool 0.4 (1 - e + 0.1)) eqn:Hcmp; [|reflexivity].
    apply Qle_bool_iff in Hcmp. lra. }
  set (b1 := Math_min 0.4 (1 - e + 0.1)) in *.
  assert (Hone : b1 / (1 - b1 + b1) == b1) by (field; lra).
  rewrite Hone, Hcap.
  destruct (highVolatility mc); (apply Qle_shift_div_r; [lra | nra]).
Qed.

(** On a covering [etfData] and a risk score between 1 and 10 the weights
    of the returned plan sum to 1. *)
Lemma plan_sum (h : Host) (etfData : ETFData) (mc : MarketConditions)
    (p : UserProfile) (amount : Q) :
  covers etfData -> 1 <= riskScore p <= 10 ->
  exists res,
    generateAdvancedPortfolioWith h etfData mc p amount = Some res /\
    sumWeights (weights (portfolio res)) == 1.
Proof.
  intros Hc Hr.
  destruct (generate_returns h _ mc p amount Hc) as (raw & res & Hraw & Hres & _ & Hw).
  pose proof (raw_total_positive _ mc p raw Hc Hr Hraw) as Hpos.
  exists res. split; [exact Hres|].
  rewrite Hw, sumWeights_over, <- totalAllocation_sum. field. lra.
Qed.

(** ** The claims about the engine *)

(** C1.  For every profile whose risk score lies between 1 and 10, every
    provider and every market context, the generator returns a plan in
    which every instrument's raw weight has been divided by the sum of all
    raw weights; the final weights sum to 1, hence to 1.0 within 1e-9. *)
Theorem weights_sum_to_one (h : Host) (prov : Provider) (mc : MarketConditions)
    (p : UserProfile) (amount : Q) :
  1 <= riskScore p <= 10 ->
  exists raw res,
    rawPortfolio (getETFData prov) mc p = Some raw /\
    generateAdvancedPortfolioWith h (getETFData prov) mc p amount = Some res /\
    weights (portfolio res)
    = map (fun kv => (fst kv, snd kv / totalAllocation raw)) (weights raw) /\
    sumWeights (weights (portfolio res)) == 1 /\
    Qabs (sumWeights (weights (portfolio res)) - 1) <= 1 # 1000000000.
Proof.
  intros Hr.
  pose proof (getETFData_is_covering prov) as Hc.
  destruct (generate_returns h _ mc p amount Hc) as (raw & res & Hraw & Hres & _ & Hw).
  pose proof (raw_total_positive _ mc p raw Hc Hr Hraw) as Hpos.
  assert (Hsum : sumWeights (weights (portfolio res)) == 1).
  { rewrite Hw, sumWeights_over, <- totalAllocation_sum. field. lra. }
  exists raw, res. repeat split; auto.
  rewrite Hsum. cbn. discriminate.
Qed.

(** C1 on an investor of 30 with risk score 5 in a volatile market. *)
Lemma weights_sum_to_one_witness :
  1 <= riskScore (Sample.investor 30 5 10 false) <= 10 /\
  exists raw res,
    rawPortfolio (getETFData (Sample.market 1 30))
      (getMarketConditions Sample.host (Sample.market 1 30))
      (Sample.investor 30 5 10 false) = Some raw /\
    generateAdvancedPortfolioWith Sample.host (getETFData (Sample.market 1 30))
      (getMarketConditions Sample.host (Sample.market 1 30))
      (Sample.investor 30 5 10 false) 10000 = Some res /\
    weights (portfolio res)
    = map (fun kv => (fst kv, snd kv / totalAllocation raw)) (weights raw) /\
    sumWeights (weights (portfolio res)) == 1 /\
    Qabs (sumWeights (weights (portfolio res)) - 1) <= 1 # 1000000000.
Proof.
  split.
  - cbn. split; discriminate.
  - apply weights_sum_to_one. cbn. split; discriminate.
Defined.

(** C4.  The equity instruments the generator selects are exactly the cell
    of the decision table for the outlook and the income need, each
    instrument at its share of the equity allocation: positive with income
    is global dividend 0.4, developed markets 0.3, local dividend 0.3;
    positive without income is developed markets 0.6, emerging markets 0.4;
    negative with income is local dividend 0.5, property 0.3, top 40 0.2;
    negative without income is top 40 0.7, local dividend 0.3.  The shares
    of every cell sum to 1. *)
Theorem basket_is_decision_table (prov : Provider) (mc : MarketConditions)
    (p : UserProfile) (adj : Q) :
  (exists pf,
     selectETFs (getETFData prov) mc p adj [] = Some pf /\
     weights pf = map (fun kv => (fst kv, adj * snd kv))
                      (Spec.basket (globalOutlook mc) (incomeNeeds p))) /\
  Spec.basket positive true
  = [(GLOBAL_DIVIDEND, 0.4); (MSCI_WORLD, 0.3); (SA_DIVIDEND, 0.3)] /\
  Spec.basket positive false = [(MSCI_WORLD, 0.6); (EMERGING, 0.4)] /\
  Spec.basket negative true
  = [(SA_DIVIDEND, 0.5); (PROPERTY, 0.3); (TOP40, 0.2)] /\
  Spec.basket negative false = [(TOP40, 0.7); (SA_DIVIDEND, 0.3)] /\
  sumWeights (Spec.basket (globalOutlook mc) (incomeNeeds p)) == 1.
Proof.
  split; [|repeat split].
  - apply selectETFs_weights, getETFData_is_covering.
  - apply basket_shares.
Qed.

(** C5.  Age 30, risk score 5, horizon 10 years, no income need, positive
    outlook and a volatility index that is absent or not above 25: the base
    equity allocation is 0.8, neither the risk score nor the volatility
    changes it, and the normalised plan is developed markets 0.48, emerging
    markets 0.32, bonds 0.20. *)
Theorem scenario_age_30_medium (h : Host) (prov : Provider) (mc : MarketConditions)
    (ty : option InvestmentType) (m : option Q) (amount : Q) :
  globalOutlook mc = positive ->
  (forall v, volatilityIndex mc = Some v -> v <= 25) ->
  let p := {| age := 30; riskScore := 5; investmentHorizon := 10;
              incomeNeeds := false; investmentType := ty; monthlyAmount := m |} in
  equityAllocation p == 0.8 /\
  riskAdjustment p == 0 /\
  highVolatility mc = false /\
  adjustedEquityAllocation mc p == 0.8 /\
  exists res,
    generateAdvancedPortfolioWith h (getETFData prov) mc p amount = Some res /\
    Spec.sameWeights (weights (portfolio res))
      [(MSCI_WORLD, 0.48); (EMERGING, 0.32); (SA_BOND, 0.20)].
Proof.
  intros Hout Hvol p.
  assert (Hcalm : highVolatility mc = false).
  { unfold highVolatility. destruct (volatilityIndex mc) as [v|] eqn:Ev; auto.
    specialize (Hvol v eq_refl). qcases; [apply andb_false_r | lra]. }
  assert (He : equityAllocation p == 0.8) by reflexivity.
  assert (Ha : riskAdjustment p == 0) by reflexivity.
  assert (Hadj : adjustedEquityAllocation mc p == 0.8).
  { unfold adjustedEquityAllocation, split. rewrite Hcalm. reflexivity. }
  assert (Hbond : bondAllocation mc p == 0.2).
  { unfold bondAllocation, split. rewrite Hcalm. reflexivity. }
  repeat split; auto.
  pose proof (getETFData_is_covering prov) as Hc.
  destruct (generate_returns h _ mc p amount Hc) as (raw & res & Hraw & Hres & _ & Hw).
  destruct (rawPortfolio_weights _ mc p Hc) as (raw' & Hraw' & Hw').
  rewrite Hraw in Hraw'. injection Hraw' as <-.
  pose proof (raw_total _ mc p raw Hc Hraw) as Ht.
  exists res. split; auto.
  rewrite Hw, Hw', Hout. cbn [map app Spec.basket incomeNeeds p fst snd].
  unfold Spec.sameWeights.
  repeat (apply Forall2_cons; [split; [reflexivity|]|]); try apply Forall2_nil;
    cbn [fst snd]; rewrite Ht, ?Hadj, Hbond; reflexivity.
Qed.

(** C5 on a market that is up with a volatility index of 10. *)
Lemma scenario_age_30_medium_witness :
  globalOutlook (getMarketConditions Sample.host (Sample.market 1 10)) = positive /\
  (forall v, volatilityIndex (getMarketConditions Sample.host (Sample.market 1 10))
             = Some v -> v <= 25) /\
  exists res,
    generateAdvancedPortfolioWith Sample.host (getETFData (Sample.market 1 10))
      (getMarketConditions Sample.host (Sample.market 1 10))
      (Sample.investor 30 5 10 false) 10000 = Some res /\
    Spec.sameWeights (weights (portfolio res))
      [(MSCI_WORLD, 0.48); (EMERGING, 0.32); (SA_BOND, 0.20)].
Proof.
  assert (Hout : globalOutlook (getMarketConditions Sample.host (Sample.market 1 10))
                 = positive) by reflexivity.
  assert (Hvol : forall v,
             volatilityIndex (getMarketConditions Sample.host (Sample.market 1 10))
             = Some v -> v <= 25).
  { intros v Hv. injection Hv as <-. discriminate. }
  split; [exact Hout | split; [exact Hvol|]].
  exact (proj2 (proj2 (proj2 (proj2
    (scenario_age_30_medium Sample.host (Sample.market 1 10)
       (getMarketConditions Sample.host (Sample.market 1 10))
       (Some once_off) None 10000 Hout Hvol))))).
Defined.

(** C10, as the code has it.  For every age and every risk score between
    1 and 10 the adjusted equity allocation and the bond leg are strictly
    positive: the adjusted equity allocation is at least 0.018 (at least 0.02
    when no volatility dampening applies) and the bond leg at least 0.10,
    each to within the tolerance 1e-9 of the specification.  The figures
    are stated to within that tolerance because the host computes in
    binary64, where the extreme values come out one unit in the last place
    below them (see [Binary64Facts.extremes_round_below]).  So the sum of the
    raw allocations is strictly positive, the division of the normalisation
    is well defined, and every final weight lies strictly between 0
    and 1. *)
Theorem weights_strictly_inside (h : Host) (prov : Provider) (mc : MarketConditions)
    (p : UserProfile) (amount : Q) :
  1 <= riskScore p <= 10 ->
  0 < adjustedEquityAllocation mc p /\
  0 < bondAllocation mc p /\
  0.018 - Spec.tolerance <= adjustedEquityAllocation mc p /\
  (highVolatility mc = false ->
   0.02 - Spec.tolerance <= adjustedEquityAllocation mc p) /\
  0.1 - Spec.tolerance <= bondAllocation mc p /\
  exists raw res,
    rawPortfolio (getETFData prov) mc p = Some raw /\
    0 < totalAllocation raw /\
    generateAdvancedPortfolioWith h (getETFData prov) mc p amount = Some res /\
    Forall (fun kv => 0 < snd kv < 1) (weights (portfolio res)).
Proof.
  intros Hr.
  destruct (split_bounds mc p Hr) as [[Hadj _] [Hbond _]].
  split; [lra|]. split; [lra|].
  split; [unfold Spec.tolerance; lra|].
  split; [intros Hv; pose proof (split_calm mc p Hr Hv); unfold Spec.tolerance; lra|].
  split; [unfold Spec.tolerance; lra|].
  pose proof (getETFData_is_covering prov) as Hc.
  destruct (generate_returns h _ mc p amount Hc) as (raw & res & Hraw & Hres & _ & Hw).
  destruct (rawPortfolio_weights _ mc p Hc) as (raw' & Hraw' & Hw').
  rewrite Hraw in Hraw'. injection Hraw' as <-.
  pose proof (raw_total _ mc p raw Hc Hraw) as Ht.
  pose proof (raw_total_positive _ mc p raw Hc Hr Hraw) as Hpos.
  exists raw, res. repeat split; auto.
  rewrite Hw, Hw'.
  destruct (globalOutlook mc), (incomeNeeds p); cbn [map app Spec.basket fst snd];
    repeat (apply Forall_cons; [cbn [snd]; apply ratio_bounds; lra|]);
    apply Forall_nil.
Qed.

(** C10 on an investor of 100 with risk score 1 in a volatile market. *)
Lemma weights_strictly_inside_witness :
  1 <= riskScore (Sample.investor 100 1 10 false) <= 10 /\
  0 < adjustedEquityAllocation
        (getMarketConditions Sample.host (Sample.market 1 30))
        (Sample.investor 100 1 10 false) /\
  exists raw res,
    rawPortfolio (getETFData (Sample.market 1 30))
      (getMarketConditions Sample.host (Sample.market 1 30))
      (Sample.investor 100 1 10 false) = Some raw /\
    0 < totalAllocation raw /\
    generateAdvancedPortfolioWith Sample.host (getETFData (Sample.market 1 30))
      (getMarketConditions Sample.host (Sample.market 1 30))
      (Sample.investor 100 1 10 false) 10000 = Some res /\
    Forall (fun kv => 0 < snd kv < 1) (weights (portfolio res)).
Proof.
  assert (Hr : 1 <= riskScore (Sample.investor 100 1 10 false) <= 10)
    by (cbn; split; discriminate).
  split; [exact Hr|].
  pose proof (weights_strictly_inside Sample.host (Sample.market 1 30)
                (getMarketConditions Sample.host (Sample.market 1 30))
                (Sample.investor 100 1 10 false) 10000 Hr) as H.
  split; [exact (proj1 H) | exact (proj2 (proj2 (proj2 (proj2 (proj2 H)))))].
Defined.

(** C10, counterexample.  At age 100 with risk score 1 and a volatility
    index of 30 the adjusted equity allocation is 0.018, below 0.02. *)
Lemma dampened_equity_below_two_percent :
  1 <= riskScore (Sample.investor 100 1 10 false) <= 10 /\
  adjustedEquityAllocation
    (getMarketConditions Sample.host (Sample.market 1 30))
    (Sample.investor 100 1 10 false) == 0.018 /\
  ~ 0.02 <= adjustedEquityAllocation
              (getMarketConditions Sample.host (Sample.market 1 30))
              (Sample.investor 100 1 10 false).
Proof.
  split; [cbn; split; discriminate|].
  split; [reflexivity|].
  intros H. vm_compute in H. apply H. reflexivity.
Qed.

(** C9, as the code has it.  When the quote of the index or of the
    volatility index fails, [getMarketConditions] answers the default
    context: positive outlook, zero index return and no volatility index
    (the field is absent, which the generator treats as calm).  Whatever the
    provider does, the generator returns a plan; during a complete outage
    the instrument data is the list of bare entries. *)
Theorem provider_outage_defaults (h : Host) (prov : Provider) :
  quote prov "^GSPC" = None \/ quote prov "^VIX" = None ->
  getMarketConditions h prov = unavailable /\
  globalOutlook (getMarketConditions h prov) = positive /\
  spReturn (getMarketConditions h prov) = 0 /\
  volatilityIndex (getMarketConditions h prov) = None /\
  highVolatility (getMarketConditions h prov) = false /\
  ((forall symbol, quote prov symbol = None) ->
   getETFData prov = map (fun e => (fst e, bare (fst e))) ETF_SYMBOLS) /\
  (forall p amount,
     exists res, generateAdvancedPortfolio h prov p amount = Some res).
Proof.
  intros Hout. rewrite (getMarketConditions_outage h prov Hout).
  repeat split.
  - apply getETFData_outage.
  - intros p amount. unfold generateAdvancedPortfolio.
    destruct (generate_returns h _ (getMarketConditions h prov) p amount
                (getETFData_is_covering prov)) as (raw & res & _ & Hres & _).
    eauto.
Qed.

(** C9 on a provider that answers nothing. *)
Lemma provider_outage_defaults_witness :
  (quote Sample.outage "^GSPC" = None \/ quote Sample.outage "^VIX" = None) /\
  getMarketConditions Sample.host Sample.outage = unavailable /\
  exists res,
    generateAdvancedPortfolio Sample.host Sample.outage
      (Sample.investor 30 5 10 false) 10000 = Some res.
Proof.
  assert (Hout : quote Sample.outage "^GSPC" = None
                 \/ quote Sample.outage "^VIX" = None) by (left; reflexivity).
  split; [exact Hout|].
  pose proof (provider_outage_defaults Sample.host Sample.outage Hout) as H.
  split; [exact (proj1 H)|].
  exact (proj2 (proj2 (proj2 (proj2 (proj2 (proj2 H)))))
           (Sample.investor 30 5 10 false) 10000).
Defined.

(** C9, counterexample.  The default context of an outage carries no
    volatility index at all, not a volatility index of zero. *)
Lemma outage_volatility_is_absent :
  quote Sample.outage "^GSPC" = None /\
  volatilityIndex (getMarketConditions Sample.host Sample.outage) = None /\
  volatilityIndex (getMarketConditions Sample.host Sample.outage) <> Some 0.
Proof. repeat split. discriminate. Qed.

(** ** The monthly projection *)

Lemma projectionGuard_spec (p : UserProfile) (m : Q) :
  projectionGuard p = Some m <->
  investmentType p = Some monthly /\ monthlyAmount p = Some m /\
  ~ m == 0 /\ investmentHorizon p <> 0%Z.
Proof.
  unfold projectionGuard.
  destruct (investmentType p) as [[|]|]; try (split; [discriminate | intros (H & _); discriminate]).
  destruct (monthlyAmount p) as [m'|]; [|split; [discriminate | intros (_ & H & _); discriminate]].
  destruct (truthy_num m') eqn:Et; cbn [andb].
  - apply truthy_num_true in Et.
    destruct (Z.eqb_spec (investmentHorizon p) 0) as [E0|E0]; cbn [negb].
    + split; [discriminate | intros (_ & _ & _ & H); contradiction].
    + split.
      * intros H. injection H as <-. auto.
      * intros (_ & H & _). injection H as <-. reflexivity.
  - split; [discriminate|]. intros (_ & H & Hm & _). injection H as <-.
    apply truthy_num_true in Hm. congruence.
Qed.

(** The plan does not read the investment type or the monthly amount. *)
Lemma rawPortfolio_ignores_investment (etfData : ETFData) (mc : MarketConditions)
    (p : UserProfile) (ty : option InvestmentType) (m : option Q) :
  rawPortfolio etfData mc (withInvestment p ty m) = rawPortfolio etfData mc p.
Proof. reflexivity. Qed.

Lemma futureValue_1000_5 : 72010 < futureValue 1000 5 < 72011.
Proof. split; vm_compute; reflexivity. Qed.

(** C6, as the code has it.  A projection is produced exactly when the
    investment type is monthly and the monthly amount and the horizon are
    both present and not zero.  Its value is
    [monthlyAmount * ((1+r)^n - 1)/r * (1+r)] with [r = 0.07/12] and
    [n = 12 * horizon]; its sentence is appended to the narrative after a
    blank line, and without it the narrative is the market description
    alone.  The allocation weights are the same whatever the investment
    type and the monthly amount.  For R1000 a month over 5 years the value
    lies between 72010 and 72011. *)
Theorem projection_rule (h : Host) (etfData : ETFData) (mc : MarketConditions)
    (p : UserProfile) (amount : Q) :
  ((exists text, monthlyProjection h p = Some text) <->
   investmentType p = Some monthly /\
   (exists m, monthlyAmount p = Some m /\ ~ m == 0) /\
   investmentHorizon p <> 0%Z) /\
  (forall m, projectionGuard p = Some m ->
     let r := 0.07 / 12 in
     let n := (investmentHorizon p * 12)%Z in
     let FV := m * ((Qpower (1 + r) n - 1) / r) * (1 + r) in
     futureValue m (investmentHorizon p) = FV /\
     exists text,
       monthlyProjection h p = Some text /\
       text = ("If you invest R" ++ toLocaleString h 2 m ++ " per month for "
               ++ numToString h (inject_Z (investmentHorizon p))
               ++ " years (assuming a 7% annual return), your projected portfolio value could be approximately R"
               ++ toLocaleString h 0 FV ++ ".")%string /\
       narrative h mc p
       = (ma_description (DataService.marketAnalysis mc) ++ nl ++ nl ++ text)%string) /\
  (projectionGuard p = None ->
     narrative h mc p
     = (ma_description (DataService.marketAnalysis mc) ++ "")%string) /\
  (forall ty m,
     option_map portfolio (generateAdvancedPortfolioWith h etfData mc p amount)
     = option_map portfolio
         (generateAdvancedPortfolioWith h etfData mc (withInvestment p ty m) amount)) /\
  72010 < futureValue 1000 5 < 72011.
Proof.
  split; [|split; [|split; [|split]]].
  - unfold monthlyProjection. split.
    + intros [text Ht]. destruct (projectionGuard p) as [m|] eqn:Eg; [|discriminate].
      apply projectionGuard_spec in Eg. destruct Eg as (H1 & H2 & H3 & H4). eauto.
    + intros (H1 & (m & H2 & H3) & H4).
      assert (Eg : projectionGuard p = Some m) by (apply projectionGuard_spec; auto).
      rewrite Eg. eauto.
  - intros m Eg r n FV. split; [reflexivity|].
    unfold narrative, monthlyProjection. rewrite Eg.
    eexists. split; [reflexivity|]. split; reflexivity.
  - intros Eg. unfold narrative, monthlyProjection. rewrite Eg. reflexivity.
  - intros ty m. unfold generateAdvancedPortfolioWith.
    rewrite rawPortfolio_ignores_investment.
    destruct (rawPortfolio etfData mc p); reflexivity.
  - exact futureValue_1000_5.
Qed.

(** C6 on R1000 a month over 5 years. *)
Lemma projection_rule_witness :
  projectionGuard (Sample.saver 1000 5) = Some 1000 /\
  exists text,
    monthlyProjection Sample.host (Sample.saver 1000 5) = Some text /\
    narrative Sample.host (getMarketConditions Sample.host Sample.outage)
      (Sample.saver 1000 5)
    = ("Market data unavailable" ++ nl ++ nl ++ text)%string.
Proof.
  assert (Eg : projectionGuard (Sample.saver 1000 5) = Some 1000) by reflexivity.
  split; [exact Eg|].
  destruct (proj2 (proj1 (proj2
    (projection_rule Sample.host (getETFData Sample.outage)
       (getMarketConditions Sample.host Sample.outage)
       (Sample.saver 1000 5) 1000)) 1000 Eg)) as (text & H1 & _ & H3).
  exists text. split; [exact H1 | exact H3].
Defined.

(** C6, counterexample.  A monthly investment without a monthly amount
    gets no projection, and the value for R1000 a month over 5 years is
    more than 65 above 71945. *)
Lemma projection_counterexample :
  (investmentType (withInvestment (Sample.saver 1000 5) (Some monthly) None)
   = Some monthly /\
   monthlyProjection Sample.host
     (withInvestment (Sample.saver 1000 5) (Some monthly) None) = None) /\
  65 < futureValue 1000 5 - 71945 /\
  ~ Qabs (futureValue 1000 5 - 71945) <= 1.
Proof.
  split; [split; reflexivity|].
  split; [vm_compute; reflexivity|].
  intros H. vm_compute in H. apply H. reflexivity.
Qed.

(** ** The income override and the volatility dampening *)

(** C2, the code at the failing input.  At age 80 with risk score 5 the
    bond instrument weighs 0.4 when income is needed and 0.7 when it is not:
    the income override lowers the bond weight. *)
Theorem income_override_lowers_bonds_at_80 :
  exists withIncome without,
    generateAdvancedPortfolio Sample.host Sample.outage
      (Sample.investor 80 5 10 true) 10000 = Some withIncome /\
    generateAdvancedPortfolio Sample.host Sample.outage
      (Sample.investor 80 5 10 false) 10000 = Some without /\
    weightOf SA_BOND (portfolio withIncome) == 0.4 /\
    weightOf SA_BOND (portfolio without) == 0.7 /\
    weightOf SA_BOND (portfolio withIncome) < weightOf SA_BOND (portfolio without).
Proof.
  eexists. eexists. split; [reflexivity|]. split; [reflexivity|].
  repeat split; vm_compute; reflexivity.
Qed.

(** C3, the code at the failing input.  With income needed, age 30 and
    risk score 5, the equity part of the plan is 0.7 at a volatility index
    of 10 and 0.7 at a volatility index of 30, while the rationale of the
    second plan reports an equity cut for high volatility. *)
Theorem volatility_ignored_with_income :
  exists calm stormy,
    generateAdvancedPortfolio Sample.host (Sample.market 1 10)
      (Sample.investor 30 5 10 true) 10000 = Some calm /\
    generateAdvancedPortfolio Sample.host (Sample.market 1 30)
      (Sample.investor 30 5 10 true) 10000 = Some stormy /\
    equityWeight (portfolio calm) == 0.7 /\
    equityWeight (portfolio stormy) == 0.7 /\
    ~ equityWeight (portfolio stormy) < equityWeight (portfolio calm) /\
    In "Market volatility adjustment: -10% equity due to high VIX (30.0)"%string
       (rationale (marketAnalysis stormy)).
Proof.
  eexists. eexists. split; [reflexivity|]. split; [reflexivity|].
  split; [vm_compute; reflexivity|]. split; [vm_compute; reflexivity|].
  split.
  - intros H. vm_compute in H. discriminate.
  - vm_compute. tauto.
Qed.

End EngineFacts.

(* ================================================================== *)
(** * Facts about the intake dialogue *)
(* ================================================================== *)

Module PageFacts.
Import JS.
Import Page.
Import JSFacts.
Local Open Scope list_scope.

(** ** What a validator lets through is truthy *)

Lemma validateAmount_truthy (s : string) (a : Q) :
  validateAmount s = Some a -> truthy_num a = true.
Proof.
  unfold validateAmount. destruct (parseFloat _) as [x|]; [|discriminate].
  destruct (gt x 0) eqn:E; [|discriminate].
  intros H. injection H as <-. apply gt_true in E.
  apply truthy_num_true. lra.
Qed.

Lemma validateAmount_nonempty (s : string) (a : Q) :
  validateAmount s = Some a -> truthy_str s = true.
Proof. destruct s; [discriminate | reflexivity]. Qed.

Lemma validateTimeHorizon_truthy (s : string) (y : Z) :
  validateTimeHorizon s = Some y -> (y =? 0)%Z = false.
Proof.
  unfold validateTimeHorizon. destruct (parseInt _) as [x|]; [|discriminate].
  destruct (0 <? x)%Z eqn:E; cbn [andb]; [|discriminate].
  destruct (x <=? 50)%Z; [|discriminate].
  intros H. injection H as <-. apply Z.ltb_lt in E. apply Z.eqb_neq. lia.
Qed.

Lemma validateTimeHorizon_range (s : string) (y : Z) :
  validateTimeHorizon s = Some y -> (1 <= y <= 50)%Z.
Proof.
  unfold validateTimeHorizon. destruct (parseInt _) as [x|]; [|discriminate].
  destruct (0 <? x)%Z eqn:E; cbn [andb]; [|discriminate].
  destruct (x <=? 50)%Z eqn:E'; [|discriminate].
  intros H. injection H as <-. apply Z.ltb_lt in E. apply Z.leb_le in E'. lia.
Qed.

Lemma validateRiskTolerance_truthy (s r : string) :
  validateRiskTolerance s = Some r -> truthy_str r = true.
Proof.
  unfold validateRiskTolerance.
  destruct (existsb _ _) eqn:E; [|discriminate].
  intros H. injection H as <-.
  apply existsb_exists in E. destruct E as (x & Hin & Hx).
  apply String.eqb_eq in Hx. rewrite Hx.
  cbn in Hin. destruct Hin as [<- | [<- | [<- | []]]]; reflexivity.
Qed.

(** ** The request the page sends to the generator *)

(** The page always asks for age 30 and a risk score of 3, 5 or 8. *)
Lemma requestProfile_valid (profile : UserProfile) :
  Engine.age (requestProfile profile) = 30 /\
  1 <= Engine.riskScore (requestProfile profile) <= 10.
Proof.
  split; [reflexivity|]. cbn.
  destruct (riskTolerance profile) as [risk|]; [|split; discriminate].
  destruct (String.eqb risk "low"); [split; discriminate|].
  destruct (String.eqb risk "medium"); split; discriminate.
Qed.

(** X28.  When the request gets through, every profile the page can send,
    complete or not, gets a plan whose weights sum to 1. *)
Lemma page_plan_sums_to_one (w : World) (profile : UserProfile) :
  reachable w = true ->
  exists res,
    generatePortfolio w profile = Some res /\
    Engine.sumWeights (Engine.weights (Engine.portfolio res)) == 1.
Proof.
  intros Hup. unfold generatePortfolio, Engine.generateAdvancedPortfolio. rewrite Hup.
  apply EngineFacts.plan_sum.
  - apply EngineFacts.getETFData_is_covering.
  - apply requestProfile_valid.
Qed.

(** X29.  The request of the page carries no monthly amount, so the plans
    the page obtains never carry a projection, also for a monthly
    investment. *)
Lemma page_never_projects (h : Host) (profile : UserProfile) :
  Engine.monthlyProjection h (requestProfile profile) = None.
Proof.
  unfold Engine.monthlyProjection, Engine.projectionGuard. cbn.
  destruct (investmentType profile) as [[|]|]; reflexivity.
Qed.

(** ** One turn, field by field *)

(** Split the [if] chain of a turn on the truthiness of the next field. *)
Ltac chain p :=
  destruct (truthy_ostr (investmentGoal p)) eqn:Egoal; cbn [negb];
  [destruct (truthy_oint (timeHorizon p)) eqn:Ehorizon; cbn [negb];
   [destruct (truthy_ostr (riskTolerance p)) eqn:Erisk; cbn [negb];
    [destruct (truthy_ostr (incomeNeeds p)) eqn:Eincome; cbn [negb];
     [destruct (truthy_oamount (investmentAmount p)) eqn:Eamount; cbn [negb];
      [destruct (truthy_otype (investmentType p)) eqn:Etype; cbn [negb];
       [destruct (isMonthly (investmentType p)) eqn:Emonthly; cbn [andb];
        [destruct (truthy_oamount (monthlyAmount p)) eqn:Emamount; cbn [negb]
        |]
       |]
      |]
     |]
    |]
   |]
  |].

(** C7.  Whatever the profile, when the answer fails the validator of the
    pending field the turn leaves the profile as it was, replies with the
    re-prompt of that field, and is not final. *)
Theorem invalid_answer_reprompts (w : World) (p : UserProfile) (f : Field)
    (userInput : string) :
  pending p = Some f ->
  accepts f userInput = false ->
  generateBotResponse w p userInput
  = {| profileAfter := p; botResponse := reprompt f; isFinal := false |}.
Proof.
  unfold pending, generateBotResponse. chain p; intros Hp Ha;
    try discriminate; injection Hp as <-; cbn [accepts reprompt notNull] in Ha |- *.
  - destruct (validateAmount userInput); [discriminate | reflexivity].
  - unfold readType. apply orb_false_iff in Ha. destruct Ha as [-> ->]. reflexivity.
  - destruct (validateAmount userInput); [discriminate | reflexivity].
  - rewrite Ha. reflexivity.
  - destruct (validateRiskTolerance userInput); [discriminate | reflexivity].
  - destruct (validateTimeHorizon userInput); [discriminate | reflexivity].
  - destruct (validateAmount userInput); [discriminate | reflexivity].
Qed.

(** C7 on the first question answered in words. *)
Lemma invalid_answer_reprompts_witness :
  pending emptyProfile = Some FGoal /\
  accepts FGoal "ten thousand" = false /\
  generateBotResponse (Sample.world 1 10) emptyProfile "ten thousand"
  = {| profileAfter := emptyProfile; botResponse := RETRY_AMOUNT; isFinal := false |}.
Proof.
  split; [reflexivity|]. split; [reflexivity|].
  exact (invalid_answer_reprompts (Sample.world 1 10) emptyProfile FGoal
           "ten thousand" eq_refl eq_refl).
Defined.

(** The re-prompts name the expected format of their field. *)
Lemma reprompts_worded :
  reprompt FGoal = "Please enter a valid investment amount (e.g., 10000)"%string /\
  reprompt FHorizon
  = "Please enter a valid time horizon in years (between 1 and 50 years)"%string /\
  reprompt FRisk = "Please specify your risk tolerance as Low, Medium, or High"%string /\
  reprompt FIncome = "Please answer Yes or No regarding your income needs"%string /\
  reprompt FAmount = "Please enter a valid investment amount (e.g., 10000)"%string /\
  reprompt FType
  = "Please specify 'once-off' for a lump sum or 'monthly' for a recurring investment."%string /\
  reprompt FMonthly
  = "Please enter a valid monthly investment amount (e.g., 1000)"%string.
Proof. repeat split. Qed.

(** ** The order in which the fields fill *)

Lemma ordered_empty : ordered emptyProfile.
Proof. unfold ordered. cbn. intuition discriminate. Qed.

Lemma ordered_turn (w : World) (p : UserProfile) (userInput : string) :
  ordered p -> ordered (profileAfter (generateBotResponse w p userInput)).
Proof.
  intros Hord. unfold generateBotResponse. chain p.
  - (* every field set: the intake is over *)
    exact Hord.
  - (* the monthly amount *)
    destruct (validateAmount userInput) as [a|] eqn:Ev; [|exact Hord].
    rewrite (validateAmount_truthy _ _ Ev). cbn [profileAfter recommend].
    unfold ordered in *. cbn [isSet setMonthlyAmount investmentGoal timeHorizon
      riskTolerance incomeNeeds investmentAmount investmentType monthlyAmount] in *.
    intuition.
  - (* once-off, complete *)
    exact Hord.
  - (* the investment type *)
    assert (Hnone : isMonthly (investmentType p) = false)
      by (destruct (investmentType p); [discriminate Etype | reflexivity]).
    destruct (readType userInput) as [[|]|]; cbn [profileAfter recommend reply];
      try exact Hord;
      unfold ordered in *; cbn [isSet setInvestmentType investmentGoal timeHorizon
        riskTolerance incomeNeeds investmentAmount investmentType monthlyAmount
        truthy_otype isMonthly] in *;
      rewrite ?Eamount; intuition congruence.
  - (* the investment amount *)
    destruct (validateAmount userInput) as [a|] eqn:Ev; [|exact Hord].
    rewrite (validateAmount_truthy _ _ Ev). cbn [profileAfter reply].
    unfold ordered in *. cbn [isSet setInvestmentAmount investmentGoal timeHorizon
      riskTolerance incomeNeeds investmentAmount investmentType monthlyAmount
      truthy_oamount] in *.
    rewrite ?Eincome, ?Eamount in *. intuition congruence.
  - (* the income need *)
    destruct (_ || _) eqn:Ev; [|exact Hord]. cbn [profileAfter reply].
    unfold ordered in *. cbn [isSet setIncomeNeeds investmentGoal timeHorizon
      riskTolerance incomeNeeds investmentAmount investmentType monthlyAmount] in *.
    rewrite ?Erisk, ?Eincome in *. intuition congruence.
  - (* the risk tolerance *)
    destruct (validateRiskTolerance userInput) as [r|] eqn:Ev; [|exact Hord].
    rewrite (validateRiskTolerance_truthy _ _ Ev). cbn [profileAfter reply].
    unfold ordered in *. cbn [isSet setRiskTolerance investmentGoal timeHorizon
      riskTolerance incomeNeeds investmentAmount investmentType monthlyAmount] in *.
    rewrite ?Ehorizon, ?Erisk in *. intuition congruence.
  - (* the time horizon *)
    destruct (validateTimeHorizon userInput) as [y|] eqn:Ev; [|exact Hord].
    rewrite (validateTimeHorizon_truthy _ _ Ev). cbn [negb profileAfter reply].
    unfold ordered in *. cbn [isSet setTimeHorizon investmentGoal timeHorizon
      riskTolerance incomeNeeds investmentAmount investmentType monthlyAmount] in *.
    rewrite ?Egoal, ?Ehorizon in *. intuition congruence.
  - (* the investment goal *)
    destruct (validateAmount userInput) as [a|] eqn:Ev; [|exact Hord].
    rewrite (validateAmount_truthy _ _ Ev). cbn [profileAfter reply].
    unfold ordered in *. cbn [isSet setInvestmentGoal investmentGoal timeHorizon
      riskTolerance incomeNeeds investmentAmount investmentType monthlyAmount] in *.
    rewrite ?Egoal in *. intuition congruence.
Qed.

(** A turn leaves the profile as it was or sets the pending field, and
    that field alone. *)
Lemma turn_fills_pending_field (w : World) (p : UserProfile) (userInput : string) :
  let q := profileAfter (generateBotResponse w p userInput) in
  q = p \/
  exists f, pending p = Some f /\ isSet f q = true /\
            forall g, g <> f -> isSet g q = isSet g p.
Proof.
  unfold pending, generateBotResponse. chain p; cbn zeta.
  - left; reflexivity.
  - destruct (validateAmount userInput) as [a|] eqn:Ev; [|left; reflexivity].
    rewrite (validateAmount_truthy _ _ Ev). right. exists FMonthly.
    repeat split. intros g Hg. destruct g; try reflexivity. congruence.
  - left; reflexivity.
  - destruct (readType userInput) as [[|]|]; [right | right | left; reflexivity];
      exists FType; repeat split; intros g Hg; destruct g; try reflexivity; congruence.
  - destruct (validateAmount userInput) as [a|] eqn:Ev; [|left; reflexivity].
    rewrite (validateAmount_truthy _ _ Ev). right. exists FAmount.
    repeat split. intros g Hg. destruct g; try reflexivity. congruence.
  - destruct (_ || _) eqn:Ev; [|left; reflexivity]. right. exists FIncome.
    split; [reflexivity|]. split.
    + cbn. apply orb_true_iff in Ev.
      destruct Ev as [Ev | Ev]; apply String.eqb_eq in Ev; rewrite Ev; reflexivity.
    + intros g Hg. destruct g; try reflexivity. congruence.
  - destruct (validateRiskTolerance userInput) as [r|] eqn:Ev; [|left; reflexivity].
    rewrite (validateRiskTolerance_truthy _ _ Ev). right. exists FRisk.
    split; [reflexivity|]. split.
    + cbn. apply (validateRiskTolerance_truthy _ _ Ev).
    + intros g Hg. destruct g; try reflexivity. congruence.
  - destruct (validateTimeHorizon userInput) as [y|] eqn:Ev; [|left; reflexivity].
    rewrite (validateTimeHorizon_truthy _ _ Ev). cbn [negb]. right. exists FHorizon.
    split; [reflexivity|]. split.
    + cbn. now rewrite (validateTimeHorizon_truthy _ _ Ev).
    + intros g Hg. destruct g; try reflexivity. congruence.
  - destruct (validateAmount userInput) as [a|] eqn:Ev; [|left; reflexivity].
    rewrite (validateAmount_truthy _ _ Ev). right. exists FGoal.
    split; [reflexivity|]. split.
    + cbn. apply (validateAmount_nonempty _ _ Ev).
    + intros g Hg. destruct g; try reflexivity. congruence.
Qed.

Lemma reachable_ordered (w : World) (p : UserProfile) :
  reachableProfile w p -> ordered p.
Proof.
  induction 1 as [|p userInput _ IH].
  - apply ordered_empty.
  - now apply ordered_turn.
Qed.






(** The dialogue of the specification's scenario: six answers, final on
    the sixth and not before; a seventh answer changes nothing. *)
Example scenario_once_off :
  map isFinal (fst (converse (Sample.world 1 10) emptyProfile
                      ["10000"; "5 years"; "medium"; "no"; "10000"; "once-off"; "more"]))
  = [false; false; false; false; false; true; false].
Proof. vm_compute. reflexivity. Qed.

End PageFacts.

(* ================================================================== *)
(** * Facts about the binary64 run *)
(* ================================================================== *)

Module Binary64Facts.
Import PrimFloat.
Import Binary64.
Local Open Scope float_scope.
#[local] Set Warnings "-inexact-float".

(** In binary64, every request the page can send gets weights that sum to
    1.0 within 1e-9. *)
Lemma page_requests_sum_to_one :
  forallb (fun r =>
             let '(riskScore, highVolatility, incomeNeeds, outlook) := r in
             near (total (weights 30 riskScore highVolatility incomeNeeds outlook))
                  1)
          pageRequests = true.
Proof. vm_compute. reflexivity. Qed.

(** In binary64, the scenario of age 30 and risk score 5 gives 0.48, 0.32
    and 0.20 within 1e-9. *)
Lemma scenario_age_30_medium_binary64 :
  map fst (weights 30 5 false false DataService.positive)
  = [Engine.MSCI_WORLD; Engine.EMERGING; Engine.SA_BOND] /\
  forallb (fun ab => near (fst ab) (snd ab))
    (combine (map snd (weights 30 5 false false DataService.positive))
             [0.48; 0.32; 0.20]) = true.
Proof. split; vm_compute; reflexivity. Qed.

(** In binary64 the extreme values of the split fall one unit in the last
    place below their exact figures: the adjusted equity allocation of an
    investor of 100 with risk score 1 is below 0.02, and below 0.018 when
    dampened; the bond leg of an investor of 20 is below 0.10, and below 0.2
    with an income need. *)
Lemma extremes_round_below :
  (fst (split 100 1 false false) <? 0.02) = true /\
  (fst (split 100 1 true false) <? 0.018) = true /\
  (snd (split 20 5 false false) <? 0.1) = true /\
  (snd (split 20 5 false true) <? 0.2) = true.
Proof. repeat split; vm_compute; reflexivity. Qed.

(** In binary64, for every whole age from 0 to 120 and every risk score
    from 1 to 10, the adjusted equity allocation is at least 0.018 (0.02
    when calm) and the bond leg at least 0.10, each within 1e-9; every final
    weight lies strictly between 0 and 1 and the weights sum to 1.0 within
    1e-9. *)
Lemma requests_stay_inside :
  forallb (fun r =>
             let '(age, riskScore, highVolatility, incomeNeeds, outlook) := r in
             let '(adjustedEquityAllocation, bondAllocation) :=
               split age riskScore highVolatility incomeNeeds in
             (0.018 - 1e-9 <=? adjustedEquityAllocation)
             && (highVolatility || (0.02 - 1e-9 <=? adjustedEquityAllocation))
             && (0.1 - 1e-9 <=? bondAllocation)
             && forallb (fun kv => inside (snd kv))
                  (weights age riskScore highVolatility incomeNeeds outlook)
             && near (total (weights age riskScore highVolatility incomeNeeds outlook))
                     1)
          requests = true.
Proof. vm_compute. reflexivity. Qed.

(** In binary64, for every whole age from 0 to 120, the bond instrument of
    an investor who needs income weighs between 0.2 and 0.4 within 1e-9. *)
Lemma income_bond_weight_binary64 :
  forallb (fun r =>
             let '(age, riskScore, highVolatility, incomeNeeds, outlook) := r in
             negb incomeNeeds
             || ((0.2 - 1e-9 <=?
                  weightOf Engine.SA_BOND
                    (weights age riskScore highVolatility incomeNeeds outlook))
                 && (weightOf Engine.SA_BOND
                       (weights age riskScore highVolatility incomeNeeds outlook)
                     <=? 0.4 + 1e-9)))
          requests = true.
Proof. vm_compute. reflexivity. Qed.

End Binary64Facts.

(* ================================================================== *)
(** * More about the data service *)
(* ================================================================== *)

Module DataServiceMore.
Import JS.
Import DataService.
Import JSFacts.
Import DataServiceFacts.
Local Open Scope list_scope.

(** Writing entries with fresh, distinct keys appends them in order. *)
Lemma populate_fresh {A : Type} (rs : list (string * A)) (o : obj A) :
  NoDup (obj_keys o ++ map fst rs) -> populate rs o = o ++ rs.
Proof.
  unfold populate. revert o. induction rs as [|[k v] rs IH]; intros o Hnd; cbn.
  - now rewrite app_nil_r.
  - cbn in Hnd. rewrite obj_set_new.
    + rewrite IH.
      * now rewrite <- app_assoc.
      * unfold obj_keys in *. rewrite map_app. cbn. rewrite <- app_assoc. exact Hnd.
    + apply NoDup_remove_2 in Hnd. intros Hin. apply Hnd. apply in_or_app. now left.
Qed.

Lemma ETF_SYMBOLS_distinct : NoDup (obj_keys ETF_SYMBOLS).
Proof.
  unfold obj_keys, ETF_SYMBOLS. cbn [map fst].
  repeat (constructor; [cbn; intuition discriminate|]). constructor.
Qed.

(** [getETFData] is the catalogue with each line fetched on its own. *)
Lemma getETFData_map (prov : Provider) :
  getETFData prov = map (fetchETF prov) ETF_SYMBOLS.
Proof.
  unfold getETFData. rewrite populate_fresh; [reflexivity|].
  cbn [obj_keys map app]. rewrite map_map.
  erewrite map_ext; [exact ETF_SYMBOLS_distinct|]. intros e. apply fst_fetchETF.
Qed.

Lemma obj_get_fetched (prov : Provider) (l : obj string) (name symbol : string) :
  NoDup (obj_keys l) -> In (name, symbol) l ->
  obj_get name (map (fetchETF prov) l) = Some (snd (fetchETF prov (name, symbol))).
Proof.
  induction l as [|[k s] l IH]; intros Hnd Hin; [contradiction|].
  cbn [map]. inversion Hnd as [|? ? Hk Hnd']; subst.
  destruct Hin as [Heq | Hin].
  - injection Heq as -> ->.
    destruct (fetchETF prov (name, symbol)) as [k' d] eqn:E.
    pose proof (fst_fetchETF prov (name, symbol)) as Hf. rewrite E in Hf. cbn in Hf.
    subst k'. cbn. now rewrite String.eqb_refl.
  - destruct (fetchETF prov (k, s)) as [k' d] eqn:E.
    pose proof (fst_fetchETF prov (k, s)) as Hf. rewrite E in Hf. cbn in Hf. subst k'.
    cbn [obj_get]. destruct (String.eqb name k) eqn:Ek.
    + apply String.eqb_eq in Ek. subst k. exfalso. apply Hk.
      unfold obj_keys. change name with (fst (name, symbol)). now apply in_map.
    + now apply IH.
Qed.

Lemma getETFData_entry (prov : Provider) (name symbol : string) :
  In (name, symbol) ETF_SYMBOLS ->
  obj_get name (getETFData prov) = Some (snd (fetchETF prov (name, symbol))).
Proof.
  intros Hin. rewrite getETFData_map.
  apply obj_get_fetched; [exact ETF_SYMBOLS_distinct | exact Hin].
Qed.

(** X1.  Whatever the provider answers, [getETFData] returns exactly the
    thirteen instruments of the catalogue, in the catalogue's order, each
    described by its own name. *)
Theorem getETFData_lists_the_catalogue (prov : Provider) :
  obj_keys (getETFData prov) = obj_keys ETF_SYMBOLS /\
  length (getETFData prov) = 13%nat /\
  Forall (fun kv => description (snd kv) = fst kv) (getETFData prov).
Proof.
  rewrite getETFData_map. split; [|split].
  - unfold obj_keys. rewrite map_map. apply map_ext. intros e. apply fst_fetchETF.
  - rewrite length_map. reflexivity.
  - apply Forall_forall. intros kv Hin. apply in_map_iff in Hin.
    destruct Hin as ([name symbol] & <- & _). unfold fetchETF.
    destruct (quote prov symbol); [destruct (historical prov symbol)|]; reflexivity.
Qed.

(** X2.  The entry of an instrument depends on the provider's answers for
    that instrument's symbol alone: two providers that agree on the quote
    and on the history of a symbol give its instrument the same entry,
    whatever they answer for the other symbols. *)
Theorem instrument_entries_are_isolated (prov1 prov2 : Provider)
    (name symbol : string) :
  In (name, symbol) ETF_SYMBOLS ->
  quote prov1 symbol = quote prov2 symbol ->
  historical prov1 symbol = historical prov2 symbol ->
  obj_get name (getETFData prov1) = obj_get name (getETFData prov2).
Proof.
  intros Hin Hq Hh. rewrite !(getETFData_entry _ name symbol Hin).
  unfold fetchETF. rewrite Hq, Hh. reflexivity.
Qed.

(** X2 on the bond instrument, with one provider down for everything but
    the bond symbol's calls being equal. *)
Lemma instrument_entries_are_isolated_witness :
  In ("Satrix SA Bond ETF", "STXGOV.JO") ETF_SYMBOLS /\
  obj_get "Satrix SA Bond ETF" (getETFData Sample.outage)
  = obj_get "Satrix SA Bond ETF"
      (getETFData {| quote := fun s => if String.eqb s "STXGOV.JO" then None
                                       else quote (Sample.market 1 10) s;
                     historical := fun _ => None |}).
Proof.
  assert (Hin : In ("Satrix SA Bond ETF", "STXGOV.JO") ETF_SYMBOLS)
    by (cbn; tauto).
  split; [exact Hin|].
  exact (instrument_entries_are_isolated Sample.outage _ _ _ Hin eq_refl eq_refl).
Defined.

(** X3.  An instrument whose quote or whose history fails gets the bare
    entry: its description and no number, also when the quote itself had
    arrived.  An instrument for which both calls succeed carries the
    quote's price, change and volume. *)
Theorem failed_instrument_is_bare (prov : Provider) (name symbol : string) :
  In (name, symbol) ETF_SYMBOLS ->
  (quote prov symbol = None \/ historical prov symbol = None ->
   obj_get name (getETFData prov) = Some (bare name)) /\
  (forall q h, quote prov symbol = Some q -> historical prov symbol = Some h ->
   exists d, obj_get name (getETFData prov) = Some d /\
             price d = regularMarketPrice q /\
             change d = regularMarketChangePercent q /\
             volume d = regularMarketVolume q /\
             threeMonthReturn d = threeMonthReturnOf q h).
Proof.
  intros Hin. rewrite (getETFData_entry _ name symbol Hin). unfold fetchETF. split.
  - intros [H | H]; rewrite H; [reflexivity|].
    destruct (quote prov symbol); reflexivity.
  - intros q h Hq Hh. rewrite Hq, Hh. eexists. repeat split.
Qed.

Lemma failed_instrument_is_bare_witness :
  In ("Satrix Top 40 ETF", "STX40.JO") ETF_SYMBOLS /\
  obj_get "Satrix Top 40 ETF" (getETFData Sample.outage)
  = Some (bare "Satrix Top 40 ETF").
Proof.
  assert (Hin : In ("Satrix Top 40 ETF", "STX40.JO") ETF_SYMBOLS)
    by (cbn; tauto).
  split; [exact Hin|].
  exact (proj1 (failed_instrument_is_bare Sample.outage _ _ Hin) (or_introl eq_refl)).
Defined.

(** X4.  The outlook is negative exactly when both index quotes arrived and
    the index return is present and not above zero; in every other case
    (a rising index, or no usable data) it is positive. *)
Theorem negative_outlook_iff (h : Host) (prov : Provider) :
  globalOutlook (getMarketConditions h prov) = negative <->
  exists spyQuote vixQuote r,
    quote prov "^GSPC" = Some spyQuote /\
    quote prov "^VIX" = Some vixQuote /\
    regularMarketChangePercent spyQuote = Some r /\
    r <= 0.
Proof.
  unfold getMarketConditions. split.
  - destruct (quote prov "^GSPC") as [spy|]; [|discriminate].
    destruct (quote prov "^VIX") as [vix|]; [|discriminate].
    destruct (regularMarketChangePercent spy) as [r|] eqn:Er; [|discriminate].
    cbn [globalOutlook]. destruct (gt r 0) eqn:Eg; [discriminate|].
    intros _. exists spy, vix, r. repeat split; auto.
    apply Qnot_lt_le. intros Hlt. apply gt_true in Hlt. congruence.
  - intros (spy & vix & r & -> & -> & Er & Hr). rewrite Er. cbn [globalOutlook].
    destruct (gt r 0) eqn:Eg; [|reflexivity].
    apply gt_true in Eg. lra.
Qed.

(** X5.  Whenever the generator will cut equity for volatility (a
    volatility index above 25), the market description ends by naming the
    high volatility and the factor list carries a volatility factor that
    does not call the environment low-risk. *)
Theorem dampening_is_announced (h : Host) (prov : Provider) :
  Engine.highVolatility (getMarketConditions h prov) = true ->
  (exists base,
     ma_description (marketAnalysis (getMarketConditions h prov))
     = (base ++ ", with high volatility suggesting increased uncertainty")%string) /\
  (exists impact,
     In {| factor := "Market Volatility (VIX)"; impact := impact |}
        (factors (marketAnalysis (getMarketConditions h prov))) /\
     (impact = "Moderate market uncertainty"%string
      \/ impact = "High market uncertainty"%string)).
Proof.
  unfold getMarketConditions, Engine.highVolatility.
  destruct (quote prov "^GSPC") as [spy|]; [|discriminate].
  destruct (quote prov "^VIX") as [vix|]; [|discriminate].
  destruct (regularMarketChangePercent spy) as [r|]; [|discriminate].
  cbn [volatilityIndex marketAnalysis ma_description factors].
  destruct (regularMarketPrice vix) as [v|]; [|discriminate].
  intros Hv. apply andb_true_iff in Hv. destruct Hv as [Ht Hg].
  apply gt_true in Hg.
  assert (H15 : lt v 15 = false).
  { unfold lt. destruct (Qle_bool 15 v) eqn:E; [reflexivity|].
    apply Qle_bool_false in E. lra. }
  assert (H25 : lt v 25 = false).
  { unfold lt. destruct (Qle_bool 25 v) eqn:E; [reflexivity|].
    apply Qle_bool_false in E. lra. }
  assert (H20 : lt v 20 = false).
  { unfold lt. destruct (Qle_bool 20 v) eqn:E; [reflexivity|].
    apply Qle_bool_false in E. lra. }
  split.
  - unfold generateMarketDescription. rewrite Ht, H15, H25. eauto.
  - unfold generateMarketFactors. rewrite Ht, H20.
    eexists. split.
    + apply in_or_app. right. apply in_or_app. left. left. reflexivity.
    + destruct (lt v 30); auto.
Qed.

Lemma dampening_is_announced_witness :
  Engine.highVolatility (getMarketConditions Sample.host (Sample.market 1 30)) = true /\
  exists base,
    ma_description (marketAnalysis (getMarketConditions Sample.host (Sample.market 1 30)))
    = (base ++ ", with high volatility suggesting increased uncertainty")%string.
Proof.
  split; [reflexivity|].
  exact (proj1 (dampening_is_announced Sample.host (Sample.market 1 30) eq_refl)).
Defined.

End DataServiceMore.

(* ================================================================== *)
(** * More about the allocation engine *)
(* ================================================================== *)

Module EngineMore.
Import JS.
Import DataService.
Import Engine.
Import JSFacts.
Import DataServiceFacts.
Import EngineFacts.
Local Open Scope list_scope.

(** ** The age-based equity share *)

(** X6.  The base equity share never rises with age, stays between 0.1
    and 0.9, is 0.9 up to the age of 20, 0.1 from the age of 100 on, and
    [(110 - age) / 100] in between. *)
Theorem base_equity_falls_with_age (p q : UserProfile) :
  age p <= age q ->
  equityAllocation q <= equityAllocation p /\
  0.1 <= equityAllocation q <= 0.9 /\
  (age q <= 20 -> equityAllocation q == 0.9) /\
  (100 <= age q -> equityAllocation q == 0.1) /\
  (20 <= age q <= 100 -> equityAllocation q == (110 - age q) / 100).
Proof.
  intros Hage. unfold equityAllocation.
  split; [qsolve|]. split; [qsolve|].
  split; [intros H20; qsolve|]. split; [intros H100; qsolve|].
  intros [H20 H100]. qsolve.
Qed.

Lemma base_equity_falls_with_age_witness :
  age (Sample.investor 30 5 10 false) <= age (Sample.investor 80 5 10 false) /\
  equityAllocation (Sample.investor 80 5 10 false)
  <= equityAllocation (Sample.investor 30 5 10 false).
Proof.
  assert (H : age (Sample.investor 30 5 10 false)
              <= age (Sample.investor 80 5 10 false)) by (cbn; discriminate).
  split; [exact H|].
  exact (proj1 (base_equity_falls_with_age _ _ H)).
Defined.

Lemma equityAllocation_same_age (p q : UserProfile) :
  age p == age q -> equityAllocation p == equityAllocation q.
Proof. intros H. unfold equityAllocation. qcases; qdiv; lra. Qed.

(** ** The instruments of the plan and their market data *)

Lemma assign_echo (etfData : ETFData) (name : string) (a : Q) (desc : string)
    (pf : Portfolio) :
  covers etfData -> In name (obj_keys ETF_SYMBOLS) ->
  exists d,
    obj_get name etfData = Some d /\
    assign etfData name a desc pf
    = Some (obj_set name
              {| allocation := a; description := desc;
                 price := DataService.price d; change := DataService.change d;
                 volume := DataService.volume d;
                 threeMonthReturn := DataService.threeMonthReturn d |} pf).
Proof.
  intros Hc Hin. destruct (Hc name Hin) as [d Hd]. exists d. split; [exact Hd|].
  unfold assign, etfEntry. rewrite Hd. reflexivity.
Qed.

Ltac run_assign_echo Hc :=
  match goal with
  | |- context [assign ?d ?name ?a ?desc ?pf] =>
      let x := fresh "d" in
      let Hx := fresh "Hd" in
      let He := fresh "He" in
      destruct (assign_echo d name a desc pf Hc ltac:(known)) as (x & Hx & He);
      rewrite He; clear He
  end.

Lemma plan_shape (h : Host) (prov : Provider)
    (mc : MarketConditions) (p : UserProfile) (amount : Q) :
  exists res,
    generateAdvancedPortfolioWith h (getETFData prov) mc p amount = Some res /\
    obj_keys (portfolio res)
    = map fst (Spec.basket (globalOutlook mc) (incomeNeeds p)) ++ [SA_BOND] /\
    NoDup (obj_keys (portfolio res)) /\
    Forall (fun kv =>
              exists d, obj_get (fst kv) (getETFData prov) = Some d /\
                        price (snd kv) = DataService.price d /\
                        change (snd kv) = DataService.change d /\
                        volume (snd kv) = DataService.volume d /\
                        threeMonthReturn (snd kv) = DataService.threeMonthReturn d)
           (portfolio res).
Proof.
  pose proof (getETFData_is_covering prov) as Hc.
  destruct (generate_returns h _ mc p amount Hc) as (raw & res & Hraw & Hres & Hn & Hw).
  pose proof (raw_keys_NoDup _ mc p raw Hc Hraw) as Hnd.
  exists res. split; [exact Hres|].
  rewrite Hn, (normalize_map raw Hnd), keys_scaled.
  destruct (rawPortfolio_weights _ mc p Hc) as (raw' & Hraw' & Hw').
  rewrite Hraw in Hraw'. injection Hraw' as <-.
  split; [|split; [exact Hnd|]].
  - rewrite keys_weights, Hw', map_app, map_map. reflexivity.
  - clear Hw Hw' Hres Hn Hnd. revert Hraw.
    unfold rawPortfolio. destruct (split mc p) as [adj bond]. unfold selectETFs.
    destruct (globalOutlook mc), (incomeNeeds p);
      repeat run_assign_echo Hc; intros Hraw; injection Hraw as <-; cbn;
      repeat (apply Forall_cons; [cbn; eexists; split; [eassumption|]; repeat split|]);
      apply Forall_nil.
Qed.

(** X7.  The plan holds the instruments of the table cell followed by the
    bond instrument, each once; normalisation changes nothing but the
    allocation, so every instrument carries the price, change, volume and
    three-month return that the instrument data holds under its name. *)
Theorem plan_echoes_market_data (h : Host) (prov : Provider)
    (mc : MarketConditions) (p : UserProfile) (amount : Q) :
  exists res,
    generateAdvancedPortfolioWith h (getETFData prov) mc p amount = Some res /\
    obj_keys (portfolio res)
    = map fst (Spec.basket (globalOutlook mc) (incomeNeeds p)) ++ [SA_BOND] /\
    NoDup (obj_keys (portfolio res)) /\
    Forall (fun kv =>
              exists d, obj_get (fst kv) (getETFData prov) = Some d /\
                        price (snd kv) = DataService.price d /\
                        change (snd kv) = DataService.change d /\
                        volume (snd kv) = DataService.volume d /\
                        threeMonthReturn (snd kv) = DataService.threeMonthReturn d)
           (portfolio res).
Proof. apply plan_shape. Qed.

(** ** Plans for investors who need income *)

Lemma income_split (mc : MarketConditions) (p : UserProfile) :
  incomeNeeds p = true ->
  bondAllocation mc p = Math_min 0.4 (1 - equityAllocation p + 0.1) /\
  adjustedEquityAllocation mc p = 1 - Math_min 0.4 (1 - equityAllocation p + 0.1).
Proof.
  intros Hi. unfold bondAllocation, adjustedEquityAllocation, split. rewrite Hi.
  split; reflexivity.
Qed.

(** X8.  With an income need the plan depends on the age and on the
    outlook alone: two income investors of the same age get the same
    weights under the same outlook, whatever their risk scores and whatever
    the volatility, and the bond instrument weighs between 0.2 and 0.4 to
    within the tolerance 1e-9 of the specification (in binary64 the weight
    of an investor of 20 or less comes out one unit in the last place below
    0.2, see [Binary64Facts.extremes_round_below]). *)
Theorem income_plan_depends_on_age_alone (h : Host) (prov : Provider)
    (mc mc' : MarketConditions) (p p' : UserProfile) (amount amount' : Q) :
  incomeNeeds p = true -> incomeNeeds p' = true ->
  age p == age p' ->
  globalOutlook mc = globalOutlook mc' ->
  exists res res',
    generateAdvancedPortfolioWith h (getETFData prov) mc p amount = Some res /\
    generateAdvancedPortfolioWith h (getETFData prov) mc' p' amount' = Some res' /\
    Spec.sameWeights (weights (portfolio res)) (weights (portfolio res')) /\
    0.2 - Spec.tolerance <= weightOf SA_BOND (portfolio res) <= 0.4 + Spec.tolerance.
Proof.
  intros Hi Hi' Hage Hout.
  pose proof (getETFData_is_covering prov) as Hc.
  destruct (generate_returns h _ mc p amount Hc) as (raw & res & Hraw & Hres & _ & Hw).
  destruct (generate_returns h _ mc' p' amount' Hc)
    as (raw' & res' & Hraw' & Hres' & _ & Hw').
  destruct (rawPortfolio_weights _ mc p Hc) as (r1 & Hr1 & Hw1).
  rewrite Hraw in Hr1. injection Hr1 as <-.
  destruct (rawPortfolio_weights _ mc' p' Hc) as (r2 & Hr2 & Hw2).
  rewrite Hraw' in Hr2. injection Hr2 as <-.
  pose proof (raw_total _ mc p raw Hc Hraw) as Ht.
  pose proof (raw_total _ mc' p' raw' Hc Hraw') as Ht'.
  destruct (income_split mc p Hi) as [Hb Ha].
  destruct (income_split mc' p' Hi') as [Hb' Ha'].
  pose proof (equityAllocation_bounds p) as He.
  pose proof (equityAllocation_bounds p') as He'.
  pose proof (equityAllocation_same_age p p' Hage) as Hee.
  rewrite Ha, Hb in *. rewrite Ha', Hb' in *.
  set (b := Math_min 0.4 (1 - equityAllocation p + 0.1)) in *.
  set (b' := Math_min 0.4 (1 - equityAllocation p' + 0.1)) in *.
  assert (Hbb : b == b') by (subst b b'; qcases; lra).
  assert (Hbr : 0.2 <= b <= 0.4) by (subst b; qcases; lra).
  assert (Ht1 : totalAllocation raw == 1) by (rewrite Ht; ring).
  assert (Ht1' : totalAllocation raw' == 1) by (rewrite Ht'; ring).
  exists res, res'. split; [exact Hres|]. split; [exact Hres'|]. split.
  - rewrite Hw, Hw', Hw1, Hw2, <- Hout, Hi, Hi'.
    unfold Spec.sameWeights.
    destruct (globalOutlook mc); cbn [map app Spec.basket fst snd];
      repeat (apply Forall2_cons; [split; [reflexivity|]|]); try apply Forall2_nil;
      cbn [fst snd]; rewrite Ht1, Ht1', Hbb; reflexivity.
  - rewrite weightOf_weights, Hw, Hw1, Hi.
    destruct (globalOutlook mc); cbn; rewrite Ht1;
      (setoid_replace (b / 1) with b by (field)); unfold Spec.tolerance; lra.
Qed.

Lemma income_plan_depends_on_age_alone_witness :
  exists res res',
    generateAdvancedPortfolioWith Sample.host (getETFData (Sample.market 1 10))
      (getMarketConditions Sample.host (Sample.market 1 10))
      (Sample.investor 30 3 10 true) 1000 = Some res /\
    generateAdvancedPortfolioWith Sample.host (getETFData (Sample.market 1 10))
      (getMarketConditions Sample.host (Sample.market 2 30))
      (Sample.investor 30 8 5 true) 500 = Some res' /\
    Spec.sameWeights (weights (portfolio res)) (weights (portfolio res')).
Proof.
  destruct (income_plan_depends_on_age_alone Sample.host (Sample.market 1 10)
              (getMarketConditions Sample.host (Sample.market 1 10))
              (getMarketConditions Sample.host (Sample.market 2 30))
              (Sample.investor 30 3 10 true) (Sample.investor 30 8 5 true)
              1000 500 eq_refl eq_refl (Qeq_refl 30) eq_refl)
    as (res & res' & H1 & H2 & H3 & _).
  exists res, res'. split; [exact H1 | split; [exact H2 | exact H3]].
Defined.

(** ** Risk score and equity *)



(** ** Plans during an outage *)

Lemma obj_get_bare (l : obj string) (name : string) (d : EtfInfo) :
  obj_get name (map (fun e => (fst e, bare (fst e))) l) = Some d -> d = bare name.
Proof.
  induction l as [|[k v] l IH]; cbn; [discriminate|].
  destruct (String.eqb name k) eqn:E.
  - apply String.eqb_eq in E. subst. intros H. now injection H as <-.
  - exact IH.
Qed.

Lemma prefix_append (s t : string) : String.prefix s (s ++ t) = true.
Proof.
  induction s as [|c s IH]; cbn; [destruct t; reflexivity|].
  destruct (ascii_dec c c) as [_|Hn]; [exact IH | now elim Hn].
Qed.

(** X20.  When the quote of the index or of the volatility index fails,
    every investor still gets a plan, and it is the plan of a positive
    outlook without volatility cut: the global basket for the income need,
    then the bond instrument, with an empty factor list.  The description
    is "Market data unavailable", followed by a blank line and the
    projection sentence for the investor whose projection guard passes; so
    it starts with that text for every investor and is that text alone when
    there is no projection, as for every request of the page.  When every
    quote fails, no instrument of the plan carries a price, a change, a
    volume or a return. *)
Theorem outage_plan (h : Host) (prov : Provider) (p : UserProfile) (amount : Q) :
  quote prov "^GSPC" = None \/ quote prov "^VIX" = None ->
  exists res,
    generateAdvancedPortfolio h prov p amount = Some res /\
    obj_keys (portfolio res)
    = map fst (Spec.basket positive (incomeNeeds p)) ++ [SA_BOND] /\
    an_factors (marketAnalysis res) = [] /\
    an_description (marketAnalysis res)
    = ("Market data unavailable"
       ++ match monthlyProjection h p with
          | Some projection => nl ++ nl ++ projection
          | None => ""
          end)%string /\
    String.prefix "Market data unavailable" (an_description (marketAnalysis res))
    = true /\
    (projectionGuard p = None ->
     an_description (marketAnalysis res) = "Market data unavailable"%string) /\
    ((forall symbol, quote prov symbol = None) ->
     Forall (fun kv => price (snd kv) = None /\ change (snd kv) = None /\
                       volume (snd kv) = None /\ threeMonthReturn (snd kv) = None)
            (portfolio res)).
Proof.
  intros Hout. unfold generateAdvancedPortfolio.
  rewrite (getMarketConditions_outage h prov Hout).
  destruct (plan_shape h prov unavailable p amount) as (res & Hres & Hk & _ & Hecho).
  exists res. split; [exact Hres|]. split; [exact Hk|].
  unfold generateAdvancedPortfolioWith in Hres.
  destruct (rawPortfolio (getETFData prov) unavailable p) as [raw|]; [|discriminate].
  injection Hres as <-. cbn [marketAnalysis an_factors an_description portfolio] in *.
  split; [reflexivity|]. split; [reflexivity|]. split; [|split].
  - unfold narrative. apply prefix_append.
  - intros Hg. unfold narrative, monthlyProjection. rewrite Hg. reflexivity.
  - intros Hall. rewrite (getETFData_outage prov Hall) in Hecho.
    eapply Forall_impl; [|exact Hecho]. intros kv (d & Hd & H1 & H2 & H3 & H4).
    apply obj_get_bare in Hd. subst d. rewrite H1, H2, H3, H4. repeat split.
Qed.

(** X20 on a monthly saver during an outage: the plan is there and its
    description starts with the outage text. *)
Lemma outage_plan_witness :
  exists res,
    generateAdvancedPortfolio Sample.host Sample.outage
      (Sample.saver 1000 5) 10000 = Some res /\
    obj_keys (portfolio res)
    = map fst (Spec.basket positive (incomeNeeds (Sample.saver 1000 5))) ++ [SA_BOND] /\
    String.prefix "Market data unavailable" (an_description (marketAnalysis res))
    = true.
Proof.
  destruct (outage_plan Sample.host Sample.outage (Sample.saver 1000 5)
              10000 (or_introl eq_refl)) as (res & H1 & H2 & _ & _ & H5 & _).
  exists res. split; [exact H1 | split; [exact H2 | exact H5]].
Defined.

(** ** The projection against what is paid in *)




End EngineMore.

(* ================================================================== *)
(** * More about the validators and the intake dialogue *)
(* ================================================================== *)

Module PageMore.
Import JS.
Import Page.
Import Chat.
Import JSFacts.
Import PageFacts.
Local Open Scope list_scope.

(** ** What the validators read *)

Lemma keep_app (f : ascii -> bool) (s1 s2 : string) :
  keep f (s1 ++ s2)%string = (keep f s1 ++ keep f s2)%string.
Proof.
  induction s1 as [|c s1 IH]; cbn; [reflexivity|].
  destruct (f c); cbn; now rewrite IH.
Qed.

Lemma toLowerCase_app (s1 s2 : string) :
  toLowerCase (s1 ++ s2)%string = (toLowerCase s1 ++ toLowerCase s2)%string.
Proof. induction s1 as [|c s1 IH]; cbn; [reflexivity | now rewrite IH]. Qed.

Lemma is_digit_lower (c : ascii) : is_digit (lower_ascii c) = is_digit c.
Proof. destruct c as [[] [] [] [] [] [] [] []]; reflexivity. Qed.

Lemma lower_ascii_idempotent (c : ascii) : lower_ascii (lower_ascii c) = lower_ascii c.
Proof. destruct c as [[] [] [] [] [] [] [] []]; reflexivity. Qed.

Lemma toLowerCase_idempotent (s : string) : toLowerCase (toLowerCase s) = toLowerCase s.
Proof.
  induction s as [|c s IH]; cbn; [reflexivity|].
  now rewrite lower_ascii_idempotent, IH.
Qed.

(** X10.  The amount validator reads digits and dots only: a character
    that is neither, put anywhere in the answer (a currency sign, a
    thousands separator, a space, a minus sign), does not change the
    result, and the result, when there is one, is positive. *)
Theorem amount_ignores_formatting (s1 s2 : string) (c : ascii) :
  is_digit c = false -> is_dot c = false ->
  validateAmount (s1 ++ String c s2)%string = validateAmount (s1 ++ s2)%string /\
  (forall a, validateAmount (s1 ++ s2)%string = Some a -> 0 < a).
Proof.
  intros Hd Hp. split.
  - unfold validateAmount. rewrite !keep_app. cbn [keep]. rewrite Hd, Hp. reflexivity.
  - intros a Ha. pose proof (validateAmount_truthy _ _ Ha) as Ht.
    unfold validateAmount in Ha.
    destruct (parseFloat _) as [x|]; [|discriminate].
    destruct (gt x 0) eqn:E; [|discriminate].
    injection Ha as <-. now apply gt_true.
Qed.

Lemma amount_ignores_formatting_witness :
  validateAmount ("R10" ++ String "," "000")%string
  = validateAmount ("R10" ++ "000")%string.
Proof.
  exact (proj1 (amount_ignores_formatting "R10" "000" "," eq_refl eq_refl)).
Defined.

(** X11.  The horizon validator reads digits only: any other character
    put anywhere in the answer does not change the result.  A decimal point
    or a minus sign is such a character, so the answer 1.5 is read as 15
    years and the answer -5 as 5 years.  A result lies between 1 and 50. *)
Theorem horizon_reads_digits_only (s1 s2 : string) (c : ascii) :
  is_digit c = false ->
  validateTimeHorizon (s1 ++ String c s2)%string
  = validateTimeHorizon (s1 ++ s2)%string /\
  validateTimeHorizon "1.5" = Some 15%Z /\
  validateTimeHorizon "-5" = Some 5%Z /\
  (forall y, validateTimeHorizon (s1 ++ s2)%string = Some y -> (1 <= y <= 50)%Z).
Proof.
  intros Hd. split; [|split; [reflexivity|split; [reflexivity|]]].
  - unfold validateTimeHorizon. rewrite !toLowerCase_app. cbn [toLowerCase].
    rewrite !keep_app. cbn [keep]. rewrite is_digit_lower, Hd. reflexivity.
  - intros y. apply validateTimeHorizon_range.
Qed.

Lemma horizon_reads_digits_only_witness :
  validateTimeHorizon ("5" ++ String " " "years")%string
  = validateTimeHorizon ("5" ++ "years")%string.
Proof.
  exact (proj1 (horizon_reads_digits_only "5" "years" " " eq_refl)).
Defined.

Lemma validateRiskTolerance_tier (s r : string) :
  validateRiskTolerance s = Some r ->
  r = toLowerCase s /\ (r = "low" \/ r = "medium" \/ r = "high")%string.
Proof.
  unfold validateRiskTolerance. destruct (existsb _ _) eqn:E; [|discriminate].
  intros H. injection H as <-. split; [reflexivity|].
  apply existsb_exists in E. destruct E as (x & Hin & Hx).
  apply String.eqb_eq in Hx. rewrite Hx. cbn in Hin.
  destruct Hin as [<- | [<- | [<- | []]]]; auto.
Qed.

(** ** The values a profile holds *)

Lemma validValues_empty : validValues emptyProfile.
Proof. unfold validValues. cbn. repeat split; intros; discriminate. Qed.

Ltac fields :=
  cbn [profileAfter reply recommend setInvestmentGoal setTimeHorizon
       setRiskTolerance setIncomeNeeds setInvestmentAmount setInvestmentType
       setMonthlyAmount investmentGoal timeHorizon riskTolerance incomeNeeds
       investmentAmount investmentType monthlyAmount] in *.

Lemma validateAmount_positive (s : string) (a : Q) :
  validateAmount s = Some a -> 0 < a.
Proof.
  unfold validateAmount. destruct (parseFloat _) as [x|]; [|discriminate].
  destruct (gt x 0) eqn:E; [|discriminate].
  intros H. injection H as <-. now apply gt_true.
Qed.

Ltac six := refine (conj _ (conj _ (conj _ (conj _ (conj _ _))))); try assumption.

Lemma validValues_turn (w : World) (p : UserProfile) (userInput : string) :
  validValues p -> validValues (profileAfter (generateBotResponse w p userInput)).
Proof.
  intros Hv. pose proof Hv as (H1 & H2 & H3 & H4 & H5 & H6).
  unfold generateBotResponse. chain p; try exact Hv.
  - destruct (validateAmount userInput) as [a|] eqn:Ev; [|exact Hv].
    rewrite (validateAmount_truthy _ _ Ev). unfold validValues. fields. six.
    intros x Hx. injection Hx as <-. now apply (validateAmount_positive userInput).
  - destruct (readType userInput) as [[|]|]; try exact Hv;
      unfold validValues; fields; six.
  - destruct (validateAmount userInput) as [a|] eqn:Ev; [|exact Hv].
    rewrite (validateAmount_truthy _ _ Ev). unfold validValues. fields. six.
    intros x Hx. injection Hx as <-. now apply (validateAmount_positive userInput).
  - destruct (_ || _) eqn:Ev; [|exact Hv]. unfold validValues. fields. six.
    intros x Hx. injection Hx as <-.
    apply orb_true_iff in Ev. destruct Ev as [Ev | Ev]; apply String.eqb_eq in Ev; auto.
  - destruct (validateRiskTolerance userInput) as [r|] eqn:Ev; [|exact Hv].
    rewrite (validateRiskTolerance_truthy _ _ Ev). unfold validValues. fields. six.
    intros x Hx. injection Hx as <-. apply (validateRiskTolerance_tier _ _ Ev).
  - destruct (validateTimeHorizon userInput) as [y|] eqn:Ev; [|exact Hv].
    rewrite (validateTimeHorizon_truthy _ _ Ev). cbn [negb]. unfold validValues.
    fields. six.
    intros x Hx. injection Hx as <-. apply (validateTimeHorizon_range _ _ Ev).
  - destruct (validateAmount userInput) as [a|] eqn:Ev; [|exact Hv].
    rewrite (validateAmount_truthy _ _ Ev). unfold validValues. fields. six.
    intros x Hx. injection Hx as <-. now rewrite Ev.
Qed.

Lemma reachable_validValues (w : World) (p : UserProfile) :
  reachableProfile w p -> validValues p.
Proof.
  induction 1 as [|p userInput _ IH].
  - apply validValues_empty.
  - now apply validValues_turn.
Qed.

(** X12.  Every value a profile of the dialogue holds has passed its
    validator: the goal is a text the amount validator accepts, the horizon
    lies between 1 and 50, the risk tolerance is low, medium or high, the
    income need is yes or no, and the amounts are positive. *)
Theorem stored_values_are_valid (w : World) (p : UserProfile) :
  reachableProfile w p -> validValues p.
Proof. apply reachable_validValues. Qed.

Lemma stored_values_are_valid_witness :
  reachableProfile (Sample.world 1 10)
    (profileAfter (generateBotResponse (Sample.world 1 10) emptyProfile "R10,000")) /\
  validValues
    (profileAfter (generateBotResponse (Sample.world 1 10) emptyProfile "R10,000")).
Proof.
  assert (Hr : reachableProfile (Sample.world 1 10)
                 (profileAfter (generateBotResponse (Sample.world 1 10)
                                  emptyProfile "R10,000")))
    by (apply reach_turn, reach_empty).
  split; [exact Hr|].
  exact (stored_values_are_valid (Sample.world 1 10) _ Hr).
Defined.

(** ** The request sent for a completed profile *)

Lemma pending_none_fields (p : UserProfile) :
  pending p = None ->
  truthy_ostr (investmentGoal p) = true /\
  truthy_oint (timeHorizon p) = true /\
  truthy_ostr (riskTolerance p) = true /\
  truthy_ostr (incomeNeeds p) = true /\
  truthy_oamount (investmentAmount p) = true /\
  truthy_otype (investmentType p) = true /\
  (isMonthly (investmentType p) = true -> truthy_oamount (monthlyAmount p) = true).
Proof.
  unfold pending. chain p; intros Hp; try discriminate; repeat split; auto;
    intros; discriminate.
Qed.

(** X13.  For a completed profile of the dialogue the profile of the
    request to the generator carries what the investor answered: age 30,
    the horizon given (between 1 and 50, never the fallback), risk score 3
    for low, 5 for medium and 8 for high, the income flag of the yes or no
    answer and the investment type; it never carries the monthly amount.
    Nothing is said of the [amount] sent beside the profile: the host
    rounds it to binary64, and an amount text too long for binary64 is sent
    as [null]. *)
Theorem request_reflects_profile (w : World) (p : UserProfile) :
  reachableProfile w p -> pending p = None ->
  exists y r a,
    timeHorizon p = Some y /\ riskTolerance p = Some r /\
    incomeNeeds p = Some a /\
    Engine.age (requestProfile p) = 30 /\
    Engine.investmentHorizon (requestProfile p) = y /\ (1 <= y <= 50)%Z /\
    ((r = "low"%string /\ Engine.riskScore (requestProfile p) = 3) \/
     (r = "medium"%string /\ Engine.riskScore (requestProfile p) = 5) \/
     (r = "high"%string /\ Engine.riskScore (requestProfile p) = 8)) /\
    ((a = "yes"%string /\ Engine.incomeNeeds (requestProfile p) = true) \/
     (a = "no"%string /\ Engine.incomeNeeds (requestProfile p) = false)) /\
    Engine.investmentType (requestProfile p) = investmentType p /\
    Engine.monthlyAmount (requestProfile p) = None.
Proof.
  intros Hreach Hp.
  pose proof (reachable_validValues w p Hreach) as (V1 & V2 & V3 & V4 & V5 & V6).
  destruct (pending_none_fields p Hp) as (F1 & F2 & F3 & F4 & F5 & F6 & F7).
  destruct (timeHorizon p) as [y|] eqn:Ey; [|discriminate].
  destruct (riskTolerance p) as [r|] eqn:Er; [|discriminate].
  destruct (incomeNeeds p) as [a|] eqn:Ea; [|discriminate].
  exists y, r, a. unfold requestProfile. rewrite Ey, Er, Ea, F2. cbn.
  repeat (split; [first [reflexivity | assumption | now apply V2]|]).
  split; [|split; [|split; reflexivity]].
  - destruct (V3 r eq_refl) as [-> | [-> | ->]]; cbn; auto.
  - destruct (V4 a eq_refl) as [-> | ->]; cbn; auto.
Qed.

Lemma request_reflects_profile_witness :
  reachableProfile (Sample.world 1 10)
    (snd (converse (Sample.world 1 10) emptyProfile
            ["10000"; "5 years"; "medium"; "no"; "10000"; "once-off"])) /\
  Engine.investmentHorizon
    (requestProfile
       (snd (converse (Sample.world 1 10) emptyProfile
               ["10000"; "5 years"; "medium"; "no"; "10000"; "once-off"]))) = 5%Z.
Proof.
  assert (Hr : reachableProfile (Sample.world 1 10)
                 (snd (converse (Sample.world 1 10) emptyProfile
                         ["10000"; "5 years"; "medium"; "no"; "10000"; "once-off"]))).
  { repeat (apply (reach_turn (Sample.world 1 10)) || apply reach_empty). }
  split; [exact Hr|].
  destruct (request_reflects_profile (Sample.world 1 10) _ Hr eq_refl)
    as (y & r & a & Hy & _ & _ & _ & Hh & _).
  rewrite Hh. vm_compute in Hy. injection Hy as <-. reflexivity.
Defined.

(** ** After the intake is over *)

Lemma done_turn (w : World) (p : UserProfile) (userInput : string) :
  pending p = None ->
  generateBotResponse w p userInput = reply p ALREADY_DONE.
Proof.
  unfold pending, generateBotResponse. chain p; intros Hp; try discriminate; reflexivity.
Qed.

Lemma closed_converse (w : World) (p : UserProfile) (inputs : list string) :
  pending p = None ->
  snd (converse w p inputs) = p /\
  Forall (fun t => t = {| profileAfter := p; botResponse := ALREADY_DONE;
                          isFinal := false |})
         (fst (converse w p inputs)).
Proof.
  intros Hp. induction inputs as [|userInput inputs IH]; cbn [converse].
  - split; [reflexivity | constructor].
  - rewrite (done_turn w p userInput Hp). cbn [profileAfter reply].
    destruct (converse w p inputs) as [ts q]. cbn [fst snd] in *.
    destruct IH as [IH1 IH2]. split; [exact IH1|].
    constructor; [reflexivity | exact IH2].
Qed.

(** X14.  Once no field is pending, the dialogue is closed: whatever is
    said afterwards, every reply is the fixed already-provided message, no
    turn is final, no portfolio is generated again and the profile stays as
    it is. *)
Theorem completed_intake_is_closed (w : World) (p : UserProfile)
    (inputs : list string) :
  pending p = None ->
  snd (converse w p inputs) = p /\
  Forall (fun t => t = {| profileAfter := p; botResponse := ALREADY_DONE;
                          isFinal := false |})
         (fst (converse w p inputs)).
Proof. apply closed_converse. Qed.

Lemma completed_intake_is_closed_witness :
  snd (converse (Sample.world 1 10)
         (snd (converse (Sample.world 1 10) emptyProfile
                 ["10000"; "5 years"; "medium"; "no"; "10000"; "once-off"]))
         ["again"; "10000"])
  = snd (converse (Sample.world 1 10) emptyProfile
           ["10000"; "5 years"; "medium"; "no"; "10000"; "once-off"]).
Proof.
  exact (proj1 (completed_intake_is_closed (Sample.world 1 10)
                  (snd (converse (Sample.world 1 10) emptyProfile
                          ["10000"; "5 years"; "medium"; "no"; "10000"; "once-off"]))
                  ["again"; "10000"] eq_refl)).
Defined.

(** ** A valid answer moves the dialogue on *)

Lemma valid_turn (w : World) (p : UserProfile) (f : Field) (userInput : string) :
  ordered p -> pending p = Some f -> accepts f userInput = true ->
  isSet f (profileAfter (generateBotResponse w p userInput)) = true /\
  pending (profileAfter (generateBotResponse w p userInput))
  = following f (profileAfter (generateBotResponse w p userInput)) /\
  isFinal (generateBotResponse w p userInput)
  = negb (notNull (following f (profileAfter (generateBotResponse w p userInput)))) /\
  (forall g, following f (profileAfter (generateBotResponse w p userInput)) = Some g ->
             botResponse (generateBotResponse w p userInput) = ask g).
Proof.
  intros (O1 & O2 & O3 & O4 & O5 & O6). cbn [isSet] in *.
  assert (N1 : truthy_ostr (investmentGoal p) = false -> truthy_oint (timeHorizon p) = false)
    by (destruct (truthy_oint (timeHorizon p)); intuition congruence).
  assert (N2 : truthy_oint (timeHorizon p) = false -> truthy_ostr (riskTolerance p) = false)
    by (destruct (truthy_ostr (riskTolerance p)); intuition congruence).
  assert (N3 : truthy_ostr (riskTolerance p) = false -> truthy_ostr (incomeNeeds p) = false)
    by (destruct (truthy_ostr (incomeNeeds p)); intuition congruence).
  assert (N4 : truthy_ostr (incomeNeeds p) = false
               -> truthy_oamount (investmentAmount p) = false)
    by (destruct (truthy_oamount (investmentAmount p)); intuition congruence).
  assert (N5 : truthy_oamount (investmentAmount p) = false
               -> truthy_otype (investmentType p) = false)
    by (destruct (truthy_otype (investmentType p)); intuition congruence).
  assert (N6 : truthy_otype (investmentType p) = false
               -> truthy_oamount (monthlyAmount p) = false).
  { intros Ht. destruct (truthy_oamount (monthlyAmount p)); [|reflexivity].
    specialize (O6 eq_refl). destruct (investmentType p); discriminate. }
  clear O1 O2 O3 O4 O5 O6.
  unfold pending at 1. unfold generateBotResponse. chain p; intros Hp Ha;
    try discriminate; injection Hp as <-; cbn [accepts notNull] in Ha.
  - (* the monthly amount *)
    destruct (validateAmount userInput) as [a|] eqn:Ev; [|discriminate].
    rewrite (validateAmount_truthy _ _ Ev). unfold pending. fields. cbn [isSet following].
    fields. rewrite Egoal, Ehorizon, Erisk, Eincome, Eamount, Etype, Emonthly.
    cbn. repeat split. intros g Hg. discriminate.
  - (* the investment type *)
    pose proof (N6 eq_refl) as Em. unfold readType in *.
    destruct (String.eqb (toLowerCase userInput) "once-off") eqn:E1.
    + unfold pending. fields. cbn [isSet following]. fields.
      rewrite Egoal, Ehorizon, Erisk, Eincome, Eamount. cbn.
      repeat split. intros g Hg. discriminate.
    + cbn [orb] in Ha. rewrite Ha. unfold pending. fields. cbn [isSet following]. fields.
      rewrite Egoal, Ehorizon, Erisk, Eincome, Eamount, Em. cbn.
      repeat split. intros g Hg. injection Hg as <-. reflexivity.
  - (* the investment amount *)
    pose proof (N5 eq_refl) as E5.
    destruct (validateAmount userInput) as [a|] eqn:Ev; [|discriminate].
    rewrite (validateAmount_truthy _ _ Ev). unfold pending. fields. cbn [isSet following].
    fields. rewrite Egoal, Ehorizon, Erisk, Eincome, E5. cbn.
    repeat split. intros g Hg. injection Hg as <-. reflexivity.
  - (* the income need *)
    pose proof (N4 eq_refl) as E4.
    rewrite Ha. unfold pending. fields. cbn [isSet following]. fields.
    assert (Hs : truthy_ostr (Some (toLowerCase userInput)) = true).
    { apply orb_true_iff in Ha.
      destruct Ha as [Ha | Ha]; apply String.eqb_eq in Ha; rewrite Ha; reflexivity. }
    rewrite Egoal, Ehorizon, Erisk, Hs, E4. cbn.
    repeat split. intros g Hg. injection Hg as <-. reflexivity.
  - (* the risk tolerance *)
    pose proof (N3 eq_refl) as E3.
    destruct (validateRiskTolerance userInput) as [r|] eqn:Ev; [|discriminate].
    pose proof (validateRiskTolerance_truthy _ _ Ev) as Hs.
    rewrite Hs. unfold pending. fields. cbn [isSet following]. fields.
    cbn [truthy_ostr]. rewrite Egoal, Ehorizon, Hs, E3. cbn.
    repeat split. intros g Hg. injection Hg as <-. reflexivity.
  - (* the time horizon *)
    pose proof (N2 eq_refl) as E2.
    destruct (validateTimeHorizon userInput) as [y|] eqn:Ev; [|discriminate].
    pose proof (validateTimeHorizon_truthy _ _ Ev) as Hs.
    rewrite Hs. cbn [negb]. unfold pending. fields. cbn [isSet following]. fields.
    cbn [truthy_oint]. rewrite Egoal, Hs, E2. cbn.
    repeat split. intros g Hg. injection Hg as <-. reflexivity.
  - (* the investment goal *)
    pose proof (N1 eq_refl) as E1.
    destruct (validateAmount userInput) as [a|] eqn:Ev; [|discriminate].
    pose proof (validateAmount_nonempty _ _ Ev) as Hs.
    rewrite (validateAmount_truthy _ _ Ev). unfold pending. fields. cbn [isSet following].
    fields. cbn [truthy_ostr]. rewrite Hs, E1. cbn.
    repeat split. intros g Hg. injection Hg as <-. reflexivity.
Qed.

(** X15.  In the dialogue, an answer that the pending field's validator
    accepts sets that field and moves the dialogue to the field that
    follows it in the canonical order: the reply asks for that field, and the
    turn is final exactly when no field follows. *)
Theorem valid_answer_advances (w : World) (p : UserProfile) (f : Field)
    (userInput : string) :
  reachableProfile w p -> pending p = Some f -> accepts f userInput = true ->
  isSet f (profileAfter (generateBotResponse w p userInput)) = true /\
  pending (profileAfter (generateBotResponse w p userInput))
  = following f (profileAfter (generateBotResponse w p userInput)) /\
  isFinal (generateBotResponse w p userInput)
  = negb (notNull (following f (profileAfter (generateBotResponse w p userInput)))) /\
  (forall g, following f (profileAfter (generateBotResponse w p userInput)) = Some g ->
             botResponse (generateBotResponse w p userInput) = ask g).
Proof.
  intros Hreach. apply valid_turn. now apply (reachable_ordered w).
Qed.

Lemma valid_answer_advances_witness :
  reachableProfile (Sample.world 1 10) emptyProfile /\
  pending emptyProfile = Some FGoal /\
  accepts FGoal "R10,000" = true /\
  botResponse (generateBotResponse (Sample.world 1 10) emptyProfile "R10,000")
  = ask FHorizon.
Proof.
  split; [apply reach_empty|]. split; [reflexivity|]. split; [reflexivity|].
  exact (proj2 (proj2 (proj2
    (valid_answer_advances (Sample.world 1 10) emptyProfile FGoal "R10,000"
       (reach_empty _) eq_refl eq_refl))) FHorizon eq_refl).
Defined.

(** ** Final turns *)

Lemma rejected_turn (w : World) (p : UserProfile) (f : Field) (userInput : string) :
  pending p = Some f -> accepts f userInput = false ->
  generateBotResponse w p userInput = reply p (reprompt f).
Proof.
  unfold pending, generateBotResponse. chain p; intros Hp Ha;
    try discriminate; injection Hp as <-; cbn [accepts reprompt notNull] in Ha |- *.
  - destruct (validateAmount userInput); [discriminate | reflexivity].
  - unfold readType. apply orb_false_iff in Ha. destruct Ha as [-> ->]. reflexivity.
  - destruct (validateAmount userInput); [discriminate | reflexivity].
  - rewrite Ha. reflexivity.
  - destruct (validateRiskTolerance userInput); [discriminate | reflexivity].
  - destruct (validateTimeHorizon userInput); [discriminate | reflexivity].
  - destruct (validateAmount userInput); [discriminate | reflexivity].
Qed.

(** A final turn starts from a profile with the first five fields set and
    leaves no field pending. *)
Lemma final_turn (w : World) (p : UserProfile) (userInput : string) :
  isFinal (generateBotResponse w p userInput) = true ->
  filled p = 5%nat /\
  (exists f, pending p = Some f) /\
  pending (profileAfter (generateBotResponse w p userInput)) = None.
Proof.
  unfold filled, pending at 1. unfold generateBotResponse. cbn [filter isSet].
  chain p; cbn [isFinal reply]; try discriminate.
  - destruct (validateAmount userInput) as [a|] eqn:Ev; [|discriminate].
    rewrite (validateAmount_truthy _ _ Ev). intros _.
    split; [reflexivity|]. split; [eauto|].
    unfold pending. fields. rewrite Egoal, Ehorizon, Erisk, Eincome, Eamount, Etype, Emonthly.
    reflexivity.
  - destruct (readType userInput) as [[|]|]; cbn [isFinal reply recommend]; try discriminate.
    intros _. split; [reflexivity|]. split; [eauto|].
    unfold pending. fields. rewrite Egoal, Ehorizon, Erisk, Eincome, Eamount. reflexivity.
  - destruct (validateAmount userInput) as [a|]; [destruct (truthy_num a)|]; discriminate.
  - destruct (_ || _); discriminate.
  - destruct (validateRiskTolerance userInput) as [r|]; [destruct (truthy_str r)|];
      discriminate.
  - destruct (validateTimeHorizon userInput) as [y|]; [destruct (negb _)|]; discriminate.
  - destruct (validateAmount userInput) as [a|]; [destruct (truthy_num a)|]; discriminate.
Qed.

(** X16.  In the dialogue a turn is final exactly when it completes the
    profile: a field was pending before the turn and none is pending after
    it. *)
Theorem final_iff_completes (w : World) (p : UserProfile) (userInput : string) :
  reachableProfile w p ->
  (isFinal (generateBotResponse w p userInput) = true <->
   (exists f, pending p = Some f) /\
   pending (profileAfter (generateBotResponse w p userInput)) = None).
Proof.
  intros Hreach. split.
  - intros Hf. destruct (final_turn w p userInput Hf) as (_ & H1 & H2). auto.
  - intros [[f Hp] Hq].
    destruct (accepts f userInput) eqn:Ea.
    + destruct (valid_turn w p f userInput (reachable_ordered w p Hreach) Hp Ea)
        as (_ & H2 & H3 & _).
      rewrite H3, <- H2, Hq. reflexivity.
    + rewrite (rejected_turn w p f userInput Hp Ea) in Hq. cbn in Hq. congruence.
Qed.

(** X16 on the sixth answer of an intake: the turn is final, and it
    completes the profile. *)
Lemma final_iff_completes_witness :
  reachableProfile (Sample.world 1 10)
    (snd (converse (Sample.world 1 10) emptyProfile
            ["10000"; "5 years"; "medium"; "no"; "10000"])) /\
  isFinal (generateBotResponse (Sample.world 1 10)
             (snd (converse (Sample.world 1 10) emptyProfile
                     ["10000"; "5 years"; "medium"; "no"; "10000"]))
             "once-off") = true /\
  (exists f, pending (snd (converse (Sample.world 1 10) emptyProfile
                             ["10000"; "5 years"; "medium"; "no"; "10000"]))
             = Some f) /\
  pending (profileAfter
             (generateBotResponse (Sample.world 1 10)
                (snd (converse (Sample.world 1 10) emptyProfile
                        ["10000"; "5 years"; "medium"; "no"; "10000"]))
                "once-off")) = None.
Proof.
  assert (Hr : reachableProfile (Sample.world 1 10)
                 (snd (converse (Sample.world 1 10) emptyProfile
                         ["10000"; "5 years"; "medium"; "no"; "10000"]))).
  { repeat (apply (reach_turn (Sample.world 1 10)) || apply reach_empty). }
  split; [exact Hr|].
  assert (Hf : isFinal (generateBotResponse (Sample.world 1 10)
                          (snd (converse (Sample.world 1 10) emptyProfile
                                  ["10000"; "5 years"; "medium"; "no"; "10000"]))
                          "once-off") = true) by reflexivity.
  split; [exact Hf|].
  exact (proj1 (final_iff_completes (Sample.world 1 10) _ "once-off" Hr) Hf).
Defined.

Lemma filled_turn (w : World) (p : UserProfile) (userInput : string) :
  (filled (profileAfter (generateBotResponse w p userInput)) <= S (filled p))%nat.
Proof.
  destruct (turn_fills_pending_field w p userInput) as [Hq | (f & _ & Hset & Hrest)].
  - cbn zeta in Hq. rewrite Hq. lia.
  - cbn zeta in *. set (q := profileAfter (generateBotResponse w p userInput)) in *.
    unfold filled. cbn [filter].
    destruct f;
      repeat match goal with
      | |- context [isSet ?g q] =>
          first [ rewrite (Hrest g ltac:(discriminate)) | rewrite Hset ]
      end;
      destruct (isSet FGoal p), (isSet FHorizon p), (isSet FRisk p),
               (isSet FIncome p), (isSet FAmount p); cbn [length]; lia.
Qed.

Lemma final_index (w : World) (inputs : list string) :
  forall p i t,
    nth_error (fst (converse w p inputs)) i = Some t ->
    isFinal t = true -> (5 <= filled p + i)%nat.
Proof.
  induction inputs as [|userInput inputs IH]; intros p i t Hn Hf; cbn [converse] in Hn.
  - destruct i; discriminate.
  - destruct (converse w (profileAfter (generateBotResponse w p userInput)) inputs)
      as [ts q] eqn:E. cbn [fst] in Hn.
    destruct i as [|i]; cbn in Hn.
    + injection Hn as <-. destruct (final_turn w p userInput Hf) as (H5 & _). lia.
    + assert (Hn' : nth_error
                      (fst (converse w (profileAfter (generateBotResponse w p userInput))
                              inputs)) i = Some t) by (rewrite E; exact Hn).
      pose proof (IH _ _ _ Hn' Hf) as H.
      pose proof (filled_turn w p userInput). lia.
Qed.

Lemma one_final (w : World) (inputs : list string) :
  forall p i j ti tj,
    (i < j)%nat ->
    nth_error (fst (converse w p inputs)) i = Some ti ->
    nth_error (fst (converse w p inputs)) j = Some tj ->
    isFinal ti = true -> isFinal tj = false.
Proof.
  induction inputs as [|userInput inputs IH]; intros p i j ti tj Hij Hi Hj Hf;
    cbn [converse] in Hi, Hj.
  - destruct i; discriminate.
  - destruct (converse w (profileAfter (generateBotResponse w p userInput)) inputs)
      as [ts q] eqn:E. cbn [fst] in Hi, Hj.
    destruct j as [|j]; [lia|]. cbn in Hj.
    destruct i as [|i]; cbn in Hi.
    + injection Hi as <-. destruct (final_turn w p userInput Hf) as (_ & _ & Hdone).
      destruct (closed_converse w _ inputs Hdone) as [_ Hall].
      rewrite E in Hall. cbn [fst] in Hall. rewrite Forall_forall in Hall.
      apply nth_error_In in Hj. rewrite (Hall _ Hj). reflexivity.
    + apply (IH (profileAfter (generateBotResponse w p userInput)) i j ti tj);
        try lia; try assumption; rewrite E; assumption.
Qed.

(** X17.  A dialogue that starts from the empty profile has no final turn
    among its first five turns, whatever is answered, and it has at most
    one final turn. *)
Theorem intake_needs_six_answers (w : World) (inputs : list string)
    (i : nat) (t : Turn) :
  nth_error (fst (converse w emptyProfile inputs)) i = Some t ->
  isFinal t = true ->
  (5 <= i)%nat /\
  (forall j tj, nth_error (fst (converse w emptyProfile inputs)) j = Some tj ->
                isFinal tj = true -> j = i).
Proof.
  intros Hn Hf. split.
  - pose proof (final_index w inputs emptyProfile i t Hn Hf) as H. cbn in H. lia.
  - intros j tj Hj Hfj.
    destruct (Nat.lt_trichotomy i j) as [Hlt | [Heq | Hgt]]; [|auto|].
    + pose proof (one_final w inputs emptyProfile i j t tj Hlt Hn Hj Hf). congruence.
    + pose proof (one_final w inputs emptyProfile j i tj t Hgt Hj Hn Hfj). congruence.
Qed.

Lemma intake_needs_six_answers_witness :
  exists t,
    nth_error (fst (converse (Sample.world 1 10) emptyProfile
                      ["10000"; "5 years"; "medium"; "no"; "10000"; "once-off"]))
              5 = Some t /\
    isFinal t = true /\ (5 <= 5)%nat.
Proof.
  eexists. split; [reflexivity|]. split; [reflexivity|].
  exact (proj1 (intake_needs_six_answers (Sample.world 1 10)
                  ["10000"; "5 years"; "medium"; "no"; "10000"; "once-off"]
                  5 _ eq_refl eq_refl)).
Defined.

End PageMore.

(* ================================================================== *)
(** * The chat, the basic generator, the projection and outages *)
(* ================================================================== *)

Module ChatFacts.
Import JS.
Import Page.
Import Chat.
Import PageFacts.
Local Open Scope list_scope.

Lemma dropWhiteSpace_blank (c : ascii) (s : string) :
  In (nat_of_ascii c) [9; 10; 11; 12; 13; 32]%nat ->
  dropWhiteSpace whiteSpace (String c s) = Some s.
Proof.
  intros Hin. cbn in Hin.
  assert (Hc : c = ascii_of_nat (nat_of_ascii c)) by (now rewrite ascii_nat_embedding).
  destruct Hin as [H | [H | [H | [H | [H | [H | []]]]]]];
    rewrite <- H in Hc; rewrite Hc; reflexivity.
Qed.

Lemma trimStartFuel_blank (s : string) :
  forall fuel,
    Forall (fun c => In (nat_of_ascii c) [9; 10; 11; 12; 13; 32]%nat)
           (list_ascii_of_string s) ->
    (String.length s <= fuel)%nat ->
    trimStartFuel whiteSpace fuel s = EmptyString.
Proof.
  induction s as [|c s IH]; intros fuel Hall Hlen.
  - destruct fuel; reflexivity.
  - cbn in Hall, Hlen. inversion Hall as [|? ? Hc Hs]; subst.
    destruct fuel as [|fuel]; [lia|]. cbn [trimStartFuel].
    rewrite (dropWhiteSpace_blank c s Hc). apply IH; [exact Hs | lia].
Qed.

(** X18.  A text made of spaces, tabs and line breaks only sends nothing:
    the conversation, the profile and the input box stay as they are, and
    no turn of the dialogue is taken. *)
Theorem blank_text_sends_nothing (w : World) (st : State) (text : string) :
  Forall (fun c => In (nat_of_ascii c) [9; 10; 11; 12; 13; 32]%nat)
         (list_ascii_of_string text) ->
  trim text = EmptyString /\
  handleSend w (type st text) = type st text.
Proof.
  intros Hall.
  assert (Ht : trim text = EmptyString).
  { unfold trim, trimStart. rewrite (trimStartFuel_blank text _ Hall (le_n _)).
    reflexivity. }
  split; [exact Ht|].
  unfold handleSend. cbn [input type]. rewrite Ht. reflexivity.
Qed.

Lemma blank_text_sends_nothing_witness :
  handleSend (Sample.world 1 10) (type initialState "   ") = type initialState "   ".
Proof.
  refine (proj2 (blank_text_sends_nothing (Sample.world 1 10) initialState "   " _)).
  repeat constructor; cbn; tauto.
Defined.

Lemma converse_reachable (w : World) (inputs : list string) :
  forall p, reachableProfile w p -> reachableProfile w (snd (converse w p inputs)).
Proof.
  induction inputs as [|userInput inputs IH]; intros p Hp; cbn [converse].
  - exact Hp.
  - destruct (converse w (profileAfter (generateBotResponse w p userInput)) inputs)
      as [ts q] eqn:E. cbn [snd].
    change q with (snd (ts, q)). rewrite <- E. apply IH. now apply reach_turn.
Qed.

Lemma session_from (w : World) (texts : list string) :
  forall st,
    userProfile (fold_left (fun st text => handleSend w (type st text)) texts st)
    = snd (converse w (userProfile st) (sentTexts texts)) /\
    messages (fold_left (fun st text => handleSend w (type st text)) texts st)
    = messages st
      ++ exchanges (sentTexts texts)
           (fst (converse w (userProfile st) (sentTexts texts))).
Proof.
  induction texts as [|text texts IH]; intros st; cbn [fold_left].
  - cbn. now rewrite app_nil_r.
  - unfold sentTexts in *. cbn [filter].
    destruct (IH (handleSend w (type st text))) as [IH1 IH2].
    rewrite IH1, IH2. clear IH IH1 IH2.
    unfold handleSend. cbn [input type userProfile messages].
    destruct (truthy_str (trim text)) eqn:Et.
    + cbn [map converse userProfile messages].
      destruct (converse w (profileAfter (generateBotResponse w (userProfile st) (trim text)))
                  (map trim (filter (fun t => truthy_str (trim t)) texts)))
        as [ts q] eqn:E.
      cbn [fst snd]. split; [reflexivity|].
      unfold exchanges. cbn [combine flat_map fst snd].
      rewrite <- !app_assoc. reflexivity.
    + cbn [userProfile messages type]. split; reflexivity.
Qed.

(** X19.  A session of the page is the dialogue run on what was actually
    sent.  Typing and sending a list of texts leaves the conversation as the
    welcome message followed, for each text that is not blank, by the
    trimmed text and the dialogue's reply to it, in order; the profile held
    is the dialogue's profile after those texts, a profile the dialogue can
    reach. *)
Theorem session_is_the_dialogue (w : World) (texts : list string) :
  userProfile (session w texts)
  = snd (converse w emptyProfile (sentTexts texts)) /\
  messages (session w texts)
  = {| role := bot; content := WELCOME |}
    :: exchanges (sentTexts texts) (fst (converse w emptyProfile (sentTexts texts))) /\
  reachableProfile w (userProfile (session w texts)).
Proof.
  unfold session. destruct (session_from w texts initialState) as [H1 H2].
  rewrite H1, H2. repeat split.
  apply converse_reachable. apply reach_empty.
Qed.

End ChatFacts.

(* ================================================================== *)
(** * Facts about the basic generator and the growth chart *)
(* ================================================================== *)

Module BasicFacts.
Import JS.
Import Basic.
Local Open Scope list_scope.

(** X22.  The basic generator accepts exactly the answers the risk
    validator accepts, in any mix of capitals, and throws on every other
    text; the tier the validator returns gives the same portfolio as the
    answer itself. *)
Theorem basic_generator_accepts_validated_tiers (risk : string) (amount : Q) :
  ((exists pf, generatePortfolio risk amount = Some pf) <->
   (exists r, Page.validateRiskTolerance risk = Some r)) /\
  (forall r, Page.validateRiskTolerance risk = Some r ->
             generatePortfolio r amount = generatePortfolio risk amount).
Proof.
  split.
  - unfold generatePortfolio, Page.validateRiskTolerance. cbn [existsb].
    destruct (String.eqb (toLowerCase risk) "low"); cbn [orb]; [split; eauto|].
    destruct (String.eqb (toLowerCase risk) "medium"); cbn [orb]; [split; eauto|].
    destruct (String.eqb (toLowerCase risk) "high"); cbn [orb]; [split; eauto|].
    split; intros [x Hx]; discriminate.
  - intros r Hr. apply PageMore.validateRiskTolerance_tier in Hr. destruct Hr as [-> _].
    unfold generatePortfolio. now rewrite PageMore.toLowerCase_idempotent.
Qed.



End BasicFacts.

Module GrowthFacts.
Import JS.
Import Growth.
Local Open Scope list_scope.

(** For every risk level the yearly rate stays between 5 and 12 percent. *)
Lemma yearlyRate_bounds (riskLevel : string) (x : Q) :
  0 <= x < 1 ->
  0.05 <= baseRate riskLevel + (x * volatility riskLevel - volatility riskLevel / 2)
  < 0.12.
Proof.
  intros [H0 H1]. unfold baseRate, volatility.
  destruct (String.eqb riskLevel "low"); [|destruct (String.eqb riskLevel "medium")];
    unfold Qdiv; change (/ 2) with (1 # 2); split; lra.
Qed.

Lemma Math_round_monotone (x y : Q) : x <= y -> (Math_round x <= Math_round y)%Z.
Proof. intros H. unfold Math_round. apply Qfloor_resp_le. lra. Qed.

Lemma rounds_years (h : Host) (random : nat -> Q) (b v : Q) (m : option Q)
    (count : nat) :
  forall y c, map year (rounds h random b v m count y c)
              = map Z.of_nat (seq y count).
Proof.
  induction count as [|count IH]; intros y c; cbn; [reflexivity|].
  f_equal. apply IH.
Qed.

(** The amount after one round is not below the amount before it. *)
Lemma round_grows (riskLevel : string) (x c : Q) (m : option Q) :
  0 <= x < 1 -> 0 <= c ->
  (forall a, m = Some a -> 0 <= a) ->
  c * (1 # 1) <=
  (match m with
   | Some a => if truthy_num a then c + a * 12 else c
   | None => c
   end)
  * (1 + (baseRate riskLevel + (x * volatility riskLevel - volatility riskLevel / 2))).
Proof.
  intros Hx Hc Hm. pose proof (yearlyRate_bounds riskLevel x Hx) as [Hr _].
  set (r := baseRate riskLevel + (x * volatility riskLevel - volatility riskLevel / 2)) in *.
  destruct m as [a|]; [|nra].
  specialize (Hm a eq_refl). destruct (truthy_num a); nra.
Qed.

Lemma rounds_sorted (h : Host) (random : nat -> Q) (riskLevel : string)
    (m : option Q) (count : nat) :
  (forall k, 0 <= random k < 1) ->
  (forall a, m = Some a -> 0 <= a) ->
  forall y c, 0 <= c ->
    Forall (fun pt => (Math_round c <= value pt)%Z)
           (rounds h random (baseRate riskLevel) (volatility riskLevel) m count y c) /\
    forall i p1 p2,
      nth_error (rounds h random (baseRate riskLevel) (volatility riskLevel) m count y c) i
      = Some p1 ->
      nth_error (rounds h random (baseRate riskLevel) (volatility riskLevel) m count y c)
                (S i) = Some p2 ->
      (value p1 <= value p2)%Z.
Proof.
  intros Hrand Hm. induction count as [|count IH]; intros y c Hc; cbn [rounds].
  - split; [constructor|]. intros i p1 p2 H. destruct i; discriminate.
  - pose proof (round_grows riskLevel (random y) c m (Hrand y) Hc Hm) as Hg.
    set (c' := (match m with
                | Some a => if truthy_num a then c + a * 12 else c
                | None => c
                end)
               * (1 + (baseRate riskLevel
                       + (random y * volatility riskLevel - volatility riskLevel / 2))))
      in *.
    assert (Hc' : 0 <= c') by lra.
    destruct (IH (S y) c' Hc') as [IHall IHadj].
    assert (Hcc : c <= c') by lra.
    pose proof (Math_round_monotone c c' Hcc) as Hmono.
    split.
    + constructor.
      * exact Hmono.
      * eapply Forall_impl; [|exact IHall]. intros pt Hpt. cbv beta in Hpt. lia.
    + intros i p1 p2 H1 H2. destruct i as [|i].
      * cbn in H1, H2. injection H1 as <-. cbn [value].
        destruct count as [|count]; [discriminate|].
        cbn [rounds nth_error] in H2.
        rewrite Forall_forall in IHall. apply IHall.
        cbn [rounds]. left. now injection H2.
      * cbn [nth_error] in H1, H2. now apply (IHadj i).
Qed.

(** X24.  With random draws in [0,1), a non-negative amount and no
    negative monthly amount, the growth chart has one point per year from 0
    to the horizon, in order, and its values never fall from one year to
    the next, whatever the draws and the risk level. *)
Theorem growth_chart_never_falls (h : Host) (random : nat -> Q) (amount : Q)
    (years : Z) (monthlyAmount : option Q) (riskLevel : string) :
  (forall k, 0 <= random k < 1) ->
  0 <= amount ->
  (forall a, monthlyAmount = Some a -> 0 <= a) ->
  (0 <= years)%Z ->
  map year (generateGrowthData h random amount years monthlyAmount riskLevel)
  = map Z.of_nat (seq 0 (Z.to_nat (years + 1))) /\
  Z.of_nat (length (generateGrowthData h random amount years monthlyAmount riskLevel))
  = (years + 1)%Z /\
  forall i p1 p2,
    nth_error (generateGrowthData h random amount years monthlyAmount riskLevel) i
    = Some p1 ->
    nth_error (generateGrowthData h random amount years monthlyAmount riskLevel) (S i)
    = Some p2 ->
    (value p1 <= value p2)%Z.
Proof.
  intros Hrand Ha Hm Hy. unfold generateGrowthData.
  pose proof (rounds_years h random (baseRate riskLevel) (volatility riskLevel)
                monthlyAmount (Z.to_nat (years + 1)) 0%nat amount) as Hyears.
  split; [exact Hyears|]. split.
  - rewrite <- (length_map year), Hyears, length_map, length_seq. lia.
  - apply (rounds_sorted h random riskLevel monthlyAmount _ Hrand Hm 0%nat amount Ha).
Qed.

Lemma growth_chart_never_falls_witness :
  map year (generateGrowthData Sample.host (fun _ => 1 # 2) 10000 3 (Some 500) "medium")
  = [0; 1; 2; 3]%Z.
Proof.
  refine (proj1 (growth_chart_never_falls Sample.host (fun _ => 1 # 2) 10000 3
                   (Some 500) "medium" _ _ _ _)).
  - intros k. split; [discriminate | reflexivity].
  - discriminate.
  - intros a Ha. injection Ha as <-. discriminate.
  - discriminate.
Defined.

(** X25.  The point labelled year 0 is not the amount invested: it already
    holds a year of contributions and growth, and lies above an invested
    amount of 10 or more. *)
Theorem year_zero_is_already_grown (h : Host) (random : nat -> Q) (amount : Q)
    (years : Z) (monthlyAmount : option Q) (riskLevel : string) :
  (forall k, 0 <= random k < 1) ->
  10 <= amount ->
  (forall a, monthlyAmount = Some a -> 0 <= a) ->
  (0 <= years)%Z ->
  exists pt rest,
    generateGrowthData h random amount years monthlyAmount riskLevel = pt :: rest /\
    year pt = 0%Z /\
    amount < inject_Z (value pt).
Proof.
  intros Hrand Ha Hm Hy. unfold generateGrowthData.
  destruct (Z.to_nat (years + 1)) as [|count] eqn:E; [lia|]. cbn [rounds].
  eexists. eexists. split; [reflexivity|]. split; [reflexivity|]. cbn [value].
  pose proof (yearlyRate_bounds riskLevel (random 0%nat) (Hrand 0%nat)) as [Hr _].
  set (r := baseRate riskLevel
            + (random 0%nat * volatility riskLevel - volatility riskLevel / 2)) in *.
  set (c := match monthlyAmount with
            | Some m => if truthy_num m then amount + m * 12 else amount
            | None => amount
            end).
  assert (Hc : amount <= c).
  { subst c. destruct monthlyAmount as [m|]; [|lra].
    specialize (Hm m eq_refl). destruct (truthy_num m); lra. }
  unfold Math_round.
  pose proof (Qlt_floor (c * (1 + r) + (1 # 2))) as Hfl.
  rewrite inject_Z_plus in Hfl. change (inject_Z 1) with 1 in Hfl.
  assert (amount + (1 # 2) <= c * (1 + r)) by nra.
  lra.
Qed.

Lemma year_zero_is_already_grown_witness :
  exists pt rest,
    generateGrowthData Sample.host (fun _ => 0) 10000 5 None "low" = pt :: rest /\
    year pt = 0%Z /\ 10000 < inject_Z (value pt).
Proof.
  apply year_zero_is_already_grown.
  - intros k. split; [discriminate | reflexivity].
  - discriminate.
  - intros a Ha. discriminate.
  - discriminate.
Defined.

End GrowthFacts.

(* ================================================================== *)
(** * Sample runs of the facts above *)
(* ================================================================== *)

Module Runs.
Import DataService.
Import Engine.

(** X26 on an investor of 30 with risk score 5. *)
Lemma volatility_dampens_without_income_witness :
  exists calm stormy,
    generateAdvancedPortfolioWith Sample.host (getETFData (Sample.market 1 10))
      (getMarketConditions Sample.host (Sample.market 1 10))
      (Sample.investor 30 5 10 false) 1000 = Some calm /\
    generateAdvancedPortfolioWith Sample.host (getETFData (Sample.market 1 10))
      (getMarketConditions Sample.host (Sample.market 1 30))
      (Sample.investor 30 5 10 false) 1000 = Some stormy /\
    equityWeight (portfolio stormy) < equityWeight (portfolio calm).
Proof.
  apply (EngineFacts.volatility_dampens_without_income Sample.host (Sample.market 1 10)
           (getMarketConditions Sample.host (Sample.market 1 10))
           (getMarketConditions Sample.host (Sample.market 1 30))
           (Sample.investor 30 5 10 false) 1000 eq_refl);
    [cbn; split; discriminate | reflexivity | reflexivity].
Defined.

(** X27 on the age of 30, the age the page sends. *)
Lemma income_raises_bonds_up_to_40_witness :
  exists withIncome without,
    generateAdvancedPortfolioWith Sample.host (getETFData (Sample.market 1 10))
      (getMarketConditions Sample.host (Sample.market 1 10))
      (withIncomeNeeds (Sample.investor 30 5 10 false) true) 1000 = Some withIncome /\
    generateAdvancedPortfolioWith Sample.host (getETFData (Sample.market 1 10))
      (getMarketConditions Sample.host (Sample.market 1 10))
      (withIncomeNeeds (Sample.investor 30 5 10 false) false) 1000 = Some without /\
    weightOf SA_BOND (portfolio without) <= weightOf SA_BOND (portfolio withIncome).
Proof.
  apply (EngineFacts.income_raises_bonds_up_to_40 Sample.host (Sample.market 1 10)
           (getMarketConditions Sample.host (Sample.market 1 10))
           (Sample.investor 30 5 10 false) 1000);
    [cbn; discriminate | cbn; split; discriminate].
Defined.

(** X28 on the empty profile. *)
Lemma page_plan_sums_to_one_witness :
  exists res,
    Page.generatePortfolio (Sample.world 1 10) Page.emptyProfile = Some res /\
    sumWeights (weights (portfolio res)) == 1.
Proof.
  exact (PageFacts.page_plan_sums_to_one (Sample.world 1 10) Page.emptyProfile eq_refl).
Defined.

End Runs.
